(** * MicroRadar: a shallow embedding of the kernel-telemetry pipeline

    The first part of the file holds the models, one module per source
    unit:

    - [Kernel]     the lifecycle probes of the container-trace eBPF
                   program and the maps they share with user space;
    - [GoStrings]  the functions of Go's strings package the resolver calls;
    - [Runtime]    the runtime resolver (cgroup line classification);
    - [Config]     configuration loading, validation and defaults;
    - [Pool]       the object pools of the memory manager;
    - [GoFmt]      integer-to-float conversion and the fmt verbs in use;
    - [Ebpf]       handles of the eBPF library, effects of a call;
    - [Processor]  the data processor and its event handlers;
    - [Agent]      the monitor: lifecycle, metrics copies, network
                   roll-up, text exposition;
    - [Aggregation] the aggregation ticks and cleanups of the processor;
    - [Telemetry]  reading the kernel maps into the monitor's metrics;
    - [Memory]     the memory manager, its default pools and optimizer;
    - [Detection]  detection of the container runtimes on the host;
    - [ProcessKill] the process manager that stops a container.

    [Scenarios] and [MoreScenarios] fix concrete inputs; the modules
    named [...Proofs] hold the properties.

    Machine integers are [Z] with the wrap-around written out, float64 is
    the primitive binary64 type, byte strings are [string], Go maps are
    [gmap], points in time are nanoseconds in [Z].  Logging is not
    modelled. *)

From Stdlib Require Import ZArith Lia Bool List Ascii String.
From Stdlib Require Import PrimFloat SpecFloat FloatOps DecimalString HexadecimalString.
From Stdlib Require FloatAxioms.
From stdpp Require Import base option gmap strings list fin_maps.

Local Open Scope Z_scope.

(** ** Fixed-width integers *)

Definition wrap32 (z : Z) : Z := z mod 2 ^ 32.
Definition wrap64 (z : Z) : Z := z mod 2 ^ 64.

(** Two's complement int64, as Go's [int64(x)] conversion and int64
    arithmetic produce it. *)
Definition wrap_i64 (z : Z) : Z := (z + 2 ^ 63) mod 2 ^ 64 - 2 ^ 63.

(** * The container-trace probes (kernel side) *)

Module Kernel.

(** Constants of common.h. *)
Definition MAX_CONTAINERS : Z := 1000.
Definition MAX_COMM_LEN : Z := 16.
Definition MAX_CONTAINER_ID_LEN : Z := 64.

Definition EVENT_CONTAINER_START : Z := 1.
Definition EVENT_CONTAINER_STOP : Z := 2.

Definition CONTAINER_STATUS_UNKNOWN : Z := 0.
Definition CONTAINER_STATUS_CREATED : Z := 1.
Definition CONTAINER_STATUS_RUNNING : Z := 2.
Definition CONTAINER_STATUS_PAUSED : Z := 3.
Definition CONTAINER_STATUS_STOPPED : Z := 4.
Definition CONTAINER_STATUS_EXITED : Z := 5.

(** Indices into stats_map. *)
Definition STAT_CONTAINERS_CREATED : nat := 0.
Definition STAT_CONTAINERS_STOPPED : nat := 1.
Definition STAT_EVENTS_SENT : nat := 2.
Definition STAT_EVENTS_DROPPED : nat := 3.

(** struct container_info; the two char arrays are byte lists of their
    declared length. *)
Record container_info := {
  cgroup_id : Z;
  pid : Z;
  ppid : Z;
  container_id : list Z;
  comm : list Z;
  start_time : Z;
  cpu_usage : Z;
  memory_usage : Z;
  status : Z
}.

Definition zero_bytes (n : Z) : list Z := repeat 0 (Z.to_nat n).

(** [struct container_info container = {}]. *)
Definition container_info_zero : container_info :=
  {| cgroup_id := 0; pid := 0; ppid := 0;
     container_id := zero_bytes MAX_CONTAINER_ID_LEN;
     comm := zero_bytes MAX_COMM_LEN;
     start_time := 0; cpu_usage := 0; memory_usage := 0; status := 0 |}.

Definition set_status (st : Z) (c : container_info) : container_info :=
  {| cgroup_id := cgroup_id c; pid := pid c; ppid := ppid c;
     container_id := container_id c; comm := comm c;
     start_time := start_time c; cpu_usage := cpu_usage c;
     memory_usage := memory_usage c; status := st |}.

Definition set_comm (cm : list Z) (c : container_info) : container_info :=
  {| cgroup_id := cgroup_id c; pid := pid c; ppid := ppid c;
     container_id := container_id c; comm := cm;
     start_time := start_time c; cpu_usage := cpu_usage c;
     memory_usage := memory_usage c; status := status c |}.

(** struct event_data; the probes of this program only ever fill the
    [container] member of the union. *)
Record event_data := {
  ev_type : Z;
  ev_timestamp : Z;
  ev_cgroup_id : Z;
  ev_pid : Z;
  ev_container : container_info
}.

(** [sizeof(struct event_data)]: 4+4 (type, padding), 8, 8, 4+4 (pid,
    padding), then the union, whose largest member is container_info
    (8+4+4+64+16+8+4+4+8+4+4 = 128 bytes). *)
Definition sizeof_event_data : Z := 160.

(** A ring-buffer record carries an 8-byte header. *)
Definition BPF_RINGBUF_HDR_SZ : Z := 8.

(** The [events] ring buffer: its size in bytes and the records that were
    submitted and not yet consumed, oldest first. *)
Record ringbuf := {
  rb_max_entries : Z;
  rb_pending : list event_data
}.

(** The four maps of the program. *)
Record maps := {
  container_map : gmap Z container_info;
  pid_to_cgroup_map : gmap Z Z;
  events : ringbuf;
  stats_map : list Z
}.

Definition with_container_map (f : gmap Z container_info -> gmap Z container_info)
    (s : maps) : maps :=
  {| container_map := f (container_map s);
     pid_to_cgroup_map := pid_to_cgroup_map s;
     events := events s; stats_map := stats_map s |}.

Definition with_pid_map (f : gmap Z Z -> gmap Z Z) (s : maps) : maps :=
  {| container_map := container_map s;
     pid_to_cgroup_map := f (pid_to_cgroup_map s);
     events := events s; stats_map := stats_map s |}.

Definition with_events (r : ringbuf) (s : maps) : maps :=
  {| container_map := container_map s;
     pid_to_cgroup_map := pid_to_cgroup_map s;
     events := r; stats_map := stats_map s |}.

Definition with_stats (st : list Z) (s : maps) : maps :=
  {| container_map := container_map s;
     pid_to_cgroup_map := pid_to_cgroup_map s;
     events := events s; stats_map := st |}.

(** The maps as the loader creates them. *)
Definition maps_init : maps :=
  {| container_map := ∅; pid_to_cgroup_map := ∅;
     events := {| rb_max_entries := 256 * 1024; rb_pending := [] |};
     stats_map := repeat 0 10 |}.

(** What the kernel tells a probe about the context it runs in.  The two
    [lru_victim] fields name the key the kernel's LRU bookkeeping would
    reclaim if an insertion found the map full; recency tracking is the
    kernel's, not the program's. *)
Record probe_ctx := {
  task_present : bool;           (* bpf_get_current_task() != NULL *)
  current_cgroup : Z;            (* bpf_get_current_cgroup_id() *)
  pid_tgid : Z;                  (* bpf_get_current_pid_tgid() *)
  ktime : nat -> Z;              (* n-th call of bpf_ktime_get_ns() *)
  current_comm : list Z;         (* bpf_get_current_comm(), 16 bytes *)
  stack_after_cgroup : list Z;   (* bytes that follow &cgroup_id *)
  lru_victim_container : Z;
  lru_victim_pid : Z
}.

Definition get_current_cgroup_id (c : probe_ctx) : Z :=
  if task_present c then wrap64 (current_cgroup c) else 0.

(** [bpf_get_current_pid_tgid() >> 32], stored in a __u32. *)
Definition current_pid (c : probe_ctx) : Z :=
  wrap32 (Z.shiftr (wrap64 (pid_tgid c)) 32).

Definition is_container_process (cgroup : Z) : bool :=
  negb (cgroup =? 0) && negb (cgroup =? 1).

(** Little-endian bytes of a __u64. *)
Definition le_bytes64 (z : Z) : list Z :=
  map (fun i => Z.land (Z.shiftr z (8 * Z.of_nat i)) 255) (seq 0 8).

(** [bpf_probe_read_kernel_str(dst, size, src)]: copies up to [size - 1]
    bytes, stopping after the first NUL, and terminates the copy. *)
Fixpoint read_str (fuel : nat) (src : list Z) : list Z :=
  match fuel, src with
  | S n, b :: rest => if b =? 0 then [] else b :: read_str n rest
  | _, _ => []
  end.

Definition probe_read_kernel_str (dst : list Z) (size : Z) (src : list Z) : list Z :=
  let copied := read_str (Z.to_nat (size - 1)) src ++ [0] in
  copied ++ drop (length copied) dst.

(** BPF_MAP_TYPE_LRU_HASH, [bpf_map_update_elem(.., BPF_ANY)]: an existing
    key is overwritten, a new key is inserted, after reclaiming an entry
    when the map is full. *)
Definition lru_update {V} (max_entries : Z) (victim : Z) (k : Z) (v : V)
    (m : gmap Z V) : gmap Z V :=
  match m !! k with
  | Some _ => <[k := v]> m
  | None =>
      if Z.of_nat (size m) <? max_entries then <[k := v]> m
      else <[k := v]> (delete victim m)
  end.

(** [update_stats]: fetch-and-add on an array slot, if the slot exists. *)
Definition update_stats (index : nat) (s : maps) : maps :=
  match stats_map s !! index with
  | Some count => with_stats (<[index := wrap64 (count + 1)]> (stats_map s)) s
  | None => s
  end.

(** The bytes a record of [size] bytes takes in the ring. *)
Definition ringbuf_record_len (size : Z) : Z :=
  (size + BPF_RINGBUF_HDR_SZ + 7) / 8 * 8.

(** [bpf_ringbuf_reserve]: every pending record of this ring is an
    event_data; the reservation fails when the producer would get more
    than [max_entries - 1] bytes ahead of the consumer. *)
Definition ringbuf_reserve (r : ringbuf) (size : Z) : bool :=
  Z.of_nat (length (rb_pending r)) * ringbuf_record_len sizeof_event_data
  + ringbuf_record_len size <=? rb_max_entries r - 1.

Definition ringbuf_submit (r : ringbuf) (e : event_data) : ringbuf :=
  {| rb_max_entries := rb_max_entries r; rb_pending := rb_pending r ++ [e] |}.

(** [send_event]: returns the new maps and the C return value. *)
Definition send_event (event : event_data) (s : maps) : maps * Z :=
  if ringbuf_reserve (events s) sizeof_event_data then
    (update_stats STAT_EVENTS_SENT
       (with_events (ringbuf_submit (events s) event) s), 0)
  else (update_stats STAT_EVENTS_DROPPED s, -1).

(** tracepoint/syscalls/sys_enter_clone *)
Definition trace_container_start (c : probe_ctx) (s : maps) : maps * Z :=
  let cgroup := get_current_cgroup_id c in
  let p := current_pid c in
  if negb (is_container_process cgroup) then (s, 0) else
  let s := with_pid_map
             (lru_update (MAX_CONTAINERS * 10) (lru_victim_pid c) p cgroup) s in
  match container_map s !! cgroup with
  | Some _ => (s, 0)
  | None =>
      let container :=
        {| cgroup_id := cgroup; pid := p; ppid := current_pid c;
           container_id :=
             probe_read_kernel_str (zero_bytes MAX_CONTAINER_ID_LEN) 16
               (le_bytes64 cgroup ++ stack_after_cgroup c);
           comm := current_comm c;
           start_time := ktime c 0%nat;
           cpu_usage := 0; memory_usage := 0;
           status := CONTAINER_STATUS_CREATED |} in
      let s := with_container_map
                 (lru_update MAX_CONTAINERS (lru_victim_container c) cgroup container) s in
      let event :=
        {| ev_type := EVENT_CONTAINER_START; ev_timestamp := ktime c 1%nat;
           ev_cgroup_id := cgroup; ev_pid := p; ev_container := container |} in
      let s := fst (send_event event s) in
      (update_stats STAT_CONTAINERS_CREATED s, 0)
  end.

(** tracepoint/syscalls/sys_enter_exit *)
Definition trace_container_stop (c : probe_ctx) (s : maps) : maps * Z :=
  let cgroup := get_current_cgroup_id c in
  let p := current_pid c in
  if negb (is_container_process cgroup) then (s, 0) else
  match container_map s !! cgroup with
  | None => (s, 0)
  | Some container =>
      if negb (pid container =? p) then (s, 0) else
      let container := set_status CONTAINER_STATUS_STOPPED container in
      let s := with_container_map (<[cgroup := container]>) s in
      let event :=
        {| ev_type := EVENT_CONTAINER_STOP; ev_timestamp := ktime c 0%nat;
           ev_cgroup_id := cgroup; ev_pid := p; ev_container := container |} in
      let s := fst (send_event event s) in
      let s := update_stats STAT_CONTAINERS_STOPPED s in
      let s := with_container_map (delete cgroup) s in
      let s := with_pid_map (delete p) s in
      (s, 0)
  end.

(** kprobe/cgroup_attach_task *)
Definition kprobe_cgroup_attach (c : probe_ctx) (s : maps) : maps * Z :=
  let cgroup := get_current_cgroup_id c in
  let p := current_pid c in
  if negb (is_container_process cgroup) then (s, 0) else
  let s := with_pid_map
             (lru_update (MAX_CONTAINERS * 10) (lru_victim_pid c) p cgroup) s in
  match container_map s !! cgroup with
  | Some container =>
      if status container =? CONTAINER_STATUS_CREATED then
        let container := set_status CONTAINER_STATUS_RUNNING container in
        let s := with_container_map (<[cgroup := container]>) s in
        let event :=
          {| ev_type := EVENT_CONTAINER_START; ev_timestamp := ktime c 0%nat;
             ev_cgroup_id := cgroup; ev_pid := p; ev_container := container |} in
        (fst (send_event event s), 0)
      else (s, 0)
  | None => (s, 0)
  end.

(** tracepoint/sched/sched_process_exec *)
Definition trace_process_exec (c : probe_ctx) (s : maps) : maps * Z :=
  let cgroup := get_current_cgroup_id c in
  if negb (is_container_process cgroup) then (s, 0) else
  match container_map s !! cgroup with
  | Some container =>
      let container := set_comm (current_comm c) container in
      let container :=
        if status container =? CONTAINER_STATUS_CREATED
        then set_status CONTAINER_STATUS_RUNNING container else container in
      (with_container_map (<[cgroup := container]>) s, 0)
  | None => (s, 0)
  end.

(** The four lifecycle hook points. *)
Inductive probe := SysEnterClone | SysEnterExit | CgroupAttachTask | SchedProcessExec.

Definition run_probe (p : probe) : probe_ctx -> maps -> maps * Z :=
  match p with
  | SysEnterClone => trace_container_start
  | SysEnterExit => trace_container_stop
  | CgroupAttachTask => kprobe_cgroup_attach
  | SchedProcessExec => trace_process_exec
  end.

(** A history of probe firings, applied in order. *)
Definition run_probes (tr : list (probe * probe_ctx)) (s : maps) : maps :=
  fold_left (fun s pc => fst (run_probe (fst pc) (snd pc) s)) tr s.

End Kernel.

(** * Byte strings, as Go's [strings] package treats them *)

Module GoStrings.

Local Open Scope string_scope.

Definition str_of_bytes (l : list nat) : string :=
  fold_right (fun b s => String (ascii_of_nat b) s) "" l.

Fixpoint drop_str (n : nat) (s : string) : string :=
  match n, s with
  | S n', String _ r => drop_str n' r
  | _, _ => s
  end.

Fixpoint rev_str_onto (s acc : string) : string :=
  match s with
  | "" => acc
  | String a r => rev_str_onto r (String a acc)
  end.

Definition rev_str (s : string) : string := rev_str_onto s "".

(** strings.Contains *)
Fixpoint Contains (s substr : string) : bool :=
  String.prefix substr s ||
  match s with
  | "" => false
  | String _ r => Contains r substr
  end.

(** strings.Cut: the text before and after the first occurrence of [sep]. *)
Fixpoint Cut (s sep : string) : option (string * string) :=
  if String.prefix sep s then Some ("", drop_str (String.length sep) s)
  else match s with
       | "" => None
       | String a r =>
           match Cut r sep with
           | Some (before, after) => Some (String a before, after)
           | None => None
           end
       end.

(** strings.Split for a non-empty separator (every call site passes a
    literal).  Each cut consumes at least one byte, so [length s] rounds
    are enough. *)
Fixpoint Split_rounds (rounds : nat) (s sep : string) : list string :=
  match rounds with
  | O => [s]
  | S n =>
      match Cut s sep with
      | None => [s]
      | Some (before, after) => before :: Split_rounds n after sep
      end
  end.

Definition Split (s sep : string) : list string :=
  Split_rounds (String.length s) s sep.

(** The encodings of the code points for which unicode.IsSpace holds:
    the six ASCII ones, U+0085, U+00A0, U+1680, U+2000..U+200A, U+2028,
    U+2029, U+202F, U+205F and U+3000. *)
Definition space_runes : list string :=
  map str_of_bytes
    [ [9]; [10]; [11]; [12]; [13]; [32];
      [194; 133]; [194; 160]; [225; 154; 128];
      [226; 128; 128]; [226; 128; 129]; [226; 128; 130]; [226; 128; 131];
      [226; 128; 132]; [226; 128; 133]; [226; 128; 134]; [226; 128; 135];
      [226; 128; 136]; [226; 128; 137]; [226; 128; 138];
      [226; 128; 168]; [226; 128; 169]; [226; 128; 175];
      [226; 129; 159]; [227; 128; 128] ]%nat.

(** The first of [pats] that [s] starts with. *)
Definition leading (pats : list string) (s : string) : option string :=
  find (fun p => String.prefix p s) pats.

Fixpoint trim_left_rounds (rounds : nat) (pats : list string) (s : string) : string :=
  match rounds with
  | O => s
  | S n =>
      match leading pats s with
      | Some p => trim_left_rounds n pats (drop_str (String.length p) s)
      | None => s
      end
  end.

Definition TrimLeftSpace (s : string) : string :=
  trim_left_rounds (String.length s) space_runes s.

Definition TrimRightSpace (s : string) : string :=
  rev_str (trim_left_rounds (String.length s) (map rev_str space_runes) (rev_str s)).

(** strings.TrimSpace: leading, then trailing white space is removed. *)
Definition TrimSpace (s : string) : string := TrimRightSpace (TrimLeftSpace s).

End GoStrings.

(** * The runtime resolver *)

Module Runtime.

Import GoStrings.
Local Open Scope string_scope.

Record ContainerRuntimeInfo := {
  ID : string;
  Name : string;
  Image : string;
  Status : string;
  Runtime : string;
  CgroupPath : string;
  CgroupID : Z;
  PID : Z;
  Labels : option (gmap string string);
  CreatedAt : Z;
  StartedAt : Z
}.

Definition isContainerCgroup (line runtime : string) : bool :=
  if String.eqb runtime "docker" then
    Contains line "/docker/" || Contains line "/docker-"
  else if String.eqb runtime "containerd" then
    Contains line "/containerd/" || Contains line "/k8s.io/"
  else if String.eqb runtime "cri-o" then
    Contains line "/crio-" || Contains line "/crio/"
  else false.

(** [parts[1]] when [len(parts) > 1], else the empty string. *)
Definition second_part (parts : list string) : string :=
  match parts with
  | _ :: p1 :: _ => TrimSpace p1
  | _ => ""
  end.

Definition extractContainerID (line runtime : string) : string :=
  if String.eqb runtime "docker" then second_part (Split line "/docker/")
  else if String.eqb runtime "containerd" then second_part (Split line "/containerd/")
  else if String.eqb runtime "cri-o" then second_part (Split line "/crio-")
  else "".

(** The scanner loop of parseCgroupFile over the lines of the file;
    [clock n] is the n-th reading of time.Now(). *)
Fixpoint scan_cgroup_lines (lines : list string) (runtime : string) (pid : Z)
    (clock : nat -> Z) : option ContainerRuntimeInfo :=
  match lines with
  | [] => None
  | line :: rest =>
      if isContainerCgroup line runtime then
        let containerID := extractContainerID line runtime in
        if negb (String.eqb containerID "") then
          Some {| ID := containerID; Name := ""; Image := "";
                  Status := "running"; Runtime := runtime;
                  CgroupPath := line; CgroupID := 0; PID := pid;
                  Labels := None; CreatedAt := clock 0%nat;
                  StartedAt := clock 1%nat |}
        else scan_cgroup_lines rest runtime pid clock
      else scan_cgroup_lines rest runtime pid clock
  end.

(** parseCgroupFile; [file] is [None] when the cgroup file cannot be
    opened, else the lines the scanner yields. *)
Definition parseCgroupFile (file : option (list string)) (runtime : string)
    (pid : Z) (clock : nat -> Z) : option ContainerRuntimeInfo :=
  match file with
  | None => None
  | Some lines => scan_cgroup_lines lines runtime pid clock
  end.

(** parseContainersFromCgroup over the numeric entries of /proc, each with
    its pid and its cgroup file. *)
Definition parseContainersFromCgroup (proc : list (Z * option (list string)))
    (runtime : string) (clock : nat -> Z) : list ContainerRuntimeInfo :=
  omap (fun e => parseCgroupFile (snd e) runtime (fst e) clock) proc.

Inductive get_error := UnsupportedRuntime (runtime : string).

(** GetContainers with its three per-runtime helpers inlined. *)
Definition GetContainers (proc : list (Z * option (list string)))
    (runtime : string) (clock : nat -> Z)
    : list ContainerRuntimeInfo + get_error :=
  if String.eqb runtime "docker" then
    inl (parseContainersFromCgroup proc "docker" clock)
  else if String.eqb runtime "containerd" then
    inl (parseContainersFromCgroup proc "containerd" clock)
  else if String.eqb runtime "cri-o" then
    inl (parseContainersFromCgroup proc "crio" clock)
  else inr (UnsupportedRuntime runtime).

End Runtime.

(** * Configuration *)

Module Config.

Local Open Scope string_scope.

(** time.Duration values, in nanoseconds. *)
Definition Millisecond : Z := 1000000.
Definition Second : Z := 1000 * Millisecond.

Record TargetConfig := {
  Name : string;
  Runtime : string;
  Metrics : list string;
  SamplingRate : Z
}.

Record AlertThresholds := {
  CPU : float;
  Memory : float;
  NetworkLatency : float
}.

Record MonitoringConfig := {
  Targets : list TargetConfig;
  Thresholds : AlertThresholds
}.

Record DisplayConfig := {
  RefreshRate : Z;
  Theme : string
}.

Record SystemConfig := {
  MaxContainers : Z;
  MemoryLimit : string;
  LogLevel : string
}.

Record Config := {
  Monitoring : MonitoringConfig;
  Display : DisplayConfig;
  System : SystemConfig
}.

(** Which check of Validate rejected the configuration. *)
Inductive validate_error :=
| NoTargets
| TargetNameEmpty (i : nat)
| TargetRuntimeEmpty (i : nat)
| TargetRuntimeUnsupported (i : nat) (runtime : string)
| TargetSamplingRateTooSmall (i : nat)
| CPUThresholdOutOfRange
| MemoryThresholdOutOfRange
| LatencyThresholdNotPositive.

Inductive load_error :=
| ReadFailed
| ParseFailed
| ValidationFailed (e : validate_error).

(** The map literal [validRuntimes] inside the loop of Validate. *)
Definition validRuntimes (runtime : string) : bool :=
  String.eqb runtime "docker" || String.eqb runtime "containerd"
  || String.eqb runtime "cri-o".

Definition validate_target (i : nat) (target : TargetConfig) : option validate_error :=
  if String.eqb (Name target) "" then Some (TargetNameEmpty i)
  else if String.eqb (Runtime target) "" then Some (TargetRuntimeEmpty i)
  else if negb (validRuntimes (Runtime target)) then
    Some (TargetRuntimeUnsupported i (Runtime target))
  else if (SamplingRate target <? Second)%Z then Some (TargetSamplingRateTooSmall i)
  else None.

Fixpoint validate_targets (i : nat) (targets : list TargetConfig) : option validate_error :=
  match targets with
  | [] => None
  | target :: rest =>
      match validate_target i target with
      | Some e => Some e
      | None => validate_targets (S i) rest
      end
  end.

(** Config.Validate; [None] is the nil error. *)
Definition Validate (c : Config) : option validate_error :=
  if (length (Targets (Monitoring c)) =? 0)%nat then Some NoTargets else
  match validate_targets 0 (Targets (Monitoring c)) with
  | Some e => Some e
  | None =>
      let t := Thresholds (Monitoring c) in
      if (PrimFloat.leb (CPU t) 0 || PrimFloat.ltb 100 (CPU t))%bool then
        Some CPUThresholdOutOfRange
      else if (PrimFloat.leb (Memory t) 0 || PrimFloat.ltb 100 (Memory t))%bool then
        Some MemoryThresholdOutOfRange
      else if PrimFloat.leb (NetworkLatency t) 0 then
        Some LatencyThresholdNotPositive
      else None
  end.

Definition default_target (t : TargetConfig) : TargetConfig :=
  let rate := if (SamplingRate t =? 0)%Z then 2 * Second else SamplingRate t in
  let metrics :=
    if (length (Metrics t) =? 0)%nat
    then ["cpu"; "memory"; "network_latency"; "tcp_retransmits"]
    else Metrics t in
  {| Name := Name t; Runtime := Runtime t; Metrics := metrics;
     SamplingRate := rate |}.

Definition default_thresholds (t : AlertThresholds) : AlertThresholds :=
  {| CPU := if PrimFloat.eqb (CPU t) 0 then 70 else CPU t;
     Memory := if PrimFloat.eqb (Memory t) 0 then 80 else Memory t;
     NetworkLatency :=
       if PrimFloat.eqb (NetworkLatency t) 0 then 10 else NetworkLatency t |}.

(** Config.SetDefaults *)
Definition SetDefaults (c : Config) : Config :=
  {| Display :=
       {| RefreshRate :=
            if (RefreshRate (Display c) =? 0)%Z then 100 * Millisecond
            else RefreshRate (Display c);
          Theme := if String.eqb (Theme (Display c)) "" then "default"
                   else Theme (Display c) |};
     System :=
       {| MaxContainers :=
            if (MaxContainers (System c) =? 0)%Z then 1000
            else MaxContainers (System c);
          MemoryLimit := if String.eqb (MemoryLimit (System c)) "" then "48MB"
                         else MemoryLimit (System c);
          LogLevel := if String.eqb (LogLevel (System c)) "" then "info"
                      else LogLevel (System c) |};
     Monitoring :=
       {| Targets := map default_target (Targets (Monitoring c));
          Thresholds := default_thresholds (Thresholds (Monitoring c)) |} |}.

(** What reading and unmarshalling the file gave; a key the file omits
    leaves the zero value of its field. *)
Inductive file_contents :=
| Unreadable
| NotYAML
| Parsed (c : Config).

(** Load: read, unmarshal, validate, then fill in defaults. *)
Definition Load (file : file_contents) : Config + load_error :=
  match file with
  | Unreadable => inr ReadFailed
  | NotYAML => inr ParseFailed
  | Parsed config =>
      match Validate config with
      | Some e => inr (ValidationFailed e)
      | None => inl (SetDefaults config)
      end
  end.

End Config.

(** * Object pools of the memory manager *)

Module Pool.

Section ObjectPool.

(** [A] is what a non-nil interface value holds; the nil interface is
    [None].  A pooled object is represented by its contents: [reset]
    clears an object through its pointer, which leaves the interface
    value non-nil and changes what it holds. *)
Context {A : Type}.

Definition iface : Type := option A.

(** A buffered channel: its capacity and the values queued, next to be
    received first. *)
Record chan := {
  chan_cap : nat;
  chan_buf : list iface
}.

Record ObjectPool := {
  name : string;
  objects : chan;
  factory : unit -> iface;
  reset : option (A -> A);
  maxSize : Z;
  created : Z;
  hits : Z;
  misses : Z
}.

Definition with_objects (buf : list iface) (p : ObjectPool) : ObjectPool :=
  {| name := name p;
     objects := {| chan_cap := chan_cap (objects p); chan_buf := buf |};
     factory := factory p; reset := reset p; maxSize := maxSize p;
     created := created p; hits := hits p; misses := misses p |}.

(** The pool CreatePool stores under [name]; [make] panics on a negative
    size, which is [None] here. *)
Definition new_pool (nm : string) (size : Z) (f : unit -> iface)
    (r : option (A -> A)) : option ObjectPool :=
  if size <? 0 then None else
  Some {| name := nm;
          objects := {| chan_cap := Z.to_nat size; chan_buf := [] |};
          factory := f; reset := r; maxSize := size;
          created := 0; hits := 0; misses := 0 |}.

(** MemoryManager.CreatePool on the [pools] map. *)
Definition CreatePool (pools : gmap string ObjectPool) (nm : string) (size : Z)
    (f : unit -> iface) (r : option (A -> A))
    : option (gmap string ObjectPool) :=
  match new_pool nm size f r with
  | Some pool => Some (<[nm := pool]> pools)
  | None => None
  end.

(** ObjectPool.Get: a non-blocking receive, else a call of the factory. *)
Definition Get (p : ObjectPool) : ObjectPool * iface :=
  match chan_buf (objects p) with
  | obj :: rest =>
      ({| name := name p;
          objects := {| chan_cap := chan_cap (objects p); chan_buf := rest |};
          factory := factory p; reset := reset p; maxSize := maxSize p;
          created := created p; hits := wrap_i64 (hits p + 1);
          misses := misses p |}, obj)
  | [] =>
      ({| name := name p; objects := objects p;
          factory := factory p; reset := reset p; maxSize := maxSize p;
          created := wrap_i64 (created p + 1); hits := hits p;
          misses := wrap_i64 (misses p + 1) |}, factory p tt)
  end.

(** ObjectPool.Put: nil is ignored; the object is reset, then sent
    without blocking, which drops it when the buffer is full.  The
    second component is the caller's object as the call leaves it. *)
Definition Put (obj : iface) (p : ObjectPool) : ObjectPool * iface :=
  match obj with
  | None => (p, None)
  | Some a =>
      let a := match reset p with Some r => r a | None => a end in
      if (length (chan_buf (objects p)) <? chan_cap (objects p))%nat
      then (with_objects (chan_buf (objects p) ++ [Some a]) p, Some a)
      else (p, Some a)
  end.

(** ObjectPool.Stats: the last component is [len(p.objects)]. *)
Definition Stats (p : ObjectPool) : Z * Z * Z * nat :=
  (created p, hits p, misses p, length (chan_buf (objects p))).

Inductive pool_op :=
| OpGet
| OpPut (obj : iface).

Definition run_op (p : ObjectPool) (op : pool_op) : ObjectPool :=
  match op with
  | OpGet => fst (Get p)
  | OpPut obj => fst (Put obj p)
  end.

Definition run_ops (ops : list pool_op) (p : ObjectPool) : ObjectPool :=
  fold_left run_op ops p.

End ObjectPool.

Arguments ObjectPool : clear implicits.
Arguments iface : clear implicits.
Arguments chan : clear implicits.
Arguments pool_op : clear implicits.

End Pool.

(** * Numbers and text as Go prints and converts them *)

Module GoFmt.

Local Open Scope string_scope.
Local Open Scope list_scope.
Local Open Scope Z_scope.

(** [float64(x)] for an integer [x]: the nearest binary64, ties to even. *)
Definition float64_of_Z (z : Z) : float :=
  SF2Prim (binary_normalize 53 1024 z 0 false).

(** The verb %d. *)
Definition fmt_d (z : Z) : string :=
  DecimalString.NilZero.string_of_int (Z.to_int z).

(** The verb %x on an unsigned integer. *)
Definition fmt_x (z : Z) : string :=
  HexadecimalString.NilZero.string_of_uint (N.to_hex_uint (Z.to_N z)).

(** Division rounding to the nearest integer, ties to even. *)
Definition div_half_even (a d : Z) : Z :=
  let q := a / d in
  let r := a mod d in
  if 2 * r <? d then q
  else if d <? 2 * r then q + 1
  else if Z.even q then q else q + 1.

(** The hundredths of [m * 2^e], rounded. *)
Definition hundredths (m e : Z) : Z :=
  if 0 <=? e then m * 100 * 2 ^ e
  else div_half_even (m * 100) (2 ^ (- e)).

Definition two_digits (z : Z) : string :=
  (if z <? 10 then "0" else "") +:+ fmt_d z.

(** The verb %.2f. *)
Definition fmt_f2 (f : float) : string :=
  match Prim2SF f with
  | S754_nan => "NaN"
  | S754_infinity false => "+Inf"
  | S754_infinity true => "-Inf"
  | S754_zero s => (if s then "-" else "") +:+ "0.00"
  | S754_finite s m e =>
      let h := hundredths (Z.pos m) e in
      (if s then "-" else "") +:+ fmt_d (h / 100) +:+ "." +:+ two_digits (h mod 100)
  end.

End GoFmt.

(** * Handles of the eBPF library and effects on the outside world *)

Module Ebpf.

Inductive MapType := LRUHash | RingBuf | Array.

Record MapSpec := {
  Type_ : MapType;
  KeySize : Z;
  ValueSize : Z;
  MaxEntries : Z
}.

(** A program spec and a loaded program are opaque to the agent. *)
Definition ProgramSpec : Type := Z.
Definition Program : Type := Z.
Definition Map : Type := MapSpec.

Record CollectionSpec := {
  SpecMaps : gmap string MapSpec;
  SpecPrograms : gmap string ProgramSpec
}.

Record Collection := {
  Maps : gmap string Map;
  Programs : gmap string Program
}.

(** An attachment of a program to a hook point. *)
Record Link := {
  hook : string;
  attached : Program
}.

(** What a call does besides changing the receiver. *)
Inductive effect :=
| Spawned (routine : string)
| Logged (msg : string)
| ContextCancelled
| LinkClosed (l : Link)
| CollectionClosed (c : Collection).

End Ebpf.

(** * The data processor and its event handlers *)

Module Processor.

Import GoFmt Ebpf.
Local Open Scope string_scope.
Local Open Scope list_scope.
Local Open Scope Z_scope.

(** EventData, the user-space mirror of struct event_data. *)
Record EventData := {
  EventType : Z;
  Timestamp : Z;
  EventCgroupID : Z;
  EventPID : Z;
  Data : list Z
}.

Record AggregatedContainerMetrics := {
  CgroupID : Z;
  ContainerID : string;
  Name : string;
  PID : Z;
  CPUSamples : list float;
  CPUAvg : float;
  CPUMax : float;
  CPUMin : float;
  MemorySamples : list Z;
  MemoryAvg : Z;
  MemoryMax : Z;
  MemoryMin : Z;
  Status : string;
  StartTime : Z;
  LastUpdate : Z
}.

Record AggregatedNetworkMetrics := {
  NetCgroupID : Z;
  TotalPacketsIn : Z;
  TotalPacketsOut : Z;
  TotalBytesIn : Z;
  TotalBytesOut : Z;
  LatencySamples : list float;
  LatencyAvg : float;
  LatencyMax : float;
  LatencyMin : float;
  TCPRetransmits : Z;
  TCPConnections : Z;
  NetLastUpdate : Z
}.

Record SystemMetrics := {
  TotalContainers : Z;
  ActiveContainers : Z;
  TotalMemoryUsage : Z;
  TotalCPUUsage : float;
  NetworkThroughput : Z;
  EBPFMapsCount : Z;
  EventsProcessed : Z;
  SysLastUpdate : Z
}.

Record MetricsAggregator := {
  containerMetrics : gmap Z AggregatedContainerMetrics;
  networkMetrics : gmap Z AggregatedNetworkMetrics;
  systemMetrics : SystemMetrics;
  windowSize : Z;
  lastReset : Z
}.

Definition with_containerMetrics
    (f : gmap Z AggregatedContainerMetrics -> gmap Z AggregatedContainerMetrics)
    (a : MetricsAggregator) : MetricsAggregator :=
  {| containerMetrics := f (containerMetrics a);
     networkMetrics := networkMetrics a; systemMetrics := systemMetrics a;
     windowSize := windowSize a; lastReset := lastReset a |}.

Definition with_networkMetrics
    (f : gmap Z AggregatedNetworkMetrics -> gmap Z AggregatedNetworkMetrics)
    (a : MetricsAggregator) : MetricsAggregator :=
  {| containerMetrics := containerMetrics a;
     networkMetrics := f (networkMetrics a); systemMetrics := systemMetrics a;
     windowSize := windowSize a; lastReset := lastReset a |}.

(** The aggregator NewDataProcessor builds. *)
Definition new_aggregator (now : Z) : MetricsAggregator :=
  {| containerMetrics := ∅; networkMetrics := ∅;
     systemMetrics :=
       {| TotalContainers := 0; ActiveContainers := 0; TotalMemoryUsage := 0;
          TotalCPUUsage := 0; NetworkThroughput := 0; EBPFMapsCount := 0;
          EventsProcessed := 0; SysLastUpdate := 0 |};
     windowSize := 60 * Config.Second; lastReset := now |}.

Inductive handler_error := ContainerNotFound (cgroup : Z).

(** Field updates through the pointer stored in the map. *)
Definition set_status_update (st : string) (now : Z)
    (c : AggregatedContainerMetrics) : AggregatedContainerMetrics :=
  {| CgroupID := CgroupID c; ContainerID := ContainerID c; Name := Name c;
     PID := PID c; CPUSamples := CPUSamples c; CPUAvg := CPUAvg c;
     CPUMax := CPUMax c; CPUMin := CPUMin c;
     MemorySamples := MemorySamples c; MemoryAvg := MemoryAvg c;
     MemoryMax := MemoryMax c; MemoryMin := MemoryMin c;
     Status := st; StartTime := StartTime c; LastUpdate := now |}.

(** ContainerStartHandler.HandleEvent; [clock n] is the n-th reading of
    time.Now() during the call. *)
Definition ContainerStart_HandleEvent (event : EventData) (clock : nat -> Z)
    (a : MetricsAggregator) : MetricsAggregator * option handler_error :=
  let cg := EventCgroupID event in
  let '(container, clock') :=
    match containerMetrics a !! cg with
    | Some container => (container, clock)
    | None =>
        ({| CgroupID := cg; ContainerID := fmt_x cg; Name := "";
            PID := EventPID event; CPUSamples := []; CPUAvg := 0;
            CPUMax := 0; CPUMin := 0; MemorySamples := []; MemoryAvg := 0;
            MemoryMax := 0; MemoryMin := 0; Status := "starting";
            StartTime := wrap_i64 (Timestamp event);
            LastUpdate := clock 0%nat |}, fun n => clock (S n))
    end in
  (with_containerMetrics
     (<[cg := set_status_update "running" (clock' 0%nat) container]>) a, None).

(** ContainerStopHandler.HandleEvent *)
Definition ContainerStop_HandleEvent (event : EventData) (clock : nat -> Z)
    (a : MetricsAggregator) : MetricsAggregator * option handler_error :=
  let cg := EventCgroupID event in
  match containerMetrics a !! cg with
  | Some container =>
      (with_containerMetrics
         (<[cg := set_status_update "stopped" (clock 0%nat) container]>) a, None)
  | None => (a, None)
  end.

(** NetworkPacketHandler.HandleEvent *)
Definition NetworkPacket_HandleEvent (event : EventData) (clock : nat -> Z)
    (a : MetricsAggregator) : MetricsAggregator * option handler_error :=
  let cg := EventCgroupID event in
  let '(network, clock') :=
    match networkMetrics a !! cg with
    | Some network => (network, clock)
    | None =>
        ({| NetCgroupID := cg; TotalPacketsIn := 0; TotalPacketsOut := 0;
            TotalBytesIn := 0; TotalBytesOut := 0; LatencySamples := [];
            LatencyAvg := 0; LatencyMax := 0; LatencyMin := 0;
            TCPRetransmits := 0; TCPConnections := 0;
            NetLastUpdate := clock 0%nat |}, fun n => clock (S n))
    end in
  let network :=
    {| NetCgroupID := NetCgroupID network;
       TotalPacketsIn := TotalPacketsIn network;
       TotalPacketsOut := TotalPacketsOut network;
       TotalBytesIn := TotalBytesIn network;
       TotalBytesOut := TotalBytesOut network;
       LatencySamples := LatencySamples network;
       LatencyAvg := LatencyAvg network; LatencyMax := LatencyMax network;
       LatencyMin := LatencyMin network;
       TCPRetransmits := TCPRetransmits network;
       TCPConnections := TCPConnections network;
       NetLastUpdate := clock' 0%nat |} in
  (with_networkMetrics (<[cg := network]>) a, None).

(** [append(samples, x)] followed by the bound of the two sample
    handlers: beyond 100 entries the slice is re-sliced from index 1. *)
Definition push_sample {T} (samples : list T) (x : T) : list T :=
  let samples := samples ++ [x] in
  if (100 <? length samples)%nat then drop 1 samples else samples.

(** The loop of calculateCPUStats: running sum, minimum and maximum. *)
Definition cpu_fold (samples : list float) (first : float) : float * float * float :=
  fold_left
    (fun '(sum, mn, mx) sample =>
       (PrimFloat.add sum sample,
        if PrimFloat.ltb sample mn then sample else mn,
        if PrimFloat.ltb mx sample then sample else mx))
    samples (0%float, first, first).

Definition calculateCPUStats (c : AggregatedContainerMetrics) : AggregatedContainerMetrics :=
  match CPUSamples c with
  | [] => c
  | first :: _ =>
      let '(sum, mn, mx) := cpu_fold (CPUSamples c) first in
      {| CgroupID := CgroupID c; ContainerID := ContainerID c; Name := Name c;
         PID := PID c; CPUSamples := CPUSamples c;
         CPUAvg := PrimFloat.div sum
                     (float64_of_Z (Z.of_nat (length (CPUSamples c))));
         CPUMax := mx; CPUMin := mn;
         MemorySamples := MemorySamples c; MemoryAvg := MemoryAvg c;
         MemoryMax := MemoryMax c; MemoryMin := MemoryMin c;
         Status := Status c; StartTime := StartTime c;
         LastUpdate := LastUpdate c |}
  end.

Definition mem_fold (samples : list Z) (first : Z) : Z * Z * Z :=
  fold_left
    (fun '(sum, mn, mx) sample =>
       (wrap64 (sum + sample),
        if sample <? mn then sample else mn,
        if mx <? sample then sample else mx))
    samples (0, first, first).

Definition calculateMemoryStats (c : AggregatedContainerMetrics) : AggregatedContainerMetrics :=
  match MemorySamples c with
  | [] => c
  | first :: _ =>
      let '(sum, mn, mx) := mem_fold (MemorySamples c) first in
      {| CgroupID := CgroupID c; ContainerID := ContainerID c; Name := Name c;
         PID := PID c; CPUSamples := CPUSamples c; CPUAvg := CPUAvg c;
         CPUMax := CPUMax c; CPUMin := CPUMin c;
         MemorySamples := MemorySamples c;
         MemoryAvg := sum / Z.of_nat (length (MemorySamples c));
         MemoryMax := mx; MemoryMin := mn;
         Status := Status c; StartTime := StartTime c;
         LastUpdate := LastUpdate c |}
  end.

Definition set_CPUSamples (l : list float) (c : AggregatedContainerMetrics)
    : AggregatedContainerMetrics :=
  {| CgroupID := CgroupID c; ContainerID := ContainerID c; Name := Name c;
     PID := PID c; CPUSamples := l; CPUAvg := CPUAvg c;
     CPUMax := CPUMax c; CPUMin := CPUMin c;
     MemorySamples := MemorySamples c; MemoryAvg := MemoryAvg c;
     MemoryMax := MemoryMax c; MemoryMin := MemoryMin c;
     Status := Status c; StartTime := StartTime c; LastUpdate := LastUpdate c |}.

Definition set_MemorySamples (l : list Z) (c : AggregatedContainerMetrics)
    : AggregatedContainerMetrics :=
  {| CgroupID := CgroupID c; ContainerID := ContainerID c; Name := Name c;
     PID := PID c; CPUSamples := CPUSamples c; CPUAvg := CPUAvg c;
     CPUMax := CPUMax c; CPUMin := CPUMin c;
     MemorySamples := l; MemoryAvg := MemoryAvg c;
     MemoryMax := MemoryMax c; MemoryMin := MemoryMin c;
     Status := Status c; StartTime := StartTime c; LastUpdate := LastUpdate c |}.

Definition set_LastUpdate (now : Z) (c : AggregatedContainerMetrics)
    : AggregatedContainerMetrics :=
  set_status_update (Status c) now c.

(** What CPUSampleHandler.HandleEvent does to the record it found. *)
Definition cpu_sample_update (now : Z) (c : AggregatedContainerMetrics)
    : AggregatedContainerMetrics :=
  let cpuUsage := 50%float in
  set_LastUpdate now
    (calculateCPUStats (set_CPUSamples (push_sample (CPUSamples c) cpuUsage) c)).

(** CPUSampleHandler.HandleEvent *)
Definition CPUSample_HandleEvent (event : EventData) (clock : nat -> Z)
    (a : MetricsAggregator) : MetricsAggregator * option handler_error :=
  let cg := EventCgroupID event in
  match containerMetrics a !! cg with
  | None => (a, Some (ContainerNotFound cg))
  | Some container =>
      (with_containerMetrics
         (<[cg := cpu_sample_update (clock 0%nat) container]>) a, None)
  end.

(** What MemorySampleHandler.HandleEvent does to the record it found. *)
Definition memory_sample_update (now : Z) (c : AggregatedContainerMetrics)
    : AggregatedContainerMetrics :=
  let memoryUsage := wrap64 (512 * 1024 * 1024) in
  set_LastUpdate now
    (calculateMemoryStats
       (set_MemorySamples (push_sample (MemorySamples c) memoryUsage) c)).

(** MemorySampleHandler.HandleEvent *)
Definition MemorySample_HandleEvent (event : EventData) (clock : nat -> Z)
    (a : MetricsAggregator) : MetricsAggregator * option handler_error :=
  let cg := EventCgroupID event in
  match containerMetrics a !! cg with
  | None => (a, Some (ContainerNotFound cg))
  | Some container =>
      (with_containerMetrics
         (<[cg := memory_sample_update (clock 0%nat) container]>) a, None)
  end.

(** The five handler types of registerEventHandlers. *)
Inductive EventHandler :=
| ContainerStartHandler
| ContainerStopHandler
| NetworkPacketHandler
| CPUSampleHandler
| MemorySampleHandler.

Definition HandleEvent (h : EventHandler)
    : EventData -> (nat -> Z) -> MetricsAggregator ->
      MetricsAggregator * option handler_error :=
  match h with
  | ContainerStartHandler => ContainerStart_HandleEvent
  | ContainerStopHandler => ContainerStop_HandleEvent
  | NetworkPacketHandler => NetworkPacket_HandleEvent
  | CPUSampleHandler => CPUSample_HandleEvent
  | MemorySampleHandler => MemorySample_HandleEvent
  end.

(** registerEventHandlers: the handler table, keyed by event tag. *)
Definition registerEventHandlers : gmap Z EventHandler :=
  <[5 := MemorySampleHandler]> (<[4 := CPUSampleHandler]>
  (<[3 := NetworkPacketHandler]> (<[2 := ContainerStopHandler]>
  (<[1 := ContainerStartHandler]> ∅)))).

(** One handler invocation: the handler, its event, the clock. *)
Definition call : Type := EventHandler * EventData * (nat -> Z).

Definition run_call (a : MetricsAggregator) (c : call) : MetricsAggregator :=
  let '(h, event, clock) := c in fst (HandleEvent h event clock a).

Definition run_calls (calls : list call) (a : MetricsAggregator) : MetricsAggregator :=
  fold_left run_call calls a.

(** The part of DataProcessor that Start and Stop touch. *)
Record DataProcessor := {
  running : bool;
  cancelled : bool;
  aggregator : MetricsAggregator;
  eventHandlers : gmap Z EventHandler
}.

Definition NewDataProcessor (now : Z) : DataProcessor :=
  {| running := false; cancelled := false; aggregator := new_aggregator now;
     eventHandlers := registerEventHandlers |}.

Inductive processor_error := ProcessorAlreadyRunning.

(** DataProcessor.Start *)
Definition Start (p : DataProcessor)
    : DataProcessor * list effect * option processor_error :=
  if running p then (p, [], Some ProcessorAlreadyRunning)
  else
    ({| running := true; cancelled := cancelled p;
        aggregator := aggregator p; eventHandlers := eventHandlers p |},
     [Spawned "processEvents"; Spawned "aggregateMetrics"; Spawned "cleanup";
      Logged "数据处理引擎已启动"],
     None).

(** DataProcessor.Stop *)
Definition Stop (p : DataProcessor)
    : DataProcessor * list effect * option processor_error :=
  if negb (running p) then (p, [], None)
  else
    ({| running := false; cancelled := true;
        aggregator := aggregator p; eventHandlers := eventHandlers p |},
     [ContextCancelled; Logged "数据处理引擎已停止"],
     None).

End Processor.

(** * The monitor (user side) *)

Module Agent.

Import GoFmt Ebpf.
Local Open Scope string_scope.
Local Open Scope list_scope.
Local Open Scope Z_scope.

Record ContainerMetric := {
  ID : string;
  Name : string;
  PID : Z;
  CPUPercent : float;
  MemoryPercent : float;
  MemoryUsage : Z;
  NetworkLatency : float;
  TCPRetransmits : Z;
  Status : string;
  StartTime : Z
}.

Definition ContainerMetric_zero : ContainerMetric :=
  {| ID := ""; Name := ""; PID := 0; CPUPercent := 0; MemoryPercent := 0;
     MemoryUsage := 0; NetworkLatency := 0; TCPRetransmits := 0;
     Status := ""; StartTime := 0 |}.

(** ** The Go heap, as far as Metrics values live in it *)

Definition loc : Type := positive.

(** A slice header: backing array (none for the nil slice), first index,
    length, capacity. *)
Record slice := {
  sl_array : option loc;
  sl_offset : nat;
  sl_len : nat;
  sl_cap : nat
}.

Record Metrics := {
  Containers : slice;
  SystemMemory : Z;
  EBPFMapsCount : Z;
  LastUpdate : Z
}.

Record heap := {
  structs : gmap loc Metrics;
  arrays : gmap loc (list ContainerMetric)
}.

(** The elements a slice shows; [None] for a header that does not fit
    its array, which memory-safe code never builds. *)
Definition slice_elems (h : heap) (s : slice) : option (list ContainerMetric) :=
  match sl_array s with
  | None => if (sl_len s =? 0)%nat then Some [] else None
  | Some a =>
      match arrays h !! a with
      | None => None
      | Some arr =>
          if (sl_offset s + sl_len s <=? length arr)%nat
          then Some (take (sl_len s) (drop (sl_offset s) arr))
          else None
      end
  end.

(** [make([]ContainerMetric, n)]: a new zeroed array and a slice over it. *)
Definition make_slice (h : heap) (n : nat) : heap * slice :=
  let a := fresh (dom (arrays h)) in
  ({| structs := structs h;
      arrays := <[a := repeat ContainerMetric_zero n]> (arrays h) |},
   {| sl_array := Some a; sl_offset := 0; sl_len := n; sl_cap := n |}).

(** [copy(dst, src)]: the first min(len dst, len src) elements. *)
Definition copy (h : heap) (dst : slice) (src : list ContainerMetric) : heap :=
  match sl_array dst with
  | None => h
  | Some a =>
      match arrays h !! a with
      | None => h
      | Some arr =>
          let n := Nat.min (sl_len dst) (length src) in
          let arr' := take (sl_offset dst) arr ++ take n src
                      ++ drop (sl_offset dst + n) arr in
          {| structs := structs h; arrays := <[a := arr']> (arrays h) |}
      end
  end.

(** [&Metrics{...}]: a new struct on the heap. *)
Definition alloc_struct (h : heap) (v : Metrics) : heap * loc :=
  let p := fresh (dom (structs h)) in
  ({| structs := <[p := v]> (structs h); arrays := arrays h |}, p).

(** ** The monitor *)

Record Monitor := {
  config : Config.Config;
  spec : option CollectionSpec;
  coll : option Collection;
  links : list Link;
  running : bool;
  startTime : Z;
  metrics : option loc;
  processor : option Processor.DataProcessor
}.

(** What the operating system and the eBPF library answer. *)
Record Env := {
  RemoveMemlock : bool;
  LoadCollectionSpec : string -> option CollectionSpec;
  NewCollection : CollectionSpec -> option Collection;
  Tracepoint : string -> string -> Program -> option Link;
  Kprobe : string -> Program -> option Link;
  Now : Z
}.

(** NewMonitor; the zero time is 0. *)
Definition NewMonitor (env : Env) (cfg : Config.Config) (h : heap)
    : option (heap * Monitor) :=
  if negb (RemoveMemlock env) then None else
  let '(h, s) := make_slice h 0 in
  let '(h, p) := alloc_struct h
                   {| Containers := s; SystemMemory := 0; EBPFMapsCount := 0;
                      LastUpdate := 0 |} in
  Some (h, {| config := cfg; spec := None; coll := None; links := [];
              running := false; startTime := 0; metrics := Some p;
              processor := Some (Processor.NewDataProcessor (Now env)) |}).

(** GetMetrics: [None] is the nil-pointer panic on [m.metrics]. *)
Definition GetMetrics (m : Monitor) (h : heap) : option (heap * loc) :=
  match metrics m with
  | None => None
  | Some mp =>
      match structs h !! mp with
      | None => None
      | Some cur =>
          match slice_elems h (Containers cur) with
          | None => None
          | Some elems =>
              let '(h, s) := make_slice h (sl_len (Containers cur)) in
              let h := copy h s elems in
              Some (alloc_struct h
                      {| Containers := s;
                         SystemMemory := SystemMemory cur;
                         EBPFMapsCount := EBPFMapsCount cur;
                         LastUpdate := LastUpdate cur |})
          end
      end
  end.

(** What a Metrics pointer shows to a reader: the three scalar fields
    and the container records. *)
Definition view (h : heap) (p : loc) : option (Z * Z * Z * list ContainerMetric) :=
  match structs h !! p with
  | None => None
  | Some v =>
      match slice_elems h (Containers v) with
      | None => None
      | Some elems => Some (SystemMemory v, EBPFMapsCount v, LastUpdate v, elems)
      end
  end.

(** Writes a caller can make through the pointer GetMetrics returned:
    assigning a field of the struct, or an element of its Containers. *)
Inductive mutation :=
| SetSystemMemory (v : Z)
| SetEBPFMapsCount (v : Z)
| SetLastUpdate (v : Z)
| SetContainers (s : slice)
| SetElement (i : nat) (c : ContainerMetric).

(** [a] is the array of the slice the call returned. *)
Definition mutate (p a : loc) (h : heap) (mu : mutation) : heap :=
  match mu with
  | SetSystemMemory v =>
      {| structs := alter (fun s => {| Containers := Containers s;
                                       SystemMemory := v;
                                       EBPFMapsCount := EBPFMapsCount s;
                                       LastUpdate := LastUpdate s |}) p (structs h);
         arrays := arrays h |}
  | SetEBPFMapsCount v =>
      {| structs := alter (fun s => {| Containers := Containers s;
                                       SystemMemory := SystemMemory s;
                                       EBPFMapsCount := v;
                                       LastUpdate := LastUpdate s |}) p (structs h);
         arrays := arrays h |}
  | SetLastUpdate v =>
      {| structs := alter (fun s => {| Containers := Containers s;
                                       SystemMemory := SystemMemory s;
                                       EBPFMapsCount := EBPFMapsCount s;
                                       LastUpdate := v |}) p (structs h);
         arrays := arrays h |}
  | SetContainers sl =>
      {| structs := alter (fun s => {| Containers := sl;
                                       SystemMemory := SystemMemory s;
                                       EBPFMapsCount := EBPFMapsCount s;
                                       LastUpdate := LastUpdate s |}) p (structs h);
         arrays := arrays h |}
  | SetElement i c =>
      {| structs := structs h;
         arrays := alter (fun arr => <[i := c]> arr) a (arrays h) |}
  end.

Definition mutate_all (p a : loc) (mus : list mutation) (h : heap) : heap :=
  fold_left (mutate p a) mus h.

(** The backing array of the Containers slice of the struct at [p]. *)
Definition containers_array (h : heap) (p : loc) : option loc :=
  match structs h !! p with
  | Some v => sl_array (Containers v)
  | None => None
  end.

(** ** Loading, attaching, starting and stopping *)

Definition createMapSpec (mapType : MapType) (keySize valueSize maxEntries : Z) : MapSpec :=
  {| Type_ := mapType; KeySize := wrap32 keySize;
     ValueSize := wrap32 valueSize; MaxEntries := wrap32 maxEntries |}.

(** unsafe.Sizeof of the three mirrored structs. *)
Definition sizeof_ContainerInfo : Z := 128.
Definition sizeof_FlowKey : Z := 24.
Definition sizeof_FlowStats : Z := 48.

Definition fallback_container_spec : CollectionSpec :=
  {| SpecMaps :=
       <["container_map" := createMapSpec LRUHash 8 sizeof_ContainerInfo 1000]>
       (<["pid_to_cgroup_map" := createMapSpec LRUHash 4 8 10000]>
       (<["events" := createMapSpec RingBuf 0 0 (256 * 1024)]>
       (<["stats_map" := createMapSpec Array 4 8 10]> ∅)));
     SpecPrograms := ∅ |}.

Definition fallback_network_spec : CollectionSpec :=
  {| SpecMaps :=
       <["flow_stats_map" := createMapSpec LRUHash sizeof_FlowKey sizeof_FlowStats 10240]>
       (<["latency_map" := createMapSpec LRUHash sizeof_FlowKey 8 10240]>
       (<["tcp_state_map" := createMapSpec LRUHash sizeof_FlowKey 4 10240]>
       (<["network_events" := createMapSpec RingBuf 0 0 (512 * 1024)]>
       (<["network_stats_map" := createMapSpec Array 4 8 20]> ∅))));
     SpecPrograms := ∅ |}.

Inductive start_error :=
| AlreadyRunning
| LoadFailed
| AttachFailed (hook_name : string)
| ProcessorStartFailed (e : Processor.processor_error).

(** How a call ends: normally, with an error value, or in a panic. *)
Inductive outcome :=
| Done
| Failed (e : start_error)
| Panicked.

Definition set_spec_coll (sp : option CollectionSpec) (c : option Collection)
    (m : Monitor) : Monitor :=
  {| config := config m; spec := sp; coll := c; links := links m;
     running := running m; startTime := startTime m; metrics := metrics m;
     processor := processor m |}.

Definition set_links (l : list Link) (m : Monitor) : Monitor :=
  {| config := config m; spec := spec m; coll := coll m; links := l;
     running := running m; startTime := startTime m; metrics := metrics m;
     processor := processor m |}.

(** loadPrograms: later assignments to a map key win, so the network
    entries override the container-trace ones. *)
Definition loadPrograms (env : Env) (m : Monitor) : Monitor * outcome :=
  let containerSpec :=
    default fallback_container_spec
      (LoadCollectionSpec env "pkg/ebpf/container_trace.o") in
  let networkSpec :=
    default fallback_network_spec
      (LoadCollectionSpec env "pkg/ebpf/network_monitor.o") in
  let merged :=
    {| SpecMaps := SpecMaps networkSpec ∪ SpecMaps containerSpec;
       SpecPrograms := SpecPrograms networkSpec ∪ SpecPrograms containerSpec |} in
  match NewCollection env merged with
  | None => (set_spec_coll (Some merged) (coll m) m, Failed LoadFailed)
  | Some c => (set_spec_coll (Some merged) (Some c) m, Done)
  end.

(** One [if prog := m.coll.Programs[name]; prog != nil { ... }] block. *)
Definition attach_one (attach : Program -> option Link) (prog_name hook_name : string)
    (m : Monitor) : Monitor * outcome :=
  match coll m with
  | None => (m, Panicked)
  | Some c =>
      match Programs c !! prog_name with
      | None => (m, Done)
      | Some prog =>
          match attach prog with
          | None => (m, Failed (AttachFailed hook_name))
          | Some l => (set_links (links m ++ [l]) m, Done)
          end
      end
  end.

(** Sequencing of steps that may fail. *)
Definition and_then (r : Monitor * outcome) (k : Monitor -> Monitor * outcome)
    : Monitor * outcome :=
  match r with
  | (m, Done) => k m
  | other => other
  end.

Definition attachContainerTracing (env : Env) (m : Monitor) : Monitor * outcome :=
  and_then (attach_one (Tracepoint env "syscalls" "sys_enter_clone")
              "trace_container_start" "sys_enter_clone" m) (fun m =>
  and_then (attach_one (Tracepoint env "syscalls" "sys_enter_exit")
              "trace_container_stop" "sys_enter_exit" m) (fun m =>
  and_then (attach_one (Kprobe env "cgroup_attach_task")
              "kprobe_cgroup_attach" "cgroup_attach_task" m) (fun m =>
  attach_one (Tracepoint env "sched" "sched_process_exec")
    "trace_process_exec" "sched_process_exec" m))).

Definition attachNetworkMonitoring (env : Env) (m : Monitor) : Monitor * outcome :=
  and_then (attach_one (Kprobe env "tcp_retransmit_skb")
              "kprobe_tcp_retransmit" "tcp_retransmit_skb" m) (fun m =>
  attach_one (Tracepoint env "tcp" "tcp_probe")
    "trace_tcp_probe" "tcp_probe" m).

Definition attachPrograms (env : Env) (m : Monitor) : Monitor * outcome :=
  and_then (attachContainerTracing env m) (attachNetworkMonitoring env).

(** cleanup: close every link, then the collection. *)
Definition cleanup (m : Monitor) : Monitor * list effect :=
  ({| config := config m; spec := spec m; coll := None; links := [];
      running := running m; startTime := startTime m; metrics := metrics m;
      processor := processor m |},
   map LinkClosed (links m)
   ++ match coll m with Some c => [CollectionClosed c] | None => [] end).

Definition set_processor (p : Processor.DataProcessor) (m : Monitor) : Monitor :=
  {| config := config m; spec := spec m; coll := coll m; links := links m;
     running := running m; startTime := startTime m; metrics := metrics m;
     processor := Some p |}.

(** Monitor.Start *)
Definition Start (env : Env) (m : Monitor) : Monitor * list effect * outcome :=
  if running m then (m, [], Failed AlreadyRunning) else
  match loadPrograms env m with
  | (m, Done) =>
      match attachPrograms env m with
      | (m, Done) =>
          match processor m with
          | None => (m, [], Panicked)
          | Some p =>
              match Processor.Start p with
              | (p, effs, Some e) =>
                  let '(m, closed) := cleanup (set_processor p m) in
                  (m, effs ++ closed, Failed (ProcessorStartFailed e))
              | (p, effs, None) =>
                  let m := set_processor p m in
                  ({| config := config m; spec := spec m; coll := coll m;
                      links := links m; running := true;
                      startTime := Now env; metrics := metrics m;
                      processor := processor m |},
                   effs ++ [Spawned "collectData"], Done)
              end
          end
      | (m, Failed e) => let '(m, closed) := cleanup m in (m, closed, Failed e)
      | (m, Panicked) => (m, [], Panicked)
      end
  | (m, o) => (m, [], o)
  end.

(** Monitor.Stop; it never returns an error. *)
Definition Stop (m : Monitor) : Monitor * list effect * outcome :=
  if negb (running m) then (m, [], Done) else
  let '(m, effs) :=
    match processor m with
    | Some p =>
        let '(p, effs, _) := Processor.Stop p in (set_processor p m, effs)
    | None => (m, [])
    end in
  let '(m, closed) := cleanup m in
  ({| config := config m; spec := spec m; coll := coll m; links := links m;
      running := false; startTime := startTime m; metrics := metrics m;
      processor := processor m |}, effs ++ closed, Done).

(** ** Network roll-up *)

Record FlowKey := {
  SrcIP : Z;
  DstIP : Z;
  SrcPort : Z;
  DstPort : Z;
  Protocol : Z;
  Pad : list Z;
  CgroupID : Z
}.

Record FlowStats := {
  Packets : Z;
  Bytes : Z;
  LatencySum : Z;
  LatencyCount : Z;
  LastSeen : Z;
  FlowTCPRetransmits : Z;
  Flags : Z
}.

Record NetworkMetrics := {
  AvgLatency : float;
  NetTCPRetransmits : Z;
  TotalPackets : Z;
  TotalBytes : Z
}.

(** The latency of one flow in milliseconds. *)
Definition latencyMs (stats : FlowStats) : float :=
  (float64_of_Z (LatencySum stats) / float64_of_Z (LatencyCount stats)
   / 1000000)%float.

(** The body of the iteration loop of calculateNetworkMetrics. *)
Definition fold_flow (cgroupID : Z) (metrics : NetworkMetrics)
    (entry : FlowKey * FlowStats) : NetworkMetrics :=
  let '(key, stats) := entry in
  if CgroupID key =? cgroupID then
    {| TotalPackets := wrap64 (TotalPackets metrics + Packets stats);
       TotalBytes := wrap64 (TotalBytes metrics + Bytes stats);
       NetTCPRetransmits :=
         wrap32 (NetTCPRetransmits metrics + FlowTCPRetransmits stats);
       AvgLatency :=
         if 0 <? LatencyCount stats then
           if PrimFloat.eqb (AvgLatency metrics) 0 then latencyMs stats
           else ((AvgLatency metrics + latencyMs stats) / 2)%float
         else AvgLatency metrics |}
  else metrics.

(** calculateNetworkMetrics over the entries of flow_stats_map, in the
    order the map iterator yields them. *)
Definition calculateNetworkMetrics (cgroupID : Z)
    (flowStatsMap : list (FlowKey * FlowStats)) : NetworkMetrics :=
  fold_left (fold_flow cgroupID) flowStatsMap
    {| AvgLatency := 0; NetTCPRetransmits := 0; TotalPackets := 0;
       TotalBytes := 0 |}.

(** ** Text exposition (the daemon's /metrics handler) *)

Definition LF : string := String (ascii_of_nat 10) "".
Definition DQ : string := String (ascii_of_nat 34) "".

Definition container_lines (container : ContainerMetric) : string :=
  let labels :=
    "{container_id=" +:+ DQ +:+ ID container +:+ DQ +:+ ",container_name="
    +:+ DQ +:+ Name container +:+ DQ +:+ "}" in
  "microradar_container_cpu_percent" +:+ labels +:+ " "
    +:+ fmt_f2 (CPUPercent container) +:+ LF
  +:+ "microradar_container_memory_percent" +:+ labels +:+ " "
    +:+ fmt_f2 (MemoryPercent container) +:+ LF
  +:+ "microradar_container_network_latency_ms" +:+ labels +:+ " "
    +:+ fmt_f2 (NetworkLatency container) +:+ LF.

(** What the handler writes for the Metrics value it was given. *)
Definition metrics_text (systemMemory : Z) (containers : list ContainerMetric) : string :=
  "# HELP microradar_containers_total 监控的容器总数" +:+ LF
  +:+ "# TYPE microradar_containers_total gauge" +:+ LF
  +:+ "microradar_containers_total " +:+ fmt_d (Z.of_nat (length containers)) +:+ LF
  +:+ "# HELP microradar_memory_usage_bytes 内存使用量" +:+ LF
  +:+ "# TYPE microradar_memory_usage_bytes gauge" +:+ LF
  +:+ "microradar_memory_usage_bytes " +:+ fmt_d systemMemory +:+ LF
  +:+ fold_right (fun c rest => container_lines c +:+ rest) "" containers.

(** DaemonServer.metricsHandler: the response body, and the heap after
    the copy GetMetrics made. *)
Definition metricsHandler (m : Monitor) (h : heap) : option (heap * string) :=
  match GetMetrics m h with
  | None => None
  | Some (h, p) =>
      match view h p with
      | None => None
      | Some (systemMemory, _, _, containers) =>
          Some (h, metrics_text systemMemory containers)
      end
  end.

(** ** The /metrics handler of the daemon built into the image
    (build/Dockerfile.alpine) *)

Definition image_container_lines (container : ContainerMetric) : string :=
  let labels :=
    "container_id=" +:+ DQ +:+ ID container +:+ DQ +:+ ",container_name="
    +:+ DQ +:+ Name container +:+ DQ in
  "# HELP microradar_container_cpu_percent Container CPU usage percentage" +:+ LF
  +:+ "# TYPE microradar_container_cpu_percent gauge" +:+ LF
  +:+ "microradar_container_cpu_percent{" +:+ labels +:+ "} "
    +:+ fmt_f2 (CPUPercent container) +:+ LF
  +:+ "# HELP microradar_container_memory_percent Container memory usage percentage" +:+ LF
  +:+ "# TYPE microradar_container_memory_percent gauge" +:+ LF
  +:+ "microradar_container_memory_percent{" +:+ labels +:+ "} "
    +:+ fmt_f2 (MemoryPercent container) +:+ LF
  +:+ "# HELP microradar_container_memory_bytes Container memory usage in bytes" +:+ LF
  +:+ "# TYPE microradar_container_memory_bytes gauge" +:+ LF
  +:+ "microradar_container_memory_bytes{" +:+ labels +:+ "} "
    +:+ fmt_d (MemoryUsage container) +:+ LF
  +:+ "# HELP microradar_container_network_latency_ms Container network latency in milliseconds" +:+ LF
  +:+ "# TYPE microradar_container_network_latency_ms gauge" +:+ LF
  +:+ "microradar_container_network_latency_ms{" +:+ labels +:+ "} "
    +:+ fmt_f2 (NetworkLatency container) +:+ LF
  +:+ "# HELP microradar_container_tcp_retransmits Container TCP retransmissions" +:+ LF
  +:+ "# TYPE microradar_container_tcp_retransmits counter" +:+ LF
  +:+ "microradar_container_tcp_retransmits{" +:+ labels +:+ "} "
    +:+ fmt_d (TCPRetransmits container) +:+ LF.

(** What that handler writes for the pointer it got: [None] is the nil
    pointer of its first branch. *)
Definition image_metrics_text
    (metrics : option (Z * Z * Z * list ContainerMetric)) : string :=
  match metrics with
  | None =>
      "# HELP microradar_up MicroRadar service status" +:+ LF
      +:+ "# TYPE microradar_up gauge" +:+ LF
      +:+ "microradar_up 0" +:+ LF
  | Some (_, mapsCount, _, containers) =>
      "# HELP microradar_up MicroRadar service status" +:+ LF
      +:+ "# TYPE microradar_up gauge" +:+ LF
      +:+ "microradar_up 1" +:+ LF
      +:+ "# HELP microradar_containers_total Total number of monitored containers" +:+ LF
      +:+ "# TYPE microradar_containers_total gauge" +:+ LF
      +:+ "microradar_containers_total "
        +:+ fmt_d (Z.of_nat (length containers)) +:+ LF
      +:+ "# HELP microradar_ebpf_maps_count Number of eBPF maps" +:+ LF
      +:+ "# TYPE microradar_ebpf_maps_count gauge" +:+ LF
      +:+ "microradar_ebpf_maps_count " +:+ fmt_d mapsCount +:+ LF
      +:+ fold_right (fun c rest => image_container_lines c +:+ rest) ""
            containers
  end.

(** The handler itself: GetMetrics hands it a pointer to the copy, which
    is never nil. *)
Definition image_metricsHandler (m : Monitor) (h : heap) : option (heap * string) :=
  match GetMetrics m h with
  | None => None
  | Some (h, p) =>
      match view h p with
      | None => None
      | Some v => Some (h, image_metrics_text (Some v))
      end
  end.

End Agent.

(** * The periodic work of the data processor *)

Module Aggregation.

Import Processor.
Local Open Scope string_scope.
Local Open Scope list_scope.
Local Open Scope Z_scope.

(** [t.Sub(u)]: the difference, saturated to the range of a Duration. *)
Definition Sub (t u : Z) : Z := Z.max (- 2 ^ 63) (Z.min (2 ^ 63 - 1) (t - u)).

(** The readings of time.Now() during one aggregation tick: for the
    window check, for the check of each container and network record
    (the map iteration order is not fixed, so a reading belongs to the
    key it is taken for), for the new lastReset and for the system
    metrics. *)
Record tick := {
  at_check : Z;
  at_container : Z -> Z;
  at_network : Z -> Z;
  at_reset : Z;
  at_system : Z
}.

(** resetAggregationWindow: deleting while ranging over a Go map removes
    exactly the entries the test selects. *)
Definition resetAggregationWindow (t : tick) (a : MetricsAggregator) : MetricsAggregator :=
  {| containerMetrics :=
       filter (fun kv => ~ (wrap_i64 (windowSize a * 2)
                            < Sub (at_container t kv.1) (LastUpdate kv.2)))
         (containerMetrics a);
     networkMetrics :=
       filter (fun kv => ~ (wrap_i64 (windowSize a * 2)
                            < Sub (at_network t kv.1) (NetLastUpdate kv.2)))
         (networkMetrics a);
     systemMetrics := systemMetrics a;
     windowSize := windowSize a;
     lastReset := at_reset t |}.

(** aggregateSystemMetrics *)
Definition aggregateSystemMetrics (now : Z) (a : MetricsAggregator) : MetricsAggregator :=
  {| containerMetrics := containerMetrics a;
     networkMetrics := networkMetrics a;
     systemMetrics :=
       {| TotalContainers := Z.of_nat (size (containerMetrics a));
          ActiveContainers :=
            Z.of_nat (size (filter (fun kv => Status kv.2 = "running")
                              (containerMetrics a)));
          TotalMemoryUsage := TotalMemoryUsage (systemMetrics a);
          TotalCPUUsage := TotalCPUUsage (systemMetrics a);
          NetworkThroughput := NetworkThroughput (systemMetrics a);
          EBPFMapsCount := EBPFMapsCount (systemMetrics a);
          EventsProcessed := EventsProcessed (systemMetrics a);
          SysLastUpdate := now |};
     windowSize := windowSize a;
     lastReset := lastReset a |}.

(** performAggregation; the two map aggregations are empty in the source. *)
Definition performAggregation (t : tick) (a : MetricsAggregator) : MetricsAggregator :=
  let a := if windowSize a <=? Sub (at_check t) (lastReset a)
           then resetAggregationWindow t a else a in
  aggregateSystemMetrics (at_system t) a.

(** performCleanup: everything last updated before now - 10 min goes. *)
Definition performCleanup (now : Z) (a : MetricsAggregator) : MetricsAggregator :=
  let cutoff := now - 10 * 60 * Config.Second in
  {| containerMetrics :=
       filter (fun kv => ~ (LastUpdate kv.2 < cutoff)) (containerMetrics a);
     networkMetrics :=
       filter (fun kv => ~ (NetLastUpdate kv.2 < cutoff)) (networkMetrics a);
     systemMetrics := systemMetrics a;
     windowSize := windowSize a;
     lastReset := lastReset a |}.

(** What can happen to the aggregator: a handler call, an aggregation
    tick, a cleanup. *)
Inductive step :=
| Handle (c : call)
| Aggregate (t : tick)
| Cleanup (now : Z).

Definition run_step (a : MetricsAggregator) (s : step) : MetricsAggregator :=
  match s with
  | Handle c => run_call a c
  | Aggregate t => performAggregation t a
  | Cleanup now => performCleanup now a
  end.

Definition run_steps (steps : list step) (a : MetricsAggregator) : MetricsAggregator :=
  fold_left run_step steps a.

(** Start and Stop of the processor, in any order. *)
Inductive switch := SwitchOn | SwitchOff.

Definition run_switch (p : DataProcessor) (s : switch) : DataProcessor :=
  match s with
  | SwitchOn => fst (fst (Start p))
  | SwitchOff => fst (fst (Stop p))
  end.

Definition run_switches (l : list switch) (p : DataProcessor) : DataProcessor :=
  fold_left run_switch l p.

End Aggregation.

(** * Reading the kernel maps into the monitor's metrics *)

Module Telemetry.

Import GoFmt GoStrings Ebpf Agent.
Local Open Scope string_scope.
Local Open Scope list_scope.
Local Open Scope Z_scope.

(** containerStatusToString *)
Definition containerStatusToString (status : Z) : string :=
  if status =? 0 then "unknown"
  else if status =? 1 then "created"
  else if status =? 2 then "running"
  else if status =? 3 then "paused"
  else if status =? 4 then "stopped"
  else if status =? 5 then "exited"
  else "unknown".

(** calculateMemoryPercent, against a total of 8 GiB. *)
Definition calculateMemoryPercent (memoryUsage : Z) : float :=
  let totalMemory := wrap64 (8 * 1024 * 1024 * 1024) in
  (float64_of_Z memoryUsage / float64_of_Z totalMemory * 100)%float.

(** What the kernel shows while the maps are read: the entries the
    container_map iterator yields and whether it ends in an error, and
    the entries the flow_stats_map iterator yields during the n-th
    call of calculateNetworkMetrics. *)
Record KernelView := {
  container_entries : list (Z * Kernel.container_info);
  container_iter_err : bool;
  flow_entries : nat -> list (FlowKey * FlowStats)
}.

Inductive read_error :=
| ContainerMapMissing
| FlowStatsMapMissing
| IterationFailed.

(** The body of the loop of readContainerMetrics; ContainerInfo mirrors
    struct container_info field by field. *)
Definition container_metric_of (containerInfo : Kernel.container_info)
    (flows : list (FlowKey * FlowStats)) : ContainerMetric :=
  let networkMetrics :=
    calculateNetworkMetrics (Kernel.cgroup_id containerInfo) flows in
  {| ID := fmt_x (Kernel.cgroup_id containerInfo);
     Name := str_of_bytes (map Z.to_nat (Kernel.comm containerInfo));
     PID := Kernel.pid containerInfo;
     CPUPercent := (float64_of_Z (Kernel.cpu_usage containerInfo) / 10)%float;
     MemoryUsage := Kernel.memory_usage containerInfo;
     MemoryPercent := calculateMemoryPercent (Kernel.memory_usage containerInfo);
     Status := containerStatusToString (Kernel.status containerInfo);
     StartTime := wrap_i64 (Kernel.start_time containerInfo);
     NetworkLatency := AvgLatency networkMetrics;
     TCPRetransmits := NetTCPRetransmits networkMetrics |}.

Fixpoint read_entries (n : nat) (entries : list (Z * Kernel.container_info))
    (flows : nat -> list (FlowKey * FlowStats)) : list ContainerMetric :=
  match entries with
  | [] => []
  | (_, containerInfo) :: rest =>
      container_metric_of containerInfo (flows n) :: read_entries (S n) rest flows
  end.

(** readContainerMetrics on a loaded collection. *)
Definition readContainerMetrics (c : Collection) (k : KernelView)
    : list ContainerMetric + read_error :=
  match Maps c !! "container_map" with
  | None => inr ContainerMapMissing
  | Some _ =>
      match Maps c !! "flow_stats_map" with
      | None => inr FlowStatsMapMissing
      | Some _ =>
          let containers := read_entries 0 (container_entries k) (flow_entries k) in
          if container_iter_err k then inr IterationFailed else inl containers
      end
  end.

(** generateMockContainers; the two readings of time.Now(). *)
Definition generateMockContainers (now1 now2 : Z) : list ContainerMetric :=
  [ {| ID := "container_001"; Name := "web-server"; PID := 12345;
       CPUPercent := 0x1.00ccccccccccdp+5; MemoryPercent := 0x1.6cccccccccccdp+5;
       MemoryUsage := wrap64 (512 * 1024 * 1024); NetworkLatency := 8.5;
       TCPRetransmits := 0; Status := "running";
       StartTime := now1 - 2 * 3600 * Config.Second |};
    {| ID := "container_002"; Name := "db-primary"; PID := 12346;
       CPUPercent := 0x1.3b9999999999ap+6; MemoryPercent := 0x1.f266666666666p+5;
       MemoryUsage := wrap64 (1024 * 1024 * 1024);
       NetworkLatency := 0x1.899999999999ap+3;
       TCPRetransmits := 2; Status := "running";
       StartTime := now2 - 4 * 3600 * Config.Second |} ].

(** A slice over a new array that holds [l]; appending to the nil slice
    of readContainerMetrics leaves it nil when nothing is appended.
    Spare capacity is not represented. *)
Definition new_slice (h : heap) (l : list ContainerMetric) : heap * slice :=
  match l with
  | [] => (h, {| sl_array := None; sl_offset := 0; sl_len := 0; sl_cap := 0 |})
  | _ =>
      let a := fresh (dom (arrays h)) in
      ({| structs := structs h; arrays := <[a := l]> (arrays h) |},
       {| sl_array := Some a; sl_offset := 0; sl_len := length l;
          sl_cap := length l |})
  end.

Definition set_struct (p : loc) (v : Metrics) (h : heap) : heap :=
  {| structs := <[p := v]> (structs h); arrays := arrays h |}.

(** updateMetrics; [None] is a nil-pointer panic (no metrics, or no
    collection).  [now] is the reading stored in LastUpdate, [mock1]
    and [mock2] are the readings of generateMockContainers. *)
Definition updateMetrics (now mock1 mock2 : Z) (k : KernelView) (m : Monitor)
    (h : heap) : option heap :=
  match metrics m with
  | None => None
  | Some mp =>
      match structs h !! mp with
      | None => None
      | Some cur =>
          match coll m with
          | None => None
          | Some c =>
              let cur :=
                {| Containers := Containers cur;
                   SystemMemory := SystemMemory cur;
                   EBPFMapsCount := Z.of_nat (size (Maps c));
                   LastUpdate := now |} in
              match readContainerMetrics c k with
              | inr _ =>
                  if (sl_len (Containers cur) =? 0)%nat then
                    let '(h, s) := new_slice h (generateMockContainers mock1 mock2) in
                    Some (set_struct mp
                            {| Containers := s;
                               SystemMemory := SystemMemory cur;
                               EBPFMapsCount := EBPFMapsCount cur;
                               LastUpdate := LastUpdate cur |} h)
                  else Some (set_struct mp cur h)
              | inl containers =>
                  let '(h, s) := new_slice h containers in
                  Some (set_struct mp
                          {| Containers := s;
                             SystemMemory := SystemMemory cur;
                             EBPFMapsCount := EBPFMapsCount cur;
                             LastUpdate := LastUpdate cur |} h)
              end
          end
      end
  end.

End Telemetry.

(** * The memory manager and its optimizer *)

Module Memory.

Import Pool.
Local Open Scope string_scope.
Local Open Scope list_scope.
Local Open Scope Z_scope.

(** What the interface values of the default pools hold. *)
Inductive pooled :=
| PContainerMetric (c : Agent.ContainerMetric)
| PFlowKey (k : Agent.FlowKey)
| PFlowStats (s : Agent.FlowStats)
| PEventData (e : Processor.EventData)
| PBytes (b : list Z).

Record MemoryStats := {
  AllocatedBytes : Z;
  MaxAllocated : Z;
  GCCount : Z;
  LastGC : Z;
  PoolHits : Z;
  PoolMisses : Z;
  ObjectsInPool : Z;
  ObjectsAllocated : Z
}.

Record MemoryManager := {
  maxMemory : Z;
  currentMemory : Z;
  pools : gmap string (ObjectPool pooled);
  memoryStats : MemoryStats;
  gcInterval : Z
}.

Definition with_pools (ps : gmap string (ObjectPool pooled)) (mm : MemoryManager)
    : MemoryManager :=
  {| maxMemory := maxMemory mm; currentMemory := currentMemory mm; pools := ps;
     memoryStats := memoryStats mm; gcInterval := gcInterval mm |}.

Definition FlowKey_zero : Agent.FlowKey :=
  {| Agent.SrcIP := 0; Agent.DstIP := 0; Agent.SrcPort := 0; Agent.DstPort := 0;
     Agent.Protocol := 0; Agent.Pad := [0; 0; 0]; Agent.CgroupID := 0 |}.

Definition FlowStats_zero : Agent.FlowStats :=
  {| Agent.Packets := 0; Agent.Bytes := 0; Agent.LatencySum := 0;
     Agent.LatencyCount := 0; Agent.LastSeen := 0;
     Agent.FlowTCPRetransmits := 0; Agent.Flags := 0 |}.

Definition EventData_zero : Processor.EventData :=
  {| Processor.EventType := 0; Processor.Timestamp := 0;
     Processor.EventCgroupID := 0; Processor.EventPID := 0;
     Processor.Data := repeat 0 256 |}.

(** The five reset functions: each clears objects of its own type and
    leaves any other object as it is. *)
Definition reset_container_metric (o : pooled) : pooled :=
  match o with PContainerMetric _ => PContainerMetric Agent.ContainerMetric_zero | _ => o end.
Definition reset_flow_key (o : pooled) : pooled :=
  match o with PFlowKey _ => PFlowKey FlowKey_zero | _ => o end.
Definition reset_flow_stats (o : pooled) : pooled :=
  match o with PFlowStats _ => PFlowStats FlowStats_zero | _ => o end.
Definition reset_event_data (o : pooled) : pooled :=
  match o with PEventData _ => PEventData EventData_zero | _ => o end.
Definition reset_bytes (o : pooled) : pooled :=
  match o with PBytes b => PBytes (map (fun _ => 0) b) | _ => o end.

(** CreatePool with a size that [make] accepts. *)
Definition add_pool (nm : string) (size : Z) (f : unit -> iface pooled)
    (r : pooled -> pooled) (ps : gmap string (ObjectPool pooled))
    : gmap string (ObjectPool pooled) :=
  default ps (CreatePool ps nm size f (Some r)).

(** createDefaultPools *)
Definition createDefaultPools (ps : gmap string (ObjectPool pooled))
    : gmap string (ObjectPool pooled) :=
  let ps := add_pool "container_metrics" 100
              (fun _ => Some (PContainerMetric Agent.ContainerMetric_zero))
              reset_container_metric ps in
  let ps := add_pool "flow_keys" 1000
              (fun _ => Some (PFlowKey FlowKey_zero)) reset_flow_key ps in
  let ps := add_pool "flow_stats" 1000
              (fun _ => Some (PFlowStats FlowStats_zero)) reset_flow_stats ps in
  let ps := add_pool "event_data" 500
              (fun _ => Some (PEventData EventData_zero)) reset_event_data ps in
  add_pool "byte_buffers" 200
    (fun _ => Some (PBytes (repeat 0 4096))) reset_bytes ps.

(** NewMemoryManager; the monitoring goroutine it starts is the caller
    of updateMemoryStats below. *)
Definition NewMemoryManager (maxMem : Z) : MemoryManager :=
  {| maxMemory := maxMem; currentMemory := 0;
     pools := createDefaultPools ∅;
     memoryStats := {| AllocatedBytes := 0; MaxAllocated := 0; GCCount := 0;
                       LastGC := 0; PoolHits := 0; PoolMisses := 0;
                       ObjectsInPool := 0; ObjectsAllocated := 0 |};
     gcInterval := 30 * Config.Second |}.

(** GetFromPool: nil for a name that has no pool. *)
Definition GetFromPool (poolName : string) (mm : MemoryManager)
    : MemoryManager * iface pooled :=
  match pools mm !! poolName with
  | None => (mm, None)
  | Some pool =>
      let '(pool, obj) := Get pool in
      (with_pools (<[poolName := pool]> (pools mm)) mm, obj)
  end.

(** PutToPool; the second component is the caller's object afterwards. *)
Definition PutToPool (poolName : string) (obj : iface pooled) (mm : MemoryManager)
    : MemoryManager * iface pooled :=
  match pools mm !! poolName with
  | None => (mm, obj)
  | Some pool =>
      let '(pool, obj) := Put obj pool in
      (with_pools (<[poolName := pool]> (pools mm)) mm, obj)
  end.

Definition with_stats (st : MemoryStats) (mm : MemoryManager) : MemoryManager :=
  {| maxMemory := maxMemory mm; currentMemory := currentMemory mm;
     pools := pools mm; memoryStats := st; gcInterval := gcInterval mm |}.

(** ForceGC, its two bookkeeping lines. *)
Definition ForceGC (now : Z) (mm : MemoryManager) : MemoryManager :=
  with_stats
    {| AllocatedBytes := AllocatedBytes (memoryStats mm);
       MaxAllocated := MaxAllocated (memoryStats mm);
       GCCount := wrap64 (GCCount (memoryStats mm) + 1);
       LastGC := now;
       PoolHits := PoolHits (memoryStats mm);
       PoolMisses := PoolMisses (memoryStats mm);
       ObjectsInPool := ObjectsInPool (memoryStats mm);
       ObjectsAllocated := ObjectsAllocated (memoryStats mm) |} mm.

(** The four sums of updateMemoryStats over the pools; addition does not
    depend on the order the map is ranged over. *)
Definition pool_totals (ps : gmap string (ObjectPool pooled)) : Z * Z * Z * Z :=
  map_fold
    (fun _ pool '(h, m, n, c) =>
       let '(created, hits, misses, poolSize) := Stats pool in
       (wrap64 (h + wrap64 hits), wrap64 (m + wrap64 misses),
        wrap_i64 (n + Z.of_nat poolSize), wrap_i64 (c + created)))
    (0, 0, 0, 0) ps.

(** updateMemoryStats *)
Definition updateMemoryStats (alloc : Z) (mm : MemoryManager) : MemoryManager :=
  let '(h, m, n, c) := pool_totals (pools mm) in
  {| maxMemory := maxMemory mm; currentMemory := alloc; pools := pools mm;
     memoryStats :=
       {| AllocatedBytes := alloc;
          MaxAllocated := if MaxAllocated (memoryStats mm) <? alloc then alloc
                          else MaxAllocated (memoryStats mm);
          GCCount := GCCount (memoryStats mm);
          LastGC := LastGC (memoryStats mm);
          PoolHits := h; PoolMisses := m;
          ObjectsInPool := n; ObjectsAllocated := c |};
     gcInterval := gcInterval mm |}.

Definition GetCurrentMemory (mm : MemoryManager) : Z := currentMemory mm.

Record MemoryThresholds := {
  Warning : Z;
  Critical : Z;
  Maximum : Z
}.

Record MemoryOptimizer := {
  manager : MemoryManager;
  thresholds : MemoryThresholds
}.

(** NewMemoryOptimizer: uint64 arithmetic. *)
Definition NewMemoryOptimizer (maxMem : Z) : MemoryOptimizer :=
  {| manager := NewMemoryManager maxMem;
     thresholds := {| Warning := wrap64 (maxMem * 70) / 100;
                      Critical := wrap64 (maxMem * 85) / 100;
                      Maximum := maxMem |} |}.

(** The inner loop of clearObjectPools: [n] non-blocking receives. *)
Fixpoint drain (n : nat) (buf : list (iface pooled)) : list (iface pooled) :=
  match n with
  | O => buf
  | S n' =>
      match buf with
      | _ :: rest => drain n' rest
      | [] => drain n' []
      end
  end.

Definition clear_half (p : ObjectPool pooled) : ObjectPool pooled :=
  let poolSize := length (chan_buf (objects p)) in
  with_objects (drain (poolSize / 2) (chan_buf (objects p))) p.

(** clearObjectPools *)
Definition clearObjectPools (mo : MemoryOptimizer) : MemoryOptimizer :=
  {| manager := with_pools (clear_half <$> pools (manager mo)) (manager mo);
     thresholds := thresholds mo |}.

(** OptimizeMemory *)
Definition OptimizeMemory (now : Z) (mo : MemoryOptimizer) : MemoryOptimizer :=
  let currentMem := GetCurrentMemory (manager mo) in
  if Critical (thresholds mo) <? currentMem then
    clearObjectPools {| manager := ForceGC now (manager mo);
                        thresholds := thresholds mo |}
  else if Warning (thresholds mo) <? currentMem then
    {| manager := ForceGC now (manager mo); thresholds := thresholds mo |}
  else mo.

End Memory.

(** * Detection of the container runtimes *)

Module Detection.

Import GoStrings.
Local Open Scope string_scope.
Local Open Scope list_scope.
Local Open Scope Z_scope.














End Detection.

(** * The process manager *)

Module ProcessKill.

Import GoStrings Agent.
Local Open Scope string_scope.
Local Open Scope list_scope.
Local Open Scope Z_scope.

Definition SIGKILL : Z := 9.
Definition SIGTERM : Z := 15.

(** What the process manager does to the outside world. *)
Inductive action :=
| Run (argv : list string)
| Output (argv : list string)
| Signal (pid : Z) (sig : Z)
| Sleep (d : Z).

(** The outside world: whether a command, a signal or a process lookup
    succeeds, and what a command prints, given everything done so far. *)
Record World := {
  run_ok : list action -> list string -> bool;
  output_of : list action -> list string -> option string;
  signal_ok : list action -> Z -> Z -> bool
}.

Inductive kill_error :=
| InvalidIndex (i : Z)
| InvalidPID (pid : Z)
| CommandFailed (argv : list string)
| SigtermFailed
| SigkillFailed
| SignalFailed.

(** A computation that acts on the world: from the log so far to the
    new log and the result. *)
Definition job (T : Type) : Type := list action -> list action * T.

Definition ret {T} (x : T) : job T := fun log => (log, x).

Definition bind {T U} (j : job T) (k : T -> job U) : job U :=
  fun log => let '(log, x) := j log in k x log.

Definition run (w : World) (argv : list string) : job bool :=
  fun log => (log ++ [Run argv], run_ok w log argv).

Definition output (w : World) (argv : list string) : job (option string) :=
  fun log => (log ++ [Output argv], output_of w log argv).

Definition sendSignal (w : World) (pid sig : Z) : job bool :=
  fun log => (log ++ [Signal pid sig], signal_ok w log pid sig).

Definition sleep (d : Z) : job unit := fun log => (log ++ [Sleep d], tt).

Definition isProcessRunning (w : World) (pid : Z) : job bool :=
  sendSignal w pid 0.

(** [cmd.Run()] as an error value. *)
Definition run_err (w : World) (argv : list string) : job (option kill_error) :=
  bind (run w argv) (fun ok =>
  ret (if ok then None else Some (CommandFailed argv))).

Definition detectContainerRuntime (w : World) (containerID : string) : job string :=
  bind (run w ["docker"; "inspect"; containerID]) (fun docker =>
  if docker then ret "docker" else
  bind (run w ["ctr"; "container"; "info"; containerID]) (fun containerd =>
  if containerd then ret "containerd" else
  bind (run w ["crictl"; "inspect"; containerID]) (fun crio =>
  if crio then ret "cri-o" else ret "unknown"))).

Definition killDockerContainer (w : World) (containerID : string)
    : job (option kill_error) :=
  bind (run w ["docker"; "stop"; "--time"; "10"; containerID]) (fun ok =>
  if ok then ret None else run_err w ["docker"; "kill"; containerID]).

Definition killContainerdContainer (w : World) (containerID : string)
    : job (option kill_error) :=
  let force := run_err w ["ctr"; "task"; "kill"; "--signal"; "SIGKILL"; containerID] in
  bind (run w ["ctr"; "task"; "kill"; "--signal"; "SIGTERM"; containerID]) (fun ok =>
  if ok then
    bind (sleep (10 * Config.Second)) (fun _ =>
    bind (output w ["ctr"; "task"; "ls"]) (fun out =>
    match out with
    | Some text => if negb (Contains text containerID) then ret None else force
    | None => force
    end))
  else force).

Definition killCRIOContainer (w : World) (containerID : string)
    : job (option kill_error) :=
  bind (run w ["crictl"; "stop"; containerID]) (fun ok =>
  if ok then ret None else run_err w ["crictl"; "rm"; "--force"; containerID]).

Definition killProcessByPID (w : World) (pid : Z) : job (option kill_error) :=
  if pid =? 0 then ret (Some (InvalidPID pid)) else
  bind (sendSignal w pid SIGTERM) (fun ok =>
  if negb ok then ret (Some SigtermFailed) else
  bind (sleep (5 * Config.Second)) (fun _ =>
  bind (isProcessRunning w pid) (fun alive =>
  if alive then
    bind (sendSignal w pid SIGKILL) (fun ok =>
    ret (if ok then None else Some SigkillFailed))
  else ret None))).

(** KillContainerProcess on the containers GetMetrics returned. *)
Definition KillContainerProcess (w : World) (containers : list ContainerMetric)
    (containerIndex : Z) : job (option kill_error) :=
  if (Z.of_nat (length containers) <=? containerIndex) || (containerIndex <? 0)
  then ret (Some (InvalidIndex containerIndex)) else
  match containers !! Z.to_nat containerIndex with
  | None => ret (Some (InvalidIndex containerIndex))
  | Some container =>
      bind (detectContainerRuntime w (ID container)) (fun runtime =>
      if String.eqb runtime "docker" then killDockerContainer w (ID container)
      else if String.eqb runtime "containerd" then
        killContainerdContainer w (ID container)
      else if String.eqb runtime "cri-o" then killCRIOContainer w (ID container)
      else killProcessByPID w (PID container))
  end.

End ProcessKill.

(** * Concrete scenarios used to exercise the statements below *)

Module Scenarios.

Import Kernel.

(** A process of cgroup [cg] whose pid is [p]. *)
Definition ctx_of (cg p : Z) : probe_ctx :=
  {| task_present := true; current_cgroup := cg;
     pid_tgid := Z.shiftl p 32 + p;
     ktime := fun n => 1000 + Z.of_nat n;
     current_comm := zero_bytes MAX_COMM_LEN;
     stack_after_cgroup := [];
     lru_victim_container := 0; lru_victim_pid := 0 |}.

(** The maps after pid 4321 of cgroup 0xABCDEF00 entered clone. *)
Definition after_clone : maps :=
  fst (trace_container_start (ctx_of 2882400000 4321) maps_init).

(** The same maps with a ring buffer that has no room left: 1560 pending
    records of 168 bytes in a buffer of 262144 bytes. *)
Definition after_clone_ring_full : maps :=
  with_events
    {| rb_max_entries := 256 * 1024;
       rb_pending :=
         repeat {| ev_type := EVENT_CONTAINER_START; ev_timestamp := 0;
                   ev_cgroup_id := 2882400000; ev_pid := 4321;
                   ev_container := container_info_zero |} 1560 |}
    after_clone.

(** The container-table entry that clone left. *)
Definition clone_entry : container_info :=
  {| cgroup_id := 2882400000; pid := 4321; ppid := 4321;
     container_id := zero_bytes MAX_CONTAINER_ID_LEN;
     comm := zero_bytes MAX_COMM_LEN;
     start_time := 1000; cpu_usage := 0; memory_usage := 0;
     status := CONTAINER_STATUS_CREATED |}.

(** A configuration file with one docker target that gives neither a
    sampling rate nor alert thresholds, as unmarshalled. *)
Definition omitted_config : Config.Config :=
  {| Config.Monitoring :=
       {| Config.Targets :=
            [{| Config.Name := "default-cluster"; Config.Runtime := "docker";
                Config.Metrics := []; Config.SamplingRate := 0 |}];
          Config.Thresholds :=
            {| Config.CPU := 0; Config.Memory := 0;
               Config.NetworkLatency := 0 |} |};
     Config.Display := {| Config.RefreshRate := 0; Config.Theme := "" |};
     Config.System := {| Config.MaxContainers := 0; Config.MemoryLimit := "";
                         Config.LogLevel := "" |} |}.

(** The same file with [sampling_rate: 2s] written out. *)
Definition omitted_thresholds_config : Config.Config :=
  {| Config.Monitoring :=
       {| Config.Targets :=
            [{| Config.Name := "default-cluster"; Config.Runtime := "docker";
                Config.Metrics := []; Config.SamplingRate := 2 * Config.Second |}];
          Config.Thresholds :=
            {| Config.CPU := 0; Config.Memory := 0;
               Config.NetworkLatency := 0 |} |};
     Config.Display := {| Config.RefreshRate := 0; Config.Theme := "" |};
     Config.System := {| Config.MaxContainers := 0; Config.MemoryLimit := "";
                         Config.LogLevel := "" |} |}.

(** A pool of two byte counters whose reset clears the counter. *)
Definition counter_pool : option (Pool.ObjectPool Z) :=
  Pool.new_pool "counters" 2 (fun _ => Some 0) (Some (fun _ => 0)).

(** Successive readings of the wall clock. *)
Definition wall_clock (n : nat) : Z := 1700000000000000000 + Z.of_nat n.

(** A container-start event for cgroup 0xABCDEF00, then sample events. *)
Definition start_call : Processor.call :=
  (Processor.ContainerStartHandler,
   {| Processor.EventType := 1; Processor.Timestamp := 1000;
      Processor.EventCgroupID := 2882400000; Processor.EventPID := 4321;
      Processor.Data := [] |},
   fun n => 2000 + Z.of_nat n).

Definition cpu_call : Processor.call :=
  (Processor.CPUSampleHandler,
   {| Processor.EventType := 4; Processor.Timestamp := 3000;
      Processor.EventCgroupID := 2882400000; Processor.EventPID := 4321;
      Processor.Data := [] |},
   fun n => 4000 + Z.of_nat n).

Definition memory_call : Processor.call :=
  (Processor.MemorySampleHandler,
   {| Processor.EventType := 5; Processor.Timestamp := 3000;
      Processor.EventCgroupID := 2882400000; Processor.EventPID := 4321;
      Processor.Data := [] |},
   fun n => 4000 + Z.of_nat n).

(** A host without the compiled probe objects: the loader falls back to
    its built-in map specs, and every attachment succeeds. *)
Definition dev_env : Agent.Env :=
  {| Agent.RemoveMemlock := true;
     Agent.LoadCollectionSpec := fun _ => None;
     Agent.NewCollection :=
       fun sp => Some {| Ebpf.Maps := Ebpf.SpecMaps sp; Ebpf.Programs := ∅ |};
     Agent.Tracepoint :=
       fun _ nm prog => Some {| Ebpf.hook := nm; Ebpf.attached := prog |};
     Agent.Kprobe :=
       fun nm prog => Some {| Ebpf.hook := nm; Ebpf.attached := prog |};
     Agent.Now := 1700000000 |}.

Definition empty_heap : Agent.heap :=
  {| Agent.structs := ∅; Agent.arrays := ∅ |}.

(** The monitor NewMonitor returns on that host, and its heap. *)
Definition new_monitor : option (Agent.heap * Agent.Monitor) :=
  Agent.NewMonitor dev_env omitted_thresholds_config empty_heap.

(** A heap in which the monitor's metrics hold one container record. *)
Definition web_server : Agent.ContainerMetric :=
  {| Agent.ID := "container_001"; Agent.Name := "web-server";
     Agent.PID := 12345; Agent.CPUPercent := 32; Agent.MemoryPercent := 45;
     Agent.MemoryUsage := 512 * 1024 * 1024; Agent.NetworkLatency := 8.5;
     Agent.TCPRetransmits := 0; Agent.Status := "running";
     Agent.StartTime := 0 |}.

Definition one_container_heap : Agent.heap :=
  {| Agent.structs :=
       {[ 1%positive :=
            {| Agent.Containers :=
                 {| Agent.sl_array := Some 1%positive; Agent.sl_offset := 0;
                    Agent.sl_len := 1; Agent.sl_cap := 1 |};
               Agent.SystemMemory := 0; Agent.EBPFMapsCount := 9;
               Agent.LastUpdate := 1700000000 |} ]};
     Agent.arrays := {[ 1%positive := [web_server] ]} |}.

(** The same heap before any container was observed. *)
Definition idle_heap : Agent.heap :=
  {| Agent.structs :=
       {[ 1%positive :=
            {| Agent.Containers :=
                 {| Agent.sl_array := Some 1%positive; Agent.sl_offset := 0;
                    Agent.sl_len := 0; Agent.sl_cap := 0 |};
               Agent.SystemMemory := 0; Agent.EBPFMapsCount := 0;
               Agent.LastUpdate := 0 |} ]};
     Agent.arrays := {[ 1%positive := [] ]} |}.

(** A monitor that is not running; its metrics are the struct at
    location 1. *)
Definition stopped_monitor : Agent.Monitor :=
  {| Agent.config := omitted_thresholds_config; Agent.spec := None;
     Agent.coll := None; Agent.links := []; Agent.running := false;
     Agent.startTime := 0; Agent.metrics := Some 1%positive;
     Agent.processor := Some (Processor.NewDataProcessor 0) |}.

(** Flows of cgroup 7 with latencies of 1, 2 and 4 ms, and one flow of
    another cgroup. *)
Definition flow (cg sum count : Z) : Agent.FlowKey * Agent.FlowStats :=
  ({| Agent.SrcIP := 167772161; Agent.DstIP := 167772162;
      Agent.SrcPort := 5000 + sum / 1000000; Agent.DstPort := 80;
      Agent.Protocol := 6; Agent.Pad := [0; 0; 0]; Agent.CgroupID := cg |},
   {| Agent.Packets := 1; Agent.Bytes := 60; Agent.LatencySum := sum;
      Agent.LatencyCount := count; Agent.LastSeen := 0;
      Agent.FlowTCPRetransmits := 0; Agent.Flags := 2 |}).

Definition three_flows : list (Agent.FlowKey * Agent.FlowStats) :=
  [flow 7 1000000 1; flow 9 9000000 1; flow 7 2000000 1; flow 7 4000000 1].

(** The body the handler of the image writes on the same monitor. *)
Definition first_scrape_image : option string :=
  match new_monitor with
  | Some (h, m) =>
      match Agent.image_metricsHandler m h with
      | Some (_, body) => Some body
      | None => None
      end
  | None => None
  end.

(** The body of GET /metrics on a monitor that NewMonitor just built. *)
Definition first_scrape : option string :=
  match new_monitor with
  | Some (h, m) =>
      match Agent.metricsHandler m h with
      | Some (_, body) => Some body
      | None => None
      end
  | None => None
  end.

End Scenarios.

(** * Further scenarios *)

Module MoreScenarios.

Local Open Scope string_scope.
Local Open Scope list_scope.
Local Open Scope Z_scope.

(** The collection the loader builds from its built-in map specs. *)
Definition fallback_collection : Ebpf.Collection :=
  {| Ebpf.Maps :=
       Ebpf.SpecMaps Agent.fallback_network_spec
       ∪ Ebpf.SpecMaps Agent.fallback_container_spec;
     Ebpf.Programs := ∅ |}.

(** The kernel as the monitor sees it after pid 4321 of cgroup
    0xABCDEF00 entered clone: one container entry, no flows. *)
Definition view_after_clone : Telemetry.KernelView :=
  {| Telemetry.container_entries :=
       map_to_list
         (Kernel.container_map
            (Kernel.run_probes
               [(Kernel.SysEnterClone, Scenarios.ctx_of 2882400000 4321)]
               Kernel.maps_init));
     Telemetry.container_iter_err := false;
     Telemetry.flow_entries := fun _ => [] |}.

(** A host on which the compiled clone probe loads but cannot be
    attached. *)
Definition no_tracepoint_env : Agent.Env :=
  {| Agent.RemoveMemlock := true;
     Agent.LoadCollectionSpec := fun _ => None;
     Agent.NewCollection :=
       fun sp =>
         Some {| Ebpf.Maps := Ebpf.SpecMaps sp;
                 Ebpf.Programs :=
                   {[ "trace_container_start" := 1 ]} |};
     Agent.Tracepoint := fun _ _ _ => None;
     Agent.Kprobe :=
       fun nm prog => Some {| Ebpf.hook := nm; Ebpf.attached := prog |};
     Agent.Now := 1700000000 |}.

(** The monitor of the scenarios after a successful Start. *)
Definition started_monitor : Agent.Monitor :=
  fst (fst (Agent.Start Scenarios.dev_env Scenarios.stopped_monitor)).

(** A running monitor whose collection is the fallback one and whose
    metrics are the struct at location 1. *)
Definition collecting_monitor : Agent.Monitor :=
  {| Agent.config := Scenarios.omitted_thresholds_config; Agent.spec := None;
     Agent.coll := Some fallback_collection; Agent.links := [];
     Agent.running := true; Agent.startTime := 1700000000;
     Agent.metrics := Some 1%positive;
     Agent.processor := Some (Processor.NewDataProcessor 0) |}.

(** The kernel when the iteration over the container table fails. *)
Definition failing_view : Telemetry.KernelView :=
  {| Telemetry.container_entries := [];
     Telemetry.container_iter_err := true;
     Telemetry.flow_entries := fun _ => [] |}.

(** A file that gives everything Validate asks for and nothing else. *)
Definition minimal_config : Config.Config :=
  {| Config.Monitoring :=
       {| Config.Targets :=
            [{| Config.Name := "default-cluster"; Config.Runtime := "docker";
                Config.Metrics := []; Config.SamplingRate := 2 * Config.Second |}];
          Config.Thresholds :=
            {| Config.CPU := 70; Config.Memory := 80;
               Config.NetworkLatency := 10 |} |};
     Config.Display := {| Config.RefreshRate := 0; Config.Theme := "" |};
     Config.System := {| Config.MaxContainers := 0; Config.MemoryLimit := "";
                         Config.LogLevel := "" |} |}.

(** Two targets, the second with a runtime that is not supported. *)
Definition podman_config : Config.Config :=
  {| Config.Monitoring :=
       {| Config.Targets :=
            [{| Config.Name := "default-cluster"; Config.Runtime := "docker";
                Config.Metrics := []; Config.SamplingRate := 2 * Config.Second |};
             {| Config.Name := "edge"; Config.Runtime := "podman";
                Config.Metrics := []; Config.SamplingRate := 0 |}];
          Config.Thresholds :=
            {| Config.CPU := 0; Config.Memory := 80;
               Config.NetworkLatency := 10 |} |};
     Config.Display := {| Config.RefreshRate := 0; Config.Theme := "" |};
     Config.System := {| Config.MaxContainers := 0; Config.MemoryLimit := "";
                         Config.LogLevel := "" |} |}.

(** A pool of numbers with room for three and no reset function. *)
Definition number_pool : Pool.ObjectPool Z :=
  {| Pool.name := "numbers";
     Pool.objects := {| Pool.chan_cap := 3; Pool.chan_buf := [] |};
     Pool.factory := fun _ => Some 0; Pool.reset := None; Pool.maxSize := 3;
     Pool.created := 0; Pool.hits := 0; Pool.misses := 0 |}.


(** An optimizer for a limit of 1000 bytes whose manager holds two flow
    keys in a pool and has last seen 900 bytes allocated. *)
Definition pressed_optimizer : Memory.MemoryOptimizer :=
  {| Memory.manager :=
       Memory.updateMemoryStats 900
         (fst (Memory.PutToPool "flow_keys"
                 (Some (Memory.PFlowKey Memory.FlowKey_zero))
                 (fst (Memory.PutToPool "flow_keys"
                         (Some (Memory.PFlowKey Memory.FlowKey_zero))
                         (Memory.NewMemoryManager 1000)))));
     Memory.thresholds := Memory.thresholds (Memory.NewMemoryOptimizer 1000) |}.

(** A host on which docker does not know the container and neither do
    ctr and crictl; signals are delivered and the process is gone when
    it is probed. *)
Definition bare_world : ProcessKill.World :=
  {| ProcessKill.run_ok := fun _ _ => false;
     ProcessKill.output_of := fun _ _ => None;
     ProcessKill.signal_ok :=
       fun _ _ sig => negb (sig =? 0)%Z |}.

End MoreScenarios.

(** * Properties of the container-trace probes *)

Module KernelProofs.

Import Kernel.

Lemma is_container_process_false cg :
  is_container_process cg = false <-> cg = 0 \/ cg = 1.
Proof. unfold is_container_process. split; intros H; lia. Qed.

Lemma container_map_update_stats i s :
  container_map (update_stats i s) = container_map s.
Proof. unfold update_stats. now destruct (stats_map s !! i). Qed.

Lemma pid_map_update_stats i s :
  pid_to_cgroup_map (update_stats i s) = pid_to_cgroup_map s.
Proof. unfold update_stats. now destruct (stats_map s !! i). Qed.

Lemma events_update_stats i s : events (update_stats i s) = events s.
Proof. unfold update_stats. now destruct (stats_map s !! i). Qed.

Lemma stats_with_container_map f s :
  stats_map (with_container_map f s) = stats_map s.
Proof. reflexivity. Qed.

Lemma events_with_container_map f s :
  events (with_container_map f s) = events s.
Proof. reflexivity. Qed.

Lemma pid_map_with_container_map f s :
  pid_to_cgroup_map (with_container_map f s) = pid_to_cgroup_map s.
Proof. reflexivity. Qed.

Lemma container_map_with_container_map f s :
  container_map (with_container_map f s) = f (container_map s).
Proof. reflexivity. Qed.

Lemma container_map_with_pid_map f s :
  container_map (with_pid_map f s) = container_map s.
Proof. reflexivity. Qed.

Lemma pid_map_with_pid_map f s :
  pid_to_cgroup_map (with_pid_map f s) = f (pid_to_cgroup_map s).
Proof. reflexivity. Qed.

Lemma events_with_pid_map f s : events (with_pid_map f s) = events s.
Proof. reflexivity. Qed.

Lemma stats_with_pid_map f s : stats_map (with_pid_map f s) = stats_map s.
Proof. reflexivity. Qed.

Lemma events_with_events r s : events (with_events r s) = r.
Proof. reflexivity. Qed.

Create Rewrite HintDb maps_proj.
#[local] Hint Rewrite container_map_update_stats pid_map_update_stats
  events_update_stats stats_with_container_map events_with_container_map
  pid_map_with_container_map container_map_with_container_map
  container_map_with_pid_map pid_map_with_pid_map events_with_pid_map
  stats_with_pid_map events_with_events : maps_proj.

Lemma container_map_send_event e s :
  container_map (fst (send_event e s)) = container_map s.
Proof.
  unfold send_event.
  destruct (ringbuf_reserve _ _); simpl; now rewrite container_map_update_stats.
Qed.

Lemma pid_map_send_event e s :
  pid_to_cgroup_map (fst (send_event e s)) = pid_to_cgroup_map s.
Proof.
  unfold send_event.
  destruct (ringbuf_reserve _ _); simpl; now rewrite pid_map_update_stats.
Qed.

(** An LRU insertion creates no key but the inserted one. *)
Lemma lru_update_absent {V} cap victim k (v : V) (m : gmap Z V) j :
  j <> k -> m !! j = None -> lru_update cap victim k v m !! j = None.
Proof.
  intros Hne Hj. unfold lru_update.
  destruct (m !! k); [| destruct (_ <? _)];
    rewrite lookup_insert_ne by congruence; auto.
  rewrite lookup_delete_None. now right.
Qed.

(** One probe firing creates no container-table entry for a key that is
    not a container cgroup. *)
Lemma probe_creates_no_root_key p c s k :
  is_container_process k = false ->
  container_map s !! k = None ->
  container_map (fst (run_probe p c s)) !! k = None.
Proof.
  intros Hk Hnone.
  assert (Hne : is_container_process (get_current_cgroup_id c) = true ->
                k <> get_current_cgroup_id c) by (intros H1 ->; congruence).
  destruct p; simpl.
  - unfold trace_container_start.
    destruct (is_container_process (get_current_cgroup_id c)) eqn:E; simpl; auto.
    destruct (container_map s !! get_current_cgroup_id c); simpl; auto.
    rewrite container_map_update_stats, container_map_send_event. simpl.
    apply lru_update_absent; auto.
  - unfold trace_container_stop.
    destruct (is_container_process (get_current_cgroup_id c)) eqn:E; simpl; auto.
    destruct (container_map s !! get_current_cgroup_id c) as [ci|]; simpl; auto.
    destruct (pid ci =? current_pid c); simpl; auto.
    rewrite container_map_update_stats, container_map_send_event. simpl.
    rewrite lookup_delete_ne, lookup_insert_ne; auto.
    all: intros E'; apply Hne; auto.
  - unfold kprobe_cgroup_attach.
    destruct (is_container_process (get_current_cgroup_id c)) eqn:E; simpl; auto.
    destruct (container_map s !! get_current_cgroup_id c) as [ci|]; simpl; auto.
    destruct (status ci =? CONTAINER_STATUS_CREATED); simpl; auto.
    rewrite container_map_send_event. simpl.
    rewrite lookup_insert_ne; auto. intros E'; apply Hne; auto.
  - unfold trace_process_exec.
    destruct (is_container_process (get_current_cgroup_id c)) eqn:E; simpl; auto.
    destruct (container_map s !! get_current_cgroup_id c) as [ci|]; simpl; auto.
    rewrite lookup_insert_ne; auto. intros E'; apply Hne; auto.
Qed.

Lemma history_creates_no_root_key tr : forall s k,
  is_container_process k = false ->
  container_map s !! k = None ->
  container_map (run_probes tr s) !! k = None.
Proof.
  induction tr as [|[p c] tr IH]; intros s k Hk Hnone; simpl; auto.
  apply IH; auto. now apply probe_creates_no_root_key.
Qed.

(** C1. Every lifecycle probe (clone entry, exit entry, cgroup-attach
    kprobe, exec tracepoint) that fires in cgroup 0 or 1 returns 0 and
    leaves all four maps, and so the ring buffer of events, as they were;
    and along any history of probe firings that starts from maps without
    such a key, in particular from the freshly created maps, cgroup ids 0
    and 1 never become keys of the container table. *)
Theorem root_cgroup_is_never_tracked :
  (forall p c s,
      get_current_cgroup_id c = 0 \/ get_current_cgroup_id c = 1 ->
      run_probe p c s = (s, 0))
  /\ (forall tr s,
         container_map s !! 0 = None -> container_map s !! 1 = None ->
         container_map (run_probes tr s) !! 0 = None
         /\ container_map (run_probes tr s) !! 1 = None)
  /\ (forall tr,
         container_map (run_probes tr maps_init) !! 0 = None
         /\ container_map (run_probes tr maps_init) !! 1 = None).
Proof.
  split; [| split].
  - intros p c s H. apply is_container_process_false in H.
    destruct p; simpl;
      [unfold trace_container_start | unfold trace_container_stop
      | unfold kprobe_cgroup_attach | unfold trace_process_exec];
      now rewrite H.
  - intros tr s H0 H1. split; apply history_creates_no_root_key; auto.
  - intros tr. split; apply history_creates_no_root_key; auto.
Qed.

(** An exit in the root cgroup changes nothing, and a history of three
    firings from the maps left by a clone creates no key 0 or 1. *)
Lemma root_cgroup_is_never_tracked_witness :
  run_probe SysEnterExit (Scenarios.ctx_of 1 77) Scenarios.after_clone
    = (Scenarios.after_clone, 0)
  /\ container_map
       (run_probes [(SysEnterClone, Scenarios.ctx_of 0 5);
                    (CgroupAttachTask, Scenarios.ctx_of 1 6);
                    (SchedProcessExec, Scenarios.ctx_of 9 7)]
          Scenarios.after_clone) !! 0 = None.
Proof.
  split.
  - apply (proj1 root_cgroup_is_never_tracked). right. reflexivity.
  - apply (proj1 (proj2 root_cgroup_is_never_tracked)); reflexivity.
Defined.

(** The event the exit probe builds for the entry [ci]. *)
Definition stop_event (c : probe_ctx) (ci : container_info) : event_data :=
  {| ev_type := EVENT_CONTAINER_STOP; ev_timestamp := ktime c 0%nat;
     ev_cgroup_id := get_current_cgroup_id c; ev_pid := current_pid c;
     ev_container := set_status CONTAINER_STATUS_STOPPED ci |}.

(** C2, as the code has it. On exit-syscall entry in a container cgroup:
    when the container table has an entry for the cgroup whose primary
    pid is the exiting pid, the container-table entry and the
    pid-to-cgroup entry of that pid are deleted, and a container-stop
    event that carries the entry with status stopped is emitted exactly
    when the ring buffer has room for it; without room no event is
    emitted and the dropped-events counter is incremented instead.  When
    the entry is missing or its primary pid differs, the probe returns 0
    with every map and the ring buffer untouched. *)
Theorem exit_of_primary_pid (c : probe_ctx) (s : maps) :
  is_container_process (get_current_cgroup_id c) = true ->
  let cg := get_current_cgroup_id c in
  let p := current_pid c in
  let s' := fst (trace_container_stop c s) in
  (forall ci,
      container_map s !! cg = Some ci -> pid ci = p ->
      container_map s' = delete cg (container_map s)
      /\ pid_to_cgroup_map s' = delete p (pid_to_cgroup_map s)
      /\ (ringbuf_reserve (events s) sizeof_event_data = true ->
          rb_pending (events s') = rb_pending (events s) ++ [stop_event c ci])
      /\ (ringbuf_reserve (events s) sizeof_event_data = false ->
          rb_pending (events s') = rb_pending (events s)
          /\ forall n, stats_map s !! STAT_EVENTS_DROPPED = Some n ->
                       stats_map s' !! STAT_EVENTS_DROPPED = Some (wrap64 (n + 1))))
  /\ (container_map s !! cg = None
      \/ (exists ci, container_map s !! cg = Some ci /\ pid ci <> p) ->
      trace_container_stop c s = (s, 0)).
Proof.
  intros Hc cg p s'. subst cg p s'. split.
  - intros ci Hci Hpid. unfold trace_container_stop.
    rewrite Hc, Hci. cbn [negb].
    apply Z.eqb_eq in Hpid. rewrite Hpid. cbn [negb fst]. cbv zeta.
    autorewrite with maps_proj.
    rewrite container_map_send_event, pid_map_send_event.
    autorewrite with maps_proj.
    split; [apply delete_insert_eq | split; [reflexivity |]].
    unfold send_event. autorewrite with maps_proj.
    split; intros Hr; rewrite Hr; cbn [fst]; autorewrite with maps_proj.
    + reflexivity.
    + split; [reflexivity |]. intros n Hn.
      unfold update_stats at 1.
      match goal with
      | |- context [update_stats STAT_EVENTS_DROPPED ?t] =>
          assert (Hd : stats_map (update_stats STAT_EVENTS_DROPPED t)
                         !! STAT_EVENTS_DROPPED = Some (wrap64 (n + 1)))
      end.
      { unfold update_stats. autorewrite with maps_proj. rewrite Hn.
        cbn [stats_map with_stats].
        apply list_lookup_insert_eq. now apply lookup_lt_Some in Hn. }
      match goal with
      | |- context [stats_map ?t !! STAT_CONTAINERS_STOPPED] =>
          destruct (stats_map t !! STAT_CONTAINERS_STOPPED) eqn:E
      end; cbn [stats_map with_stats]; auto.
      rewrite list_lookup_insert_ne by (unfold STAT_CONTAINERS_STOPPED,
        STAT_EVENTS_DROPPED; lia). exact Hd.
  - intros H. unfold trace_container_stop. rewrite Hc. cbn [negb].
    destruct H as [-> | (ci & -> & Hne)]; [reflexivity |].
    apply Z.eqb_neq in Hne. rewrite Hne. reflexivity.
Qed.

(** The primary pid 4321 of cgroup 0xABCDEF00 exits while the ring
    buffer has room; pid 9999 of the same cgroup exits. *)
Lemma exit_of_primary_pid_witness :
  (container_map
     (fst (trace_container_stop (Scenarios.ctx_of 2882400000 4321)
             Scenarios.after_clone))
   = delete 2882400000 (container_map Scenarios.after_clone)
   /\ rb_pending
        (events (fst (trace_container_stop (Scenarios.ctx_of 2882400000 4321)
                        Scenarios.after_clone)))
      = rb_pending (events Scenarios.after_clone)
        ++ [stop_event (Scenarios.ctx_of 2882400000 4321) Scenarios.clone_entry])
  /\ trace_container_stop (Scenarios.ctx_of 2882400000 9999) Scenarios.after_clone
     = (Scenarios.after_clone, 0).
Proof.
  split.
  - destruct (exit_of_primary_pid (Scenarios.ctx_of 2882400000 4321)
                Scenarios.after_clone eq_refl) as [H _].
    destruct (H Scenarios.clone_entry) as (Hc & _ & Hev & _);
      [vm_compute; reflexivity | reflexivity |].
    split; [exact Hc | apply Hev; vm_compute; reflexivity].
  - apply (exit_of_primary_pid (Scenarios.ctx_of 2882400000 9999)
             Scenarios.after_clone eq_refl).
    right. exists Scenarios.clone_entry.
    split; [vm_compute; reflexivity | vm_compute; discriminate].
Defined.

(** The primary pid exits while the ring buffer is full: the entry is
    deleted, and no container-stop event is emitted. *)
Lemma full_ring_drops_stop_event :
  is_container_process (get_current_cgroup_id (Scenarios.ctx_of 2882400000 4321))
    = true
  /\ container_map Scenarios.after_clone_ring_full !! 2882400000
     = Some Scenarios.clone_entry
  /\ pid Scenarios.clone_entry = current_pid (Scenarios.ctx_of 2882400000 4321)
  /\ container_map
       (fst (trace_container_stop (Scenarios.ctx_of 2882400000 4321)
               Scenarios.after_clone_ring_full)) !! 2882400000 = None
  /\ rb_pending
       (events (fst (trace_container_stop (Scenarios.ctx_of 2882400000 4321)
                       Scenarios.after_clone_ring_full)))
     = rb_pending (events Scenarios.after_clone_ring_full)
  /\ forallb (fun e => negb (ev_type e =? EVENT_CONTAINER_STOP))
       (rb_pending
          (events (fst (trace_container_stop (Scenarios.ctx_of 2882400000 4321)
                          Scenarios.after_clone_ring_full)))) = true.
Proof. repeat split; vm_compute; reflexivity. Qed.

End KernelProofs.

(** * Properties of the runtime resolver *)

Module RuntimeProofs.

Import GoStrings Runtime.
Local Open Scope string_scope.
Local Open Scope list_scope.

Lemma append_cons a (s t : string) : String a s +:+ t = String a (s +:+ t).
Proof. reflexivity. Qed.

Lemma prefix_cons a s1 b s2 :
  String.prefix (String a s1) (String b s2)
  = if Ascii.ascii_dec a b then String.prefix s1 s2 else false.
Proof. reflexivity. Qed.

Lemma prefix_split sep : forall s,
  String.prefix sep s = true -> s = sep +:+ drop_str (String.length sep) s.
Proof.
  induction sep as [|a sep IH]; intros s H.
  - now destruct s.
  - destruct s as [|b s]; [discriminate H |].
    rewrite prefix_cons in H.
    destruct (Ascii.ascii_dec a b) as [-> | Hne]; [| discriminate].
    rewrite append_cons. cbn [String.length drop_str]. f_equal. now apply IH.
Qed.

Lemma Cut_eq s sep :
  Cut s sep
  = if String.prefix sep s then Some ("", drop_str (String.length sep) s)
    else match s with
         | "" => None
         | String a r =>
             match Cut r sep with
             | Some (before, after) => Some (String a before, after)
             | None => None
             end
         end.
Proof. destruct s; reflexivity. Qed.

Lemma Contains_eq s substr :
  Contains s substr
  = String.prefix substr s
    || match s with
       | "" => false
       | String _ r => Contains r substr
       end.
Proof. destruct s; reflexivity. Qed.

(** [Cut] splits the string around an occurrence of the separator. *)
Lemma Cut_app sep : forall s before after,
  Cut s sep = Some (before, after) -> s = before +:+ sep +:+ after.
Proof.
  induction s as [|a s IH]; intros before after H; rewrite Cut_eq in H.
  - destruct (String.prefix sep "") eqn:E; [| discriminate].
    injection H as <- <-. now apply prefix_split in E.
  - destruct (String.prefix sep (String a s)) eqn:E.
    + injection H as <- <-. now apply prefix_split in E.
    + destruct (Cut s sep) as [[b af]|] eqn:E'; [| discriminate].
      injection H as <- <-. rewrite append_cons. f_equal. now apply IH.
Qed.

Lemma Cut_Contains sep : forall s before after,
  Cut s sep = Some (before, after) -> Contains s sep = true.
Proof.
  induction s as [|a s IH]; intros before after H;
    rewrite Cut_eq in H; rewrite Contains_eq.
  - destruct (String.prefix sep ""); [reflexivity | discriminate].
  - destruct (String.prefix sep (String a s)); [reflexivity |].
    destruct (Cut s sep) as [[b af]|] eqn:E'; [| discriminate].
    simpl. eapply IH. reflexivity.
Qed.

Lemma Contains_Cut sep : forall s,
  Contains s sep = true -> exists before after, Cut s sep = Some (before, after).
Proof.
  induction s as [|a s IH]; intros H;
    rewrite Contains_eq in H; rewrite Cut_eq.
  - destruct (String.prefix sep ""); [eauto | discriminate].
  - destruct (String.prefix sep (String a s)); [eauto |].
    simpl in H. destruct (IH H) as (b & af & ->). eauto.
Qed.

Lemma length_append_str (s t : string) :
  String.length (s +:+ t) = (String.length s + String.length t)%nat.
Proof.
  induction s as [|a s IH]; [reflexivity |].
  rewrite append_cons. cbn [String.length]. now rewrite IH.
Qed.

(** The text between the first occurrence of [sep] and the next one, or
    the end of the line. *)
Definition segment_after (after sep : string) : string :=
  match Cut after sep with
  | Some (seg, _) => seg
  | None => after
  end.

(** [parts[1]] of a split at a separator that occurs in the line. *)
Lemma Split_second line sep before after :
  sep <> "" ->
  Cut line sep = Some (before, after) ->
  exists more, Split line sep = before :: segment_after after sep :: more.
Proof.
  intros Hsep Hcut. unfold Split.
  pose proof (Cut_app _ _ _ _ Hcut) as Hline.
  assert (Hlen : String.length line
                 = (String.length before + String.length sep
                    + String.length after)%nat).
  { rewrite Hline at 1. rewrite !length_append_str. lia. }
  assert (0 < String.length sep)%nat by (destruct sep; [congruence | simpl; lia]).
  destruct (String.length line) as [|n] eqn:E; [lia |].
  simpl. rewrite Hcut. unfold segment_after.
  destruct n as [|n]; simpl.
  - assert (after = "") as -> by (destruct after; [reflexivity | simpl in Hlen; lia]).
    assert (Cut "" sep = None) as ->.
    { simpl. destruct sep; [congruence | reflexivity]. }
    eauto.
  - destruct (Cut after sep) as [[seg rest]|]; eauto.
Qed.

(** The separator extractContainerID splits at. *)
Definition split_signature (runtime : string) : option string :=
  if String.eqb runtime "docker" then Some "/docker/"
  else if String.eqb runtime "containerd" then Some "/containerd/"
  else if String.eqb runtime "cri-o" then Some "/crio-"
  else None.

(** The two signatures isContainerCgroup looks for. *)
Definition signatures (runtime : string) : option (string * string) :=
  if String.eqb runtime "docker" then Some ("/docker/", "/docker-")
  else if String.eqb runtime "containerd" then Some ("/containerd/", "/k8s.io/")
  else if String.eqb runtime "cri-o" then Some ("/crio-", "/crio/")
  else None.

Lemma split_signature_cases runtime sep :
  split_signature runtime = Some sep ->
  sep <> ""
  /\ (forall line, Contains line sep = true -> isContainerCgroup line runtime = true)
  /\ (forall line, extractContainerID line runtime = second_part (Split line sep)).
Proof.
  unfold split_signature, isContainerCgroup, extractContainerID.
  destruct (String.eqb runtime "docker");
    [| destruct (String.eqb runtime "containerd");
       [| destruct (String.eqb runtime "cri-o"); [| discriminate]]];
    intros [= <-]; (split; [discriminate | split; [| reflexivity]]);
    intros line ->; reflexivity.
Qed.

(** The record parseCgroupFile builds. *)
Definition record_of (id line runtime : string) (pid : Z) (clock : nat -> Z)
    : ContainerRuntimeInfo :=
  {| ID := id; Name := ""; Image := ""; Status := "running";
     Runtime := runtime; CgroupPath := line; CgroupID := 0; PID := pid;
     Labels := None; CreatedAt := clock 0%nat; StartedAt := clock 1%nat |}.

(** What the resolver does with a line that contains the signature
    extractContainerID splits at (/docker/, /containerd/, /crio-).  A
    line is classified as the runtime's exactly when it contains one of
    the runtime's two signatures.  When it contains the one the id is
    split at, so that line = before ++ signature ++ after, the id is the
    text of [after] up to the next occurrence of the signature, with
    surrounding white space trimmed; a non-empty id gives the record
    (id, runtime, pid, line, running), an empty id makes the scan go on
    with the next line.  A line that matches no signature is skipped in
    the same way. *)
Lemma cgroup_line_resolution :
  (forall line runtime s1 s2,
      signatures runtime = Some (s1, s2) ->
      isContainerCgroup line runtime = Contains line s1 || Contains line s2)
  /\ (forall line runtime sep before after rest pid clock,
         split_signature runtime = Some sep ->
         Cut line sep = Some (before, after) ->
         line = before +:+ sep +:+ after
         /\ (TrimSpace (segment_after after sep) <> "" ->
             scan_cgroup_lines (line :: rest) runtime pid clock
             = Some (record_of (TrimSpace (segment_after after sep))
                       line runtime pid clock))
         /\ (TrimSpace (segment_after after sep) = "" ->
             scan_cgroup_lines (line :: rest) runtime pid clock
             = scan_cgroup_lines rest runtime pid clock))
  /\ (forall line runtime rest pid clock,
         isContainerCgroup line runtime = false ->
         scan_cgroup_lines (line :: rest) runtime pid clock
         = scan_cgroup_lines rest runtime pid clock).
Proof.
  split; [| split].
  - intros line runtime s1 s2. unfold signatures, isContainerCgroup.
    destruct (String.eqb runtime "docker");
      [| destruct (String.eqb runtime "containerd");
         [| destruct (String.eqb runtime "cri-o"); [| discriminate]]];
      now intros [= <- <-].
  - intros line runtime sep before after rest pid clock Hsig Hcut.
    destruct (split_signature_cases _ _ Hsig) as (Hne & Hclass & Hext).
    split; [now apply Cut_app |].
    destruct (Split_second _ _ _ _ Hne Hcut) as (more & Hsplit).
    assert (Hid : extractContainerID line runtime
                  = TrimSpace (segment_after after sep)).
    { rewrite Hext, Hsplit. reflexivity. }
    simpl. rewrite (Hclass line (Cut_Contains _ _ _ _ Hcut)), Hid.
    split; intros H.
    + apply String.eqb_neq in H. now rewrite H.
    + now rewrite H.
  - intros line runtime rest pid clock H. simpl. now rewrite H.
Qed.

(** A split at a separator that does not occur gives one part. *)
Lemma Split_without_separator line sep :
  Contains line sep = false -> Split line sep = [line].
Proof.
  intros H. unfold Split.
  assert (Hcut : Cut line sep = None).
  { destruct (Cut line sep) as [[b a]|] eqn:E; [| reflexivity].
    apply Cut_Contains in E. congruence. }
  destruct (String.length line); cbn [Split_rounds]; [reflexivity |].
  now rewrite Hcut.
Qed.

(** The tag getCRIOContainers passes to the parser is not a runtime name
    the classifier knows, so no line of any process matches. *)
Lemma crio_tag_matches_nothing proc clock :
  parseContainersFromCgroup proc "crio" clock = [].
Proof.
  assert (H : forall lines pid,
             scan_cgroup_lines lines "crio" pid clock = None).
  { induction lines as [|line rest IH]; intros pid; [reflexivity |].
    cbn [scan_cgroup_lines].
    change (isContainerCgroup line "crio") with false. apply IH. }
  unfold parseContainersFromCgroup.
  induction proc as [|[pid file] proc IH]; [reflexivity |].
  cbn [omap list_omap fst snd]. fold (@omap list _).
  destruct file as [lines|]; cbn [parseCgroupFile]; [rewrite H |]; exact IH.
Qed.

(** C7, where the code departs from it.  isContainerCgroup looks for two
    signatures per runtime, extractContainerID splits at the first of
    them only.  A line that carries the second signature of its runtime
    (/docker-, /k8s.io/, /crio/) and not the first is classified as the
    runtime's, but the id extracted from it is empty, so the resolver
    returns no record for it: the scan goes on with the next line, and a
    file that holds only this line gives nil.  And GetContainers asks
    the parser for cri-o containers under the tag crio, which neither
    function knows, so for cri-o it returns the empty list whatever the
    cgroup files hold. *)
Theorem second_signature_is_never_resolved :
  (forall line runtime s1 s2 rest pid clock,
      signatures runtime = Some (s1, s2) ->
      Contains line s2 = true ->
      Contains line s1 = false ->
      isContainerCgroup line runtime = true
      /\ extractContainerID line runtime = ""
      /\ scan_cgroup_lines (line :: rest) runtime pid clock
         = scan_cgroup_lines rest runtime pid clock
      /\ parseCgroupFile (Some [line]) runtime pid clock = None)
  /\ (forall proc clock, GetContainers proc "cri-o" clock = inl []).
Proof.
  split.
  - intros line runtime s1 s2 rest pid clock Hsig H2 H1.
    assert (Hk : isContainerCgroup line runtime = true
                 /\ extractContainerID line runtime = "").
    { unfold signatures, isContainerCgroup, extractContainerID in *.
      destruct (String.eqb runtime "docker");
        [| destruct (String.eqb runtime "containerd");
           [| destruct (String.eqb runtime "cri-o"); [| discriminate]]];
        injection Hsig as <- <-;
        rewrite H1, H2, (Split_without_separator _ _ H1);
        split; reflexivity. }
    destruct Hk as [Hclass Hid].
    split; [exact Hclass |]. split; [exact Hid |].
    assert (Hscan : forall more,
               scan_cgroup_lines (line :: more) runtime pid clock
               = scan_cgroup_lines more runtime pid clock).
    { intros more. cbn [scan_cgroup_lines]. rewrite Hclass. cbv zeta.
      rewrite Hid. reflexivity. }
    split; [apply Hscan |].
    cbn [parseCgroupFile]. rewrite Hscan. reflexivity.
  - intros proc clock. unfold GetContainers.
    change (String.eqb "cri-o" "docker") with false.
    change (String.eqb "cri-o" "containerd") with false.
    change (String.eqb "cri-o" "cri-o") with true.
    cbv iota. now rewrite crio_tag_matches_nothing.
Qed.

(** The cgroup line of a docker container under the systemd cgroup
    driver, the line of a containerd container of the k8s.io namespace,
    and a cri-o container asked for through GetContainers. *)
Lemma second_signature_is_never_resolved_witness :
  isContainerCgroup
    "0::/system.slice/docker-4f5e6a7b8c9d0e1f4f5e6a7b8c9d0e1f4f5e6a7b8c9d0e1f4f5e6a7b8c9d0e1f.scope"
    "docker" = true
  /\ parseCgroupFile
       (Some ["0::/system.slice/docker-4f5e6a7b8c9d0e1f4f5e6a7b8c9d0e1f4f5e6a7b8c9d0e1f4f5e6a7b8c9d0e1f.scope"])
       "docker" 4321 Scenarios.wall_clock = None
  /\ parseCgroupFile (Some ["11:devices:/k8s.io/4f5e6a7b8c9d0e1f"])
       "containerd" 4321 Scenarios.wall_clock = None
  /\ GetContainers
       [(4321%Z, Some ["0::/kubepods.slice/crio-4f5e6a7b8c9d0e1f.scope"])]
       "cri-o" Scenarios.wall_clock = inl [].
Proof.
  pose proof (proj1 second_signature_is_never_resolved) as H.
  split; [| split; [| split]].
  - apply (H _ "docker" "/docker/" "/docker-" [] 4321%Z Scenarios.wall_clock);
      vm_compute; reflexivity.
  - apply (H _ "docker" "/docker/" "/docker-" [] 4321%Z Scenarios.wall_clock);
      vm_compute; reflexivity.
  - apply (H _ "containerd" "/containerd/" "/k8s.io/" [] 4321%Z
             Scenarios.wall_clock); vm_compute; reflexivity.
  - apply (proj2 second_signature_is_never_resolved).
Defined.

End RuntimeProofs.

(** * Properties of configuration loading *)

Module ConfigProofs.

Import Config.
Local Open Scope string_scope.
Local Open Scope list_scope.
Local Open Scope Z_scope.

Lemma validate_targets_sampling targets : forall i,
  validate_targets i targets = None ->
  Forall (fun t => Second <= SamplingRate t) targets.
Proof.
  induction targets as [|t targets IH]; intros i H; [constructor |].
  simpl in H. destruct (validate_target i t) eqn:E; [discriminate |].
  constructor; [| eauto].
  unfold validate_target in E.
  destruct (String.eqb (Name t) ""); [discriminate |].
  destruct (String.eqb (Runtime t) ""); [discriminate |].
  destruct (negb (validRuntimes (Runtime t))); [discriminate |].
  destruct (SamplingRate t <? Second)%Z eqn:E'; [discriminate | lia].
Qed.

(** C6, on the code: Load validates before it fills in defaults, so a
    file that omits the CPU alert threshold, or the sampling rate of a
    target, is rejected with a validation error; the defaults for these
    settings are never applied. *)
Theorem Load_rejects_omitted_settings (c : Config) :
  CPU (Thresholds (Monitoring c)) = 0%float
  \/ (exists t, t ∈ Targets (Monitoring c) /\ SamplingRate t = 0) ->
  exists e, Load (Parsed c) = inr (ValidationFailed e).
Proof.
  intros H. unfold Load.
  destruct (Validate c) as [e|] eqn:E; [eauto | exfalso].
  unfold Validate in E.
  destruct (length (Targets (Monitoring c)) =? 0)%nat; [discriminate |].
  destruct (validate_targets 0 (Targets (Monitoring c))) eqn:Et; [discriminate |].
  destruct H as [H | (t & Hin & Ht)].
  - rewrite H in E. discriminate.
  - apply validate_targets_sampling in Et.
    rewrite Forall_forall in Et. specialize (Et t Hin).
    rewrite Ht in Et. unfold Second, Millisecond in Et. lia.
Qed.

(** The file of the scenario: one docker target, nothing else. *)
Lemma Load_rejects_omitted_settings_witness :
  exists e, Load (Parsed Scenarios.omitted_config) = inr (ValidationFailed e).
Proof.
  apply Load_rejects_omitted_settings. left. reflexivity.
Defined.

(** What Load answers for the two files of the scenario. *)
Lemma Load_omitted_config :
  Load (Parsed Scenarios.omitted_config)
    = inr (ValidationFailed (TargetSamplingRateTooSmall 0))
  /\ Load (Parsed Scenarios.omitted_thresholds_config)
     = inr (ValidationFailed CPUThresholdOutOfRange).
Proof. split; vm_compute; reflexivity. Qed.

(** SetDefaults alone would give the documented defaults. *)
Lemma SetDefaults_omitted_config :
  map SamplingRate (Targets (Monitoring (SetDefaults Scenarios.omitted_config)))
    = [2 * Second]
  /\ Thresholds (Monitoring (SetDefaults Scenarios.omitted_config))
     = {| CPU := 70; Memory := 80; NetworkLatency := 10 |}.
Proof. split; vm_compute; reflexivity. Qed.

End ConfigProofs.

(** * Properties of the object pools *)

Module PoolProofs.

Import Pool.
Local Open Scope list_scope.
Local Open Scope Z_scope.

Section Bounded.

Context {A : Type}.

(** What every pool built by CreatePool satisfies, and every operation
    keeps: the channel holds at most its capacity, the capacity is
    maxSize, and nothing queued is nil. *)
Definition pool_inv (p : ObjectPool A) : Prop :=
  (length (chan_buf (objects p)) <= chan_cap (objects p))%nat
  /\ Z.of_nat (chan_cap (objects p)) = maxSize p
  /\ Forall (fun o => o <> None) (chan_buf (objects p)).

Lemma new_pool_inv nm size f r (p : ObjectPool A) :
  new_pool nm size f r = Some p -> pool_inv p.
Proof.
  unfold new_pool. destruct (size <? 0) eqn:E; [discriminate |].
  intros [= <-]. unfold pool_inv. simpl. repeat split; [lia | lia | constructor].
Qed.

Lemma Get_inv (p : ObjectPool A) : pool_inv p -> pool_inv (fst (Get p)).
Proof.
  intros (Hlen & Hcap & Hnn). unfold Get, pool_inv.
  destruct (chan_buf (objects p)) as [|o rest] eqn:E; simpl.
  - rewrite E. auto.
  - simpl in Hlen. inversion Hnn; subst. repeat split; auto; lia.
Qed.

Lemma Put_inv obj (p : ObjectPool A) : pool_inv p -> pool_inv (fst (Put obj p)).
Proof.
  intros (Hlen & Hcap & Hnn). unfold Put.
  destruct obj as [a|]; [| now repeat split].
  destruct (length (chan_buf (objects p)) <? chan_cap (objects p))%nat eqn:E;
    simpl; [| now repeat split].
  apply Nat.ltb_lt in E. unfold pool_inv. simpl.
  rewrite length_app. simpl. repeat split; [lia | assumption |].
  apply Forall_app. split; [assumption |]. now repeat constructor.
Qed.

Lemma run_ops_inv ops : forall p : ObjectPool A, pool_inv p -> pool_inv (run_ops ops p).
Proof.
  induction ops as [|op ops IH]; intros p H; simpl; [assumption |].
  apply IH. destruct op; simpl; [now apply Get_inv | now apply Put_inv].
Qed.

(** The operations change neither the factory, the reset function, nor
    maxSize. *)
Lemma run_op_fixed (p : ObjectPool A) op :
  factory (run_op p op) = factory p
  /\ reset (run_op p op) = reset p
  /\ maxSize (run_op p op) = maxSize p.
Proof.
  destruct op as [|[a|]]; simpl; unfold Get, Put.
  - now destruct (chan_buf (objects p)).
  - now destruct (_ <? _)%nat.
  - auto.
Qed.

Lemma run_ops_fixed ops : forall p : ObjectPool A,
  factory (run_ops ops p) = factory p
  /\ reset (run_ops ops p) = reset p
  /\ maxSize (run_ops ops p) = maxSize p.
Proof.
  induction ops as [|op ops IH]; intros p; simpl; [auto |].
  destruct (IH (run_op p op)) as (-> & -> & ->). apply run_op_fixed.
Qed.

Lemma new_pool_fields nm size f r (p : ObjectPool A) :
  new_pool nm size f r = Some p ->
  factory p = f /\ reset p = r /\ maxSize p = size.
Proof.
  unfold new_pool. destruct (size <? 0); [discriminate |].
  now intros [= <-].
Qed.

(** C10. For a pool created with capacity maxSize and any sequence of
    Get and Put: the pool never stores more than maxSize objects; Put on
    a full pool leaves the pool as it is, the object having been reset;
    Put of nil changes nothing; Get on an empty pool returns what the
    factory constructs and stores nothing; and, the factory constructing
    an object rather than nil, Get never returns nil. *)
Theorem pool_never_exceeds_maxSize nm size f r (p0 : ObjectPool A) :
  new_pool nm size f r = Some p0 ->
  forall ops,
    let p := run_ops ops p0 in
    maxSize p = size
    /\ Z.of_nat (length (chan_buf (objects p))) <= size
    /\ (forall a,
           Z.of_nat (length (chan_buf (objects p))) = size ->
           Put (Some a) p
           = (p, Some (match r with Some clear => clear a | None => a end)))
    /\ Put None p = (p, None)
    /\ (chan_buf (objects p) = [] ->
        snd (Get p) = f tt /\ objects (fst (Get p)) = objects p)
    /\ (f tt <> None -> snd (Get p) <> None).
Proof.
  intros Hnew ops p.
  pose proof (run_ops_inv ops p0 (new_pool_inv _ _ _ _ _ Hnew)) as (Hlen & Hcap & Hnn).
  fold p in Hlen, Hcap, Hnn.
  destruct (run_ops_fixed ops p0) as (Hf & Hr & Hsize).
  destruct (new_pool_fields _ _ _ _ _ Hnew) as (Hf0 & Hr0 & Hsize0).
  fold p in Hf, Hr, Hsize. rewrite Hf0 in Hf. rewrite Hr0 in Hr.
  rewrite Hsize0 in Hsize.
  split; [exact Hsize |]. split; [lia |].
  split; [| split; [reflexivity | split]].
  - intros a Hfull. unfold Put. rewrite Hr.
    replace (length (chan_buf (objects p)) <? chan_cap (objects p))%nat
      with false by (symmetry; apply Nat.ltb_ge; lia).
    reflexivity.
  - intros Hempty. unfold Get. rewrite Hempty, Hf. split; reflexivity.
  - intros Hfn. unfold Get.
    destruct (chan_buf (objects p)) as [|o rest] eqn:E; simpl.
    + now rewrite Hf.
    + now inversion Hnn.
Qed.

End Bounded.

(** The counter pool of the scenario after three Puts and a Get. *)
Lemma pool_never_exceeds_maxSize_witness :
  exists p0, Scenarios.counter_pool = Some p0
  /\ Z.of_nat (length (chan_buf (objects
       (run_ops [OpPut (Some 5); OpPut (Some 6); OpPut (Some 7); OpGet] p0))))
     <= 2.
Proof.
  eexists. split; [reflexivity |].
  apply (pool_never_exceeds_maxSize "counters" 2 (fun _ => Some 0)
           (Some (fun _ => 0)) _ eq_refl
           [OpPut (Some 5); OpPut (Some 6); OpPut (Some 7); OpGet]).
Defined.

End PoolProofs.

(** * Properties of the event handlers *)

Module ProcessorProofs.

Import Processor.
Local Open Scope list_scope.
Local Open Scope nat_scope.

(** Both sample lists of a record hold at most 100 samples. *)
Definition record_bounded (c : AggregatedContainerMetrics) : Prop :=
  length (CPUSamples c) <= 100 /\ length (MemorySamples c) <= 100.

(** Every record of the aggregator is bounded. *)
Definition bounded (a : MetricsAggregator) : Prop :=
  forall cg c, containerMetrics a !! cg = Some c -> record_bounded c.

Lemma push_sample_below {T} (samples : list T) x :
  length samples < 100 -> push_sample samples x = samples ++ [x].
Proof.
  intros H. unfold push_sample. rewrite length_app. simpl.
  destruct (100 <? length samples + 1) eqn:E; [| reflexivity].
  apply Nat.ltb_lt in E. lia.
Qed.

Lemma push_sample_full {T} (samples : list T) x :
  length samples = 100 -> push_sample samples x = drop 1 samples ++ [x].
Proof.
  intros H. unfold push_sample. rewrite length_app. simpl.
  destruct (100 <? length samples + 1) eqn:E.
  - destruct samples; [discriminate | reflexivity].
  - apply Nat.ltb_ge in E. lia.
Qed.

Lemma push_sample_length {T} (samples : list T) x :
  length samples <= 100 -> length (push_sample samples x) <= 100.
Proof.
  intros H. destruct (decide (length samples = 100)) as [E | E].
  - rewrite push_sample_full by assumption.
    rewrite length_app, length_drop. simpl. lia.
  - rewrite push_sample_below by lia. rewrite length_app. simpl. lia.
Qed.

Lemma calculateCPUStats_samples c :
  CPUSamples (calculateCPUStats c) = CPUSamples c
  /\ MemorySamples (calculateCPUStats c) = MemorySamples c.
Proof.
  unfold calculateCPUStats. destruct (CPUSamples c) as [|x l] eqn:E; [auto |].
  destruct (cpu_fold (x :: l) x) as [[sum mn] mx]. simpl. auto.
Qed.

Lemma calculateMemoryStats_samples c :
  CPUSamples (calculateMemoryStats c) = CPUSamples c
  /\ MemorySamples (calculateMemoryStats c) = MemorySamples c.
Proof.
  unfold calculateMemoryStats. destruct (MemorySamples c) as [|x l] eqn:E; [auto |].
  destruct (mem_fold (x :: l) x) as [[sum mn] mx]. simpl. auto.
Qed.

Lemma cpu_sample_update_samples now c :
  CPUSamples (cpu_sample_update now c) = push_sample (CPUSamples c) 50%float
  /\ MemorySamples (cpu_sample_update now c) = MemorySamples c.
Proof.
  unfold cpu_sample_update, set_LastUpdate. simpl.
  destruct (calculateCPUStats_samples
              (set_CPUSamples (push_sample (CPUSamples c) 50%float) c)) as [-> ->].
  auto.
Qed.

Lemma memory_sample_update_samples now c :
  MemorySamples (memory_sample_update now c)
    = push_sample (MemorySamples c) (wrap64 (512 * 1024 * 1024))
  /\ CPUSamples (memory_sample_update now c) = CPUSamples c.
Proof.
  unfold memory_sample_update, set_LastUpdate. simpl.
  destruct (calculateMemoryStats_samples
              (set_MemorySamples
                 (push_sample (MemorySamples c) (wrap64 (512 * 1024 * 1024))) c))
    as [-> ->].
  auto.
Qed.

Lemma bounded_insert a cg c :
  bounded a -> record_bounded c ->
  bounded (with_containerMetrics (<[cg := c]>) a).
Proof.
  intros Ha Hc cg' c'. unfold with_containerMetrics. simpl.
  destruct (decide (cg = cg')) as [-> | Hne].
  - rewrite lookup_insert_eq. now intros [= <-].
  - rewrite lookup_insert_ne by assumption. apply Ha.
Qed.

(** One handler call keeps the bound. *)
Lemma HandleEvent_bounded h event clock a :
  bounded a -> bounded (fst (HandleEvent h event clock a)).
Proof.
  intros Ha. destruct h; simpl.
  - unfold ContainerStart_HandleEvent.
    destruct (containerMetrics a !! EventCgroupID event) as [c|] eqn:E; simpl.
    + apply bounded_insert; [assumption |]. apply (Ha _ _ E).
    + apply bounded_insert; [assumption |]. split; simpl; lia.
  - unfold ContainerStop_HandleEvent.
    destruct (containerMetrics a !! EventCgroupID event) as [c|] eqn:E; simpl;
      [| assumption].
    apply bounded_insert; [assumption |]. apply (Ha _ _ E).
  - unfold NetworkPacket_HandleEvent.
    destruct (networkMetrics a !! EventCgroupID event); simpl; exact Ha.
  - unfold CPUSample_HandleEvent.
    destruct (containerMetrics a !! EventCgroupID event) as [c|] eqn:E; simpl;
      [| assumption].
    apply bounded_insert; [assumption |].
    destruct (cpu_sample_update_samples (clock 0) c) as [H1 H2].
    destruct (Ha _ _ E) as [Hc Hm].
    split; [rewrite H1; now apply push_sample_length | now rewrite H2].
  - unfold MemorySample_HandleEvent.
    destruct (containerMetrics a !! EventCgroupID event) as [c|] eqn:E; simpl;
      [| assumption].
    apply bounded_insert; [assumption |].
    destruct (memory_sample_update_samples (clock 0) c) as [H1 H2].
    destruct (Ha _ _ E) as [Hc Hm].
    split; [now rewrite H2 | rewrite H1; now apply push_sample_length].
Qed.

Lemma run_calls_bounded calls : forall a, bounded a -> bounded (run_calls calls a).
Proof.
  induction calls as [|[[h event] clock] calls IH]; intros a Ha; simpl;
    [assumption |].
  apply IH. now apply HandleEvent_bounded.
Qed.

(** C4. The aggregator of a new data processor has no record; every
    sequence of handler calls (container start and stop, network packet,
    CPU sample, memory sample) keeps every record's CPU sample list and
    memory sample list at 100 entries or fewer.  A CPU or memory sample
    event for a known container appends its sample; on a list that
    already holds 100 samples the oldest one is dropped and the other 99
    keep their order in front of the new one. *)
Theorem sample_lists_stay_bounded :
  (forall now calls, bounded (run_calls calls (new_aggregator now)))
  /\ (forall calls a, bounded a -> bounded (run_calls calls a))
  /\ (forall event clock a c,
         containerMetrics a !! EventCgroupID event = Some c ->
         exists c',
           containerMetrics (fst (CPUSample_HandleEvent event clock a))
             !! EventCgroupID event = Some c'
           /\ CPUSamples c' = push_sample (CPUSamples c) 50%float
           /\ MemorySamples c' = MemorySamples c)
  /\ (forall event clock a c,
         containerMetrics a !! EventCgroupID event = Some c ->
         exists c',
           containerMetrics (fst (MemorySample_HandleEvent event clock a))
             !! EventCgroupID event = Some c'
           /\ MemorySamples c'
              = push_sample (MemorySamples c) (wrap64 (512 * 1024 * 1024))
           /\ CPUSamples c' = CPUSamples c)
  /\ (forall T (samples : list T) x,
         (length samples < 100 -> push_sample samples x = samples ++ [x])
         /\ (length samples = 100 ->
             push_sample samples x = drop 1 samples ++ [x])).
Proof.
  split; [| split; [| split; [| split]]].
  - intros now calls. apply run_calls_bounded.
    intros cg c. unfold new_aggregator. simpl. now rewrite lookup_empty.
  - intros calls a. apply run_calls_bounded.
  - intros event clock a c E. unfold CPUSample_HandleEvent. rewrite E. simpl.
    rewrite lookup_insert_eq. eexists. split; [reflexivity |].
    apply cpu_sample_update_samples.
  - intros event clock a c E. unfold MemorySample_HandleEvent. rewrite E. simpl.
    rewrite lookup_insert_eq. eexists. split; [reflexivity |].
    apply memory_sample_update_samples.
  - intros T samples x. split;
      [apply push_sample_below | apply push_sample_full].
Qed.

(** One start event and 150 CPU samples from the new aggregator; a full
    list takes one more sample. *)
Lemma sample_lists_stay_bounded_witness :
  bounded (run_calls (Scenarios.start_call :: repeat Scenarios.cpu_call 150)
             (new_aggregator 0))
  /\ push_sample (repeat 50%float 100) 51%float
     = drop 1 (repeat 50%float 100) ++ [51%float].
Proof.
  split.
  - apply (proj1 (proj2 sample_lists_stay_bounded)).
    apply (proj1 sample_lists_stay_bounded 0%Z []).
  - apply (proj2 (proj2 (proj2 (proj2 sample_lists_stay_bounded)))).
    reflexivity.
Defined.

End ProcessorProofs.

(** * Properties of the monitor *)

Module AgentProofs.

Import GoFmt Ebpf Agent.
Local Open Scope string_scope.
Local Open Scope list_scope.
Local Open Scope Z_scope.

(** ** Start and Stop *)

(** C3. Start on a running monitor returns the already-running error,
    and Stop on a monitor that is not running returns nil; either call
    leaves the monitor (running flag, links, collection, spec, start
    time, metrics pointer, processor) exactly as it was, closes nothing
    and starts no goroutine.  Neither call has access to the heap, so the
    metrics the pointer leads to are unchanged as well. *)
Theorem start_and_stop_are_guarded :
  (forall env m, running m = true -> Start env m = (m, [], Failed AlreadyRunning))
  /\ (forall m, running m = false -> Stop m = (m, [], Done)).
Proof.
  split.
  - intros env m H. unfold Start. now rewrite H.
  - intros m H. unfold Stop. now rewrite H.
Qed.

(** The monitor of the scenario after a successful Start, and before. *)
Lemma start_and_stop_are_guarded_witness :
  Start Scenarios.dev_env
    (fst (fst (Start Scenarios.dev_env Scenarios.stopped_monitor)))
  = (fst (fst (Start Scenarios.dev_env Scenarios.stopped_monitor)),
     [], Failed AlreadyRunning)
  /\ Stop Scenarios.stopped_monitor
     = (Scenarios.stopped_monitor, [], Done).
Proof.
  split.
  - apply (proj1 start_and_stop_are_guarded). vm_compute. reflexivity.
  - apply (proj2 start_and_stop_are_guarded). reflexivity.
Defined.

(** ** GetMetrics *)

Lemma slice_elems_length h s elems :
  slice_elems h s = Some elems -> length elems = sl_len s.
Proof.
  unfold slice_elems. destruct (sl_array s) as [a|].
  - destruct (arrays h !! a) as [arr|]; [| discriminate].
    destruct (sl_offset s + sl_len s <=? length arr)%nat eqn:E; [| discriminate].
    apply Nat.leb_le in E. intros [= <-].
    rewrite length_take, length_drop. lia.
  - destruct (sl_len s =? 0)%nat eqn:E; [| discriminate].
    apply Nat.eqb_eq in E. now intros [= <-].
Qed.

(** A slice shows the same elements in two heaps that agree on its array. *)
Lemma slice_elems_agree h h' s :
  (forall a, sl_array s = Some a -> arrays h' !! a = arrays h !! a) ->
  slice_elems h' s = slice_elems h s.
Proof.
  intros H. unfold slice_elems. destruct (sl_array s) as [a|]; [| reflexivity].
  now rewrite (H a eq_refl).
Qed.

Lemma slice_elems_allocated h s elems a :
  slice_elems h s = Some elems -> sl_array s = Some a -> a ∈ dom (arrays h).
Proof.
  unfold slice_elems. intros H Ha. rewrite Ha in H.
  destruct (arrays h !! a) as [arr|] eqn:E; [| discriminate].
  apply elem_of_dom. eauto.
Qed.

(** The heap GetMetrics leaves: one new array that holds the elements of
    the monitor's slice, one new struct over it. *)
Lemma GetMetrics_heap m h h2 p :
  GetMetrics m h = Some (h2, p) ->
  exists mp cur elems,
    metrics m = Some mp
    /\ structs h !! mp = Some cur
    /\ slice_elems h (Containers cur) = Some elems
    /\ p = fresh (dom (structs h))
    /\ arrays h2 = <[fresh (dom (arrays h)) := elems]> (arrays h)
    /\ structs h2
       = <[p := {| Containers :=
                     {| sl_array := Some (fresh (dom (arrays h)));
                        sl_offset := 0; sl_len := length elems;
                        sl_cap := length elems |};
                   SystemMemory := SystemMemory cur;
                   EBPFMapsCount := EBPFMapsCount cur;
                   LastUpdate := LastUpdate cur |}]> (structs h).
Proof.
  unfold GetMetrics. destruct (metrics m) as [mp|]; [| discriminate].
  destruct (structs h !! mp) as [cur|] eqn:Ecur; [| discriminate].
  destruct (slice_elems h (Containers cur)) as [elems|] eqn:Eel; [| discriminate].
  pose proof (slice_elems_length _ _ _ Eel) as Hlen.
  unfold make_slice, copy, alloc_struct. simpl.
  rewrite lookup_insert_eq. simpl.
  intros [= <- <-]. exists mp, cur, elems.
  split; [reflexivity |]. split; [assumption |]. split; [assumption |].
  split; [reflexivity |]. cbn [arrays structs]. rewrite Hlen.
  split; [| reflexivity].
  rewrite insert_insert_eq. f_equal.
  rewrite <- Hlen, Nat.min_id, firstn_all.
  rewrite drop_ge by (rewrite repeat_length; lia).
  now rewrite app_nil_r.
Qed.

(** The copy shows what the monitor's metrics show. *)
Lemma GetMetrics_view m h h2 p :
  GetMetrics m h = Some (h2, p) ->
  exists mp, metrics m = Some mp /\ is_Some (view h mp)
             /\ view h2 p = view h mp.
Proof.
  intros H. destruct (GetMetrics_heap _ _ _ _ H)
    as (mp & cur & elems & Hm & Hcur & Hel & Hp & Harr & Hst).
  exists mp. split; [assumption |].
  assert (Hv : view h mp
               = Some (SystemMemory cur, EBPFMapsCount cur, LastUpdate cur, elems)).
  { unfold view. now rewrite Hcur, Hel. }
  split; [rewrite Hv; eauto |].
  rewrite Hv. unfold view. rewrite Hst, lookup_insert_eq. simpl.
  unfold slice_elems. simpl. rewrite Harr, lookup_insert_eq.
  rewrite Nat.leb_refl. simpl. now rewrite firstn_all.
Qed.

Lemma GetMetrics_succeeds m h mp :
  metrics m = Some mp -> is_Some (view h mp) ->
  exists h2 p, GetMetrics m h = Some (h2, p).
Proof.
  intros Hm [v Hv]. unfold view in Hv. unfold GetMetrics. rewrite Hm.
  destruct (structs h !! mp) as [cur|]; [| discriminate].
  destruct (slice_elems h (Containers cur)) as [elems|]; [| discriminate].
  destruct (make_slice h (sl_len (Containers cur))) as [h1 s].
  destruct (alloc_struct (copy h1 s elems) _) as [h2 p] eqn:E. eauto.
Qed.

(** Writes through the returned pointer reach only the returned struct
    and the returned array. *)
Lemma mutate_all_elsewhere p a mus : forall h,
  (forall q, q <> p -> structs (mutate_all p a mus h) !! q = structs h !! q)
  /\ (forall b, b <> a -> arrays (mutate_all p a mus h) !! b = arrays h !! b).
Proof.
  induction mus as [|mu mus IH]; intros h; simpl; [auto |].
  destruct (IH (mutate p a h mu)) as [IHs IHa].
  split.
  - intros q Hq. rewrite IHs by assumption.
    destruct mu; simpl; try reflexivity; now rewrite lookup_alter_ne.
  - intros b Hb. rewrite IHa by assumption.
    destruct mu; simpl; try reflexivity. now rewrite lookup_alter_ne.
Qed.

(** C9. GetMetrics returns a pointer to a new Metrics value that shows
    the same scalars and container records as the monitor's metrics.
    After any sequence of writes through that pointer (to a field of the
    struct, or to an element of its Containers), the monitor's metrics
    still show what they showed, and another GetMetrics succeeds and
    shows what the first call showed before the writes. *)
Theorem GetMetrics_returns_a_deep_copy m h h2 p :
  GetMetrics m h = Some (h2, p) ->
  exists mp a,
    metrics m = Some mp
    /\ containers_array h2 p = Some a
    /\ is_Some (view h mp)
    /\ view h2 p = view h mp
    /\ forall mus,
         view (mutate_all p a mus h2) mp = view h mp
         /\ exists h4 p',
              GetMetrics m (mutate_all p a mus h2) = Some (h4, p')
              /\ view h4 p' = view h2 p.
Proof.
  intros H.
  destruct (GetMetrics_heap _ _ _ _ H)
    as (mp & cur & elems & Hm & Hcur & Hel & Hp & Harr & Hst).
  destruct (GetMetrics_view _ _ _ _ H) as (mp' & Hm' & Hsome & Hview).
  assert (mp' = mp) as -> by congruence.
  exists mp, (fresh (dom (arrays h))).
  split; [assumption |]. split.
  { unfold containers_array. now rewrite Hst, lookup_insert_eq. }
  split; [assumption |]. split; [assumption |].
  intros mus.
  destruct (mutate_all_elsewhere p (fresh (dom (arrays h))) mus h2) as [Hs Ha].
  assert (Hne : mp <> p).
  { intros ->. apply (is_fresh (dom (structs h))). rewrite <- Hp.
    apply elem_of_dom. eauto. }
  assert (Hkeep : view (mutate_all p (fresh (dom (arrays h))) mus h2) mp
                  = view h mp).
  { unfold view. rewrite Hs by assumption.
    rewrite Hst, lookup_insert_ne by congruence. rewrite Hcur.
    rewrite (slice_elems_agree h); [reflexivity |].
    intros a0 Ha0.
    assert (a0 <> fresh (dom (arrays h))).
    { intros ->. apply (is_fresh (dom (arrays h))).
      eapply slice_elems_allocated; eassumption. }
    rewrite Ha by assumption. rewrite Harr. now rewrite lookup_insert_ne. }
  split; [assumption |].
  destruct (GetMetrics_succeeds m (mutate_all p (fresh (dom (arrays h))) mus h2) mp)
    as (h4 & p' & H4); [assumption | now rewrite Hkeep |].
  exists h4, p'. split; [assumption |].
  destruct (GetMetrics_view _ _ _ _ H4) as (mp2 & Hm2 & _ & Hview2).
  assert (mp2 = mp) as -> by congruence.
  now rewrite Hview2, Hkeep, Hview.
Qed.

(** The monitor of the scenario, one container record in its metrics:
    the caller overwrites the record and two fields of the copy. *)
Lemma GetMetrics_returns_a_deep_copy_witness :
  exists h2 p,
    GetMetrics Scenarios.stopped_monitor Scenarios.one_container_heap
      = Some (h2, p)
    /\ exists mp a,
         metrics Scenarios.stopped_monitor = Some mp
         /\ containers_array h2 p = Some a
         /\ view (mutate_all p a
                    [SetElement 0 ContainerMetric_zero; SetSystemMemory 99;
                     SetLastUpdate 5]
                    h2) mp
            = view Scenarios.one_container_heap mp.
Proof.
  destruct (GetMetrics Scenarios.stopped_monitor
              Scenarios.one_container_heap) as [[h2 p]|] eqn:E.
  - exists h2, p. split; [reflexivity |].
    destruct (GetMetrics_returns_a_deep_copy _ _ _ _ E)
      as (mp & a & Hm & Ha & _ & _ & Hmut).
    exists mp, a. split; [assumption |]. split; [assumption |].
    apply Hmut.
  - vm_compute in E. discriminate.
Defined.

(** ** The /metrics handler *)

(** C8, as the code has it.  When the monitor's metrics hold no container
    record, the handler of the daemon answers with two gauges, the
    container count 0 and the system memory counter, each after its HELP
    and TYPE lines, and nothing else; there is no microradar_up line. *)
Theorem metrics_text_without_containers m h mp systemMemory mapsCount lastUpdate :
  metrics m = Some mp ->
  view h mp = Some (systemMemory, mapsCount, lastUpdate, []) ->
  exists h',
    metricsHandler m h
    = Some (h',
            "# HELP microradar_containers_total 监控的容器总数" +:+ LF
            +:+ "# TYPE microradar_containers_total gauge" +:+ LF
            +:+ "microradar_containers_total 0" +:+ LF
            +:+ "# HELP microradar_memory_usage_bytes 内存使用量" +:+ LF
            +:+ "# TYPE microradar_memory_usage_bytes gauge" +:+ LF
            +:+ "microradar_memory_usage_bytes " +:+ fmt_d systemMemory +:+ LF).
Proof.
  intros Hm Hv.
  destruct (GetMetrics_succeeds m h mp Hm) as (h2 & p & H2);
    [rewrite Hv; eauto |].
  destruct (GetMetrics_view _ _ _ _ H2) as (mp' & Hm' & _ & Hview).
  assert (mp' = mp) as -> by congruence.
  exists h2. unfold metricsHandler. rewrite H2, Hview, Hv. reflexivity.
Qed.

Lemma metrics_text_without_containers_witness :
  exists h',
    metricsHandler Scenarios.stopped_monitor Scenarios.idle_heap
    = Some (h',
            "# HELP microradar_containers_total 监控的容器总数" +:+ LF
            +:+ "# TYPE microradar_containers_total gauge" +:+ LF
            +:+ "microradar_containers_total 0" +:+ LF
            +:+ "# HELP microradar_memory_usage_bytes 内存使用量" +:+ LF
            +:+ "# TYPE microradar_memory_usage_bytes gauge" +:+ LF
            +:+ "microradar_memory_usage_bytes " +:+ fmt_d 0 +:+ LF).
Proof.
  apply (metrics_text_without_containers Scenarios.stopped_monitor
           Scenarios.idle_heap 1%positive 0 0 0); vm_compute; reflexivity.
Defined.

(** The first scrape of a monitor that has observed nothing: the body
    has the two gauges and no microradar_up line. *)
Lemma first_scrape_has_no_up_gauge :
  Scenarios.first_scrape
  = Some ("# HELP microradar_containers_total 监控的容器总数" +:+ LF
          +:+ "# TYPE microradar_containers_total gauge" +:+ LF
          +:+ "microradar_containers_total 0" +:+ LF
          +:+ "# HELP microradar_memory_usage_bytes 内存使用量" +:+ LF
          +:+ "# TYPE microradar_memory_usage_bytes gauge" +:+ LF
          +:+ "microradar_memory_usage_bytes 0" +:+ LF)
  /\ Scenarios.first_scrape <> Some ("microradar_up 0" +:+ LF)
  /\ match Scenarios.first_scrape with
     | Some body => GoStrings.Contains body "microradar_up" = false
     | None => False
     end.
Proof.
  split; [vm_compute; reflexivity |].
  split; [vm_compute; discriminate | vm_compute; reflexivity].
Qed.

(** The handler of the image has a branch that writes microradar_up 0
    alone, for a nil pointer; the pointer it gets from GetMetrics is
    never nil, and its first scrape reports microradar_up 1 with the two
    counts. *)
Lemma first_scrape_of_the_image :
  image_metrics_text None
  = "# HELP microradar_up MicroRadar service status" +:+ LF
    +:+ "# TYPE microradar_up gauge" +:+ LF
    +:+ "microradar_up 0" +:+ LF
  /\ Scenarios.first_scrape_image
     = Some ("# HELP microradar_up MicroRadar service status" +:+ LF
             +:+ "# TYPE microradar_up gauge" +:+ LF
             +:+ "microradar_up 1" +:+ LF
             +:+ "# HELP microradar_containers_total Total number of monitored containers" +:+ LF
             +:+ "# TYPE microradar_containers_total gauge" +:+ LF
             +:+ "microradar_containers_total 0" +:+ LF
             +:+ "# HELP microradar_ebpf_maps_count Number of eBPF maps" +:+ LF
             +:+ "# TYPE microradar_ebpf_maps_count gauge" +:+ LF
             +:+ "microradar_ebpf_maps_count 0" +:+ LF).
Proof. split; vm_compute; reflexivity. Qed.

(** ** Network roll-up *)

(** The arithmetic mean of a list of latencies. *)
Definition arithmetic_mean (l : list float) : float :=
  (fold_left PrimFloat.add l 0 / float64_of_Z (Z.of_nat (length l)))%float.

(** The latencies of the flows of a cgroup that have samples. *)
Definition flow_latencies (cgroupID : Z) (flows : list (FlowKey * FlowStats))
    : list float :=
  map (fun e => latencyMs (snd e))
    (filter (fun e => CgroupID (fst e) = cgroupID /\ 0 < LatencyCount (snd e))
       flows).

(** C5, on the code.  Three flows of cgroup 7 with latencies of 1, 2 and
    4 ms (and a flow of another cgroup): the arithmetic mean is the
    binary64 nearest to 7/3 ms (2.3333333333333335), the code reports
    2.75 ms in this iteration order, and in no order of the map iteration
    does it report the mean. *)
Theorem latency_rollup_is_not_the_mean :
  flow_latencies 7 Scenarios.three_flows = [1; 2; 4]%float
  /\ arithmetic_mean (flow_latencies 7 Scenarios.three_flows)
     = 0x1.2aaaaaaaaaaabp+1%float
  /\ AvgLatency (calculateNetworkMetrics 7 Scenarios.three_flows) = 2.75%float
  /\ forallb
       (fun order =>
          negb (PrimFloat.eqb
                  (AvgLatency (calculateNetworkMetrics 7 order))
                  (arithmetic_mean (flow_latencies 7 Scenarios.three_flows))))
       (permutations Scenarios.three_flows) = true.
Proof. repeat split; vm_compute; reflexivity. Qed.

(** For one flow, and for the two flows below, the reported value is
    the mean: 5 ms for latency_sum = 5000000 ns over one sample. *)
Lemma latency_of_one_and_two_flows :
  AvgLatency (calculateNetworkMetrics 2882400000
                [Scenarios.flow 2882400000 5000000 1]) = 5%float
  /\ AvgLatency (calculateNetworkMetrics 7
                   [Scenarios.flow 7 1000000 1; Scenarios.flow 7 4000000 2])
     = 1.5%float.
Proof. split; vm_compute; reflexivity. Qed.

End AgentProofs.

(** * More properties of the container-trace probes *)

Module KernelLifecycleProofs.

Import Kernel.
Local Open Scope list_scope.
Local Open Scope Z_scope.

Lemma lru_update_lookup {V} cap victim k (v : V) (m : gmap Z V) :
  lru_update cap victim k v m !! k = Some v.
Proof.
  unfold lru_update. destruct (m !! k); [| destruct (_ <? _)];
    apply lookup_insert_eq.
Qed.

(** An LRU insertion leaves every other key as it was, or reclaims it. *)
Lemma lru_update_lookup_ne {V} cap victim k (v : V) (m : gmap Z V) j :
  j <> k ->
  lru_update cap victim k v m !! j = m !! j
  \/ lru_update cap victim k v m !! j = None.
Proof.
  intros Hne. unfold lru_update.
  destruct (m !! k); [| destruct (_ <? _)];
    rewrite lookup_insert_ne by congruence; auto.
  destruct (decide (victim = j)) as [-> | Hv].
  - right. apply lookup_delete_eq.
  - left. now apply lookup_delete_ne.
Qed.

Lemma lru_update_room {V} cap victim k (v : V) (m : gmap Z V) :
  Z.of_nat (size m) < cap -> lru_update cap victim k v m = <[k := v]> m.
Proof.
  intros H. unfold lru_update. destruct (m !! k); [reflexivity |].
  destruct (Z.of_nat (size m) <? cap) eqn:E; [reflexivity | lia].
Qed.



(** The entry and the event clone builds for a new container. *)
Definition clone_entry_of (c : probe_ctx) : container_info :=
  {| cgroup_id := get_current_cgroup_id c; pid := current_pid c;
     ppid := current_pid c;
     container_id :=
       probe_read_kernel_str (zero_bytes MAX_CONTAINER_ID_LEN) 16
         (le_bytes64 (get_current_cgroup_id c) ++ stack_after_cgroup c);
     comm := current_comm c; start_time := ktime c 0%nat;
     cpu_usage := 0; memory_usage := 0; status := CONTAINER_STATUS_CREATED |}.

Definition start_event (c : probe_ctx) (entry : container_info) : event_data :=
  {| ev_type := EVENT_CONTAINER_START; ev_timestamp := ktime c 1%nat;
     ev_cgroup_id := get_current_cgroup_id c; ev_pid := current_pid c;
     ev_container := entry |}.

Lemma events_send_event e s :
  events (fst (send_event e s))
  = if ringbuf_reserve (events s) sizeof_event_data
    then ringbuf_submit (events s) e else events s.
Proof.
  unfold send_event. destruct (ringbuf_reserve _ _); simpl;
    now rewrite KernelProofs.events_update_stats.
Qed.

(** What clone leaves behind for a cgroup that has no entry. *)
Lemma clone_new_state c s :
  is_container_process (get_current_cgroup_id c) = true ->
  container_map s !! get_current_cgroup_id c = None ->
  let s' := fst (trace_container_start c s) in
  container_map s'
  = lru_update MAX_CONTAINERS (lru_victim_container c)
      (get_current_cgroup_id c) (clone_entry_of c) (container_map s)
  /\ pid_to_cgroup_map s'
     = lru_update (MAX_CONTAINERS * 10) (lru_victim_pid c) (current_pid c)
         (get_current_cgroup_id c) (pid_to_cgroup_map s)
  /\ events s'
     = if ringbuf_reserve (events s) sizeof_event_data
       then ringbuf_submit (events s) (start_event c (clone_entry_of c))
       else events s.
Proof.
  intros Hc Hnone. unfold trace_container_start. rewrite Hc.
  cbn [negb]. cbv zeta.
  rewrite KernelProofs.container_map_with_pid_map, Hnone. cbn [fst].
  rewrite KernelProofs.container_map_update_stats,
    KernelProofs.container_map_send_event,
    KernelProofs.pid_map_update_stats, KernelProofs.pid_map_send_event,
    KernelProofs.events_update_stats, events_send_event.
  repeat split.
Qed.

(** X1. A clone in a container cgroup that has no entry registers the
    container: the table maps the cgroup id to an entry with that cgroup
    id, the calling pid as pid and as ppid, status created, the current
    command name and the time of the call; the pid table maps the pid to
    the cgroup id; and if the ring buffer has room, one container-start
    event with the same entry is queued behind the pending ones.  This
    holds whether or not the LRU tables had to reclaim another entry. *)
Theorem clone_registers_new_container (c : probe_ctx) (s : maps) :
  is_container_process (get_current_cgroup_id c) = true ->
  container_map s !! get_current_cgroup_id c = None ->
  exists entry,
    container_map (fst (trace_container_start c s)) !! get_current_cgroup_id c
      = Some entry
    /\ cgroup_id entry = get_current_cgroup_id c
    /\ pid entry = current_pid c /\ ppid entry = current_pid c
    /\ status entry = CONTAINER_STATUS_CREATED
    /\ comm entry = current_comm c
    /\ start_time entry = ktime c 0%nat
    /\ pid_to_cgroup_map (fst (trace_container_start c s)) !! current_pid c
       = Some (get_current_cgroup_id c)
    /\ (ringbuf_reserve (events s) sizeof_event_data = true ->
        rb_pending (events (fst (trace_container_start c s)))
        = rb_pending (events s) ++ [start_event c entry]).
Proof.
  intros Hc Hnone.
  destruct (clone_new_state c s Hc Hnone) as (Hcm & Hpm & Hev).
  exists (clone_entry_of c).
  rewrite Hcm, Hpm, Hev, !lru_update_lookup.
  repeat (split; [reflexivity |]).
  intros ->. reflexivity.
Qed.

Lemma clone_registers_new_container_witness :
  exists entry,
    container_map
      (fst (trace_container_start (Scenarios.ctx_of 2882400000 4321) maps_init))
      !! get_current_cgroup_id (Scenarios.ctx_of 2882400000 4321) = Some entry
    /\ pid entry = 4321 /\ status entry = CONTAINER_STATUS_CREATED.
Proof.
  destruct (clone_registers_new_container (Scenarios.ctx_of 2882400000 4321)
              maps_init eq_refl eq_refl)
    as (entry & H1 & _ & H2 & _ & H3 & _).
  exists entry. split; [exact H1 |]. split; [exact H2 | exact H3].
Defined.



(** ** The ring buffer and the counters over a history *)

Lemma stats_update_stats i j s :
  stats_map (update_stats i s) !! j
  = if decide (i = j) then (fun n => wrap64 (n + 1)) <$> stats_map s !! j
    else stats_map s !! j.
Proof.
  unfold update_stats. destruct (stats_map s !! i) as [n|] eqn:E.
  - cbn [stats_map with_stats]. destruct (decide (i = j)) as [<- | Hne].
    + rewrite list_lookup_insert_eq by (eapply lookup_lt_Some; eauto).
      now rewrite E.
    + now rewrite list_lookup_insert_ne.
  - destruct (decide (i = j)) as [<- | Hne]; [now rewrite E | reflexivity].
Qed.

Lemma stats_send_event e s j :
  stats_map (fst (send_event e s)) !! j
  = if ringbuf_reserve (events s) sizeof_event_data
    then (if decide (STAT_EVENTS_SENT = j)
          then (fun n => wrap64 (n + 1)) <$> stats_map s !! j
          else stats_map s !! j)
    else (if decide (STAT_EVENTS_DROPPED = j)
          then (fun n => wrap64 (n + 1)) <$> stats_map s !! j
          else stats_map s !! j).
Proof.
  unfold send_event. destruct (ringbuf_reserve _ _); cbn [fst];
    now rewrite stats_update_stats.
Qed.

(** What one firing does to the ring and to the two event counters:
    nothing, one record queued and counted as sent, or one record
    counted as dropped. *)
Inductive ring_step (s s' : maps) : Prop :=
| ring_idle :
    events s' = events s ->
    stats_map s' !! STAT_EVENTS_SENT = stats_map s !! STAT_EVENTS_SENT ->
    stats_map s' !! STAT_EVENTS_DROPPED = stats_map s !! STAT_EVENTS_DROPPED ->
    ring_step s s'
| ring_sent e :
    ringbuf_reserve (events s) sizeof_event_data = true ->
    events s' = ringbuf_submit (events s) e ->
    stats_map s' !! STAT_EVENTS_SENT
      = (fun n => wrap64 (n + 1)) <$> stats_map s !! STAT_EVENTS_SENT ->
    stats_map s' !! STAT_EVENTS_DROPPED = stats_map s !! STAT_EVENTS_DROPPED ->
    ring_step s s'
| ring_dropped :
    ringbuf_reserve (events s) sizeof_event_data = false ->
    events s' = events s ->
    stats_map s' !! STAT_EVENTS_SENT = stats_map s !! STAT_EVENTS_SENT ->
    stats_map s' !! STAT_EVENTS_DROPPED
      = (fun n => wrap64 (n + 1)) <$> stats_map s !! STAT_EVENTS_DROPPED ->
    ring_step s s'.

Lemma send_event_ring_step e s s0 :
  events s0 = events s -> stats_map s0 = stats_map s ->
  ring_step s (fst (send_event e s0)).
Proof.
  intros He Hs.
  destruct (ringbuf_reserve (events s) sizeof_event_data) eqn:E.
  - apply (ring_sent _ _ e); auto; rewrite ?events_send_event,
      ?stats_send_event, He, ?Hs, E; reflexivity.
  - apply ring_dropped; auto; rewrite ?events_send_event,
      ?stats_send_event, He, ?Hs, E; reflexivity.
Qed.

Lemma ring_step_update_stats i s s' :
  i <> STAT_EVENTS_SENT -> i <> STAT_EVENTS_DROPPED ->
  ring_step s s' -> ring_step s (update_stats i s').
Proof.
  intros H1 H2 H.
  assert (Hs : forall j, i <> j ->
             stats_map (update_stats i s') !! j = stats_map s' !! j).
  { intros j Hj. rewrite stats_update_stats. now destruct (decide (i = j)). }
  destruct H as [He Ha Hb | e Hr He Ha Hb | Hr He Ha Hb].
  - apply ring_idle; rewrite ?KernelProofs.events_update_stats, ?Hs; auto.
  - apply (ring_sent _ _ e);
      rewrite ?KernelProofs.events_update_stats, ?Hs; auto.
  - apply ring_dropped;
      rewrite ?KernelProofs.events_update_stats, ?Hs; auto.
Qed.

Lemma ring_step_same s s' :
  events s' = events s -> stats_map s' = stats_map s -> ring_step s s'.
Proof. intros He Hs. apply ring_idle; now rewrite ?He, ?Hs. Qed.

Lemma ring_step_frame s s' s'' :
  events s'' = events s' -> stats_map s'' = stats_map s' ->
  ring_step s s' -> ring_step s s''.
Proof.
  intros He Hs [H1 H2 H3 | e Hr H1 H2 H3 | Hr H1 H2 H3].
  - apply ring_idle; now rewrite ?He, ?Hs.
  - apply (ring_sent _ _ e); now rewrite ?He, ?Hs.
  - apply ring_dropped; now rewrite ?He, ?Hs.
Qed.

Lemma probe_ring_step p c s : ring_step s (fst (run_probe p c s)).
Proof.
  destruct p; cbn [run_probe].
  - unfold trace_container_start.
    destruct (is_container_process (get_current_cgroup_id c));
      cbn [negb fst]; [| now apply ring_step_same].
    cbv zeta. rewrite KernelProofs.container_map_with_pid_map.
    destruct (container_map s !! get_current_cgroup_id c); cbn [fst];
      [now apply ring_step_same |].
    apply ring_step_update_stats; [discriminate | discriminate |].
    now apply send_event_ring_step.
  - unfold trace_container_stop.
    destruct (is_container_process (get_current_cgroup_id c));
      cbn [negb fst]; [| now apply ring_step_same].
    destruct (container_map s !! get_current_cgroup_id c) as [ci|]; cbn [fst];
      [| now apply ring_step_same].
    destruct (pid ci =? current_pid c); cbn [negb fst];
      [| now apply ring_step_same].
    match goal with |- ring_step _ (with_pid_map _ ?x) =>
      apply (ring_step_frame _ x); [reflexivity | reflexivity |] end.
    match goal with |- ring_step _ (with_container_map _ ?x) =>
      apply (ring_step_frame _ x); [reflexivity | reflexivity |] end.
    apply ring_step_update_stats; [discriminate | discriminate |].
    now apply send_event_ring_step.
  - unfold kprobe_cgroup_attach.
    destruct (is_container_process (get_current_cgroup_id c));
      cbn [negb fst]; [| now apply ring_step_same].
    cbv zeta. rewrite KernelProofs.container_map_with_pid_map.
    destruct (container_map s !! get_current_cgroup_id c) as [ci|]; cbn [fst];
      [| now apply ring_step_same].
    destruct (status ci =? CONTAINER_STATUS_CREATED); cbn [fst];
      [| now apply ring_step_same].
    now apply send_event_ring_step.
  - unfold trace_process_exec.
    destruct (is_container_process (get_current_cgroup_id c));
      cbn [negb fst]; [| now apply ring_step_same].
    destruct (container_map s !! get_current_cgroup_id c) as [ci|]; cbn [fst];
      now apply ring_step_same.
Qed.

(** A ring whose pending records fit its size. *)
Definition ring_fits (r : ringbuf) : Prop :=
  Z.of_nat (length (rb_pending r)) * ringbuf_record_len sizeof_event_data
  <= rb_max_entries r - 1.

(** X3. The events ring is append-only and never overfilled: over any
    history of probe firings the records pending at the start stay at
    the head of the queue in their order, each firing adds at most one
    record, the size of the ring is not changed, and if the pending
    records fitted the ring at the start (168 bytes per record, at most
    the ring size minus one) they still fit at the end. *)
Theorem ring_buffer_is_append_only_and_bounded
    (tr : list (probe * probe_ctx)) (s : maps) :
  ring_fits (events s) ->
  rb_max_entries (events (run_probes tr s)) = rb_max_entries (events s)
  /\ rb_pending (events s) `prefix_of` rb_pending (events (run_probes tr s))
  /\ (length (rb_pending (events (run_probes tr s)))
      <= length (rb_pending (events s)) + length tr)%nat
  /\ ring_fits (events (run_probes tr s)).
Proof.
  revert s. induction tr as [|[p c] tr IH]; intros s Hfit.
  - cbn [run_probes fold_left].
    split; [reflexivity |]. split; [reflexivity |]. split; [simpl; lia | auto].
  - change (run_probes ((p, c) :: tr) s)
      with (run_probes tr (fst (run_probe p c s))).
    set (s1 := fst (run_probe p c s)).
    assert (Hstep : rb_max_entries (events s1) = rb_max_entries (events s)
                    /\ rb_pending (events s) `prefix_of` rb_pending (events s1)
                    /\ (length (rb_pending (events s1))
                        <= length (rb_pending (events s)) + 1)%nat
                    /\ ring_fits (events s1)).
    { destruct (probe_ring_step p c s) as [He _ _ | e Hr He _ _ | _ He _ _];
        fold s1 in He; rewrite He.
      - split; [reflexivity |]. split; [reflexivity |]. split; [lia | auto].
      - cbn [ringbuf_submit rb_max_entries rb_pending].
        split; [reflexivity |]. split; [| split].
        + now apply prefix_app_r.
        + rewrite List.length_app. simpl. lia.
        + unfold ring_fits. cbn [ringbuf_submit rb_max_entries rb_pending].
          rewrite List.length_app. cbn [length].
          unfold ringbuf_reserve in Hr. apply Z.leb_le in Hr.
          rewrite Nat2Z.inj_add. change (Z.of_nat 1) with 1. lia.
      - split; [reflexivity |]. split; [reflexivity |]. split; [lia | auto]. }
    destruct Hstep as (H1 & H2 & H3 & H4).
    destruct (IH s1 H4) as (I1 & I2 & I3 & I4).
    split; [congruence |]. split; [etransitivity; eauto |].
    split; [cbn [length]; lia | exact I4].
Qed.

Lemma ring_buffer_is_append_only_and_bounded_witness :
  ring_fits
    (events (run_probes
               [(SysEnterClone, Scenarios.ctx_of 2882400000 4321);
                (CgroupAttachTask, Scenarios.ctx_of 2882400000 4321)]
               maps_init)).
Proof.
  apply (ring_buffer_is_append_only_and_bounded _ maps_init).
  unfold ring_fits. simpl. lia.
Defined.

Lemma wrap64_range z : 0 <= wrap64 z < 2 ^ 64.
Proof. unfold wrap64. apply Z.mod_pos_bound. lia. Qed.

Lemma wrap64_succ a n : wrap64 (wrap64 (a + 1) + n) = wrap64 (a + (1 + n)).
Proof.
  unfold wrap64. rewrite Zplus_mod_idemp_l. f_equal. lia.
Qed.

Lemma stats_update_other i j s :
  i <> j -> stats_map (update_stats i s) !! j = stats_map s !! j.
Proof.
  intros H. rewrite stats_update_stats. now destruct (decide (i = j)).
Qed.

(** send_event reads the ring and the counters only. *)
Lemma send_event_frame e s s0 :
  events s0 = events s -> stats_map s0 = stats_map s ->
  events (fst (send_event e s0)) = events (fst (send_event e s))
  /\ forall j, stats_map (fst (send_event e s0)) !! j
               = stats_map (fst (send_event e s)) !! j.
Proof.
  intros He Hs. split; [| intros j].
  - now rewrite !events_send_event, He.
  - now rewrite !stats_send_event, He, Hs.
Qed.

(** The event a firing hands to send_event, when it gets that far:
    clone for a cgroup that has no entry, exit of the primary pid of an
    entry, cgroup-attach on an entry that is still created. *)
Definition built_event (p : probe) (c : probe_ctx) (s : maps)
    : option event_data :=
  let cgroup := get_current_cgroup_id c in
  if negb (is_container_process cgroup) then None else
  match p, container_map s !! cgroup with
  | SysEnterClone, None => Some (start_event c (clone_entry_of c))
  | SysEnterExit, Some container =>
      if pid container =? current_pid c
      then Some (KernelProofs.stop_event c container) else None
  | CgroupAttachTask, Some container =>
      if status container =? CONTAINER_STATUS_CREATED
      then Some {| ev_type := EVENT_CONTAINER_START;
                   ev_timestamp := ktime c 0%nat;
                   ev_cgroup_id := cgroup; ev_pid := current_pid c;
                   ev_container :=
                     set_status CONTAINER_STATUS_RUNNING container |}
      else None
  | _, _ => None
  end.

(** The events built over a history, in order, each with the answer
    bpf_ringbuf_reserve gives at that moment. *)
Fixpoint built_events (tr : list (probe * probe_ctx)) (s : maps)
    : list (event_data * bool) :=
  match tr with
  | [] => []
  | (p, c) :: tr' =>
      match built_event p c s with
      | Some e => [(e, ringbuf_reserve (events s) sizeof_event_data)]
      | None => []
      end ++ built_events tr' (fst (run_probe p c s))
  end.

(** The built events that found room in the ring, and those that found
    it full. *)
Definition queued (l : list (event_data * bool)) : list event_data :=
  map fst (List.filter (fun d => snd d) l).

Definition dropped (l : list (event_data * bool)) : list event_data :=
  map fst (List.filter (fun d => negb (snd d)) l).

(** One firing does to the ring and to the two event counters what
    send_event does with the event it builds, and nothing when it builds
    none. *)
Lemma probe_delivery p c s j :
  j = STAT_EVENTS_SENT \/ j = STAT_EVENTS_DROPPED ->
  let after :=
    match built_event p c s with
    | Some e => fst (send_event e s)
    | None => s
    end in
  events (fst (run_probe p c s)) = events after
  /\ stats_map (fst (run_probe p c s)) !! j = stats_map after !! j.
Proof.
  intros Hj. cbv zeta. unfold built_event. cbv zeta.
  assert (H0 : STAT_CONTAINERS_CREATED <> j) by (destruct Hj; subst; discriminate).
  assert (H1 : STAT_CONTAINERS_STOPPED <> j) by (destruct Hj; subst; discriminate).
  destruct p; cbn [run_probe].
  - unfold trace_container_start.
    destruct (is_container_process (get_current_cgroup_id c));
      cbn [negb fst]; [| auto].
    cbv zeta. rewrite KernelProofs.container_map_with_pid_map.
    destruct (container_map s !! get_current_cgroup_id c); cbn [fst]; [auto |].
    rewrite KernelProofs.events_update_stats, stats_update_other by assumption.
    match goal with |- context [send_event ?e ?s0] =>
      destruct (send_event_frame e s s0 eq_refl eq_refl) as [He Hs] end.
    split; [exact He | apply Hs].
  - unfold trace_container_stop.
    destruct (is_container_process (get_current_cgroup_id c));
      cbn [negb fst]; [| auto].
    destruct (container_map s !! get_current_cgroup_id c) as [ci|]; cbn [fst];
      [| auto].
    destruct (pid ci =? current_pid c); cbn [negb fst]; [| auto].
    cbn [events stats_map with_pid_map with_container_map].
    rewrite KernelProofs.events_update_stats, stats_update_other by assumption.
    match goal with |- context [send_event ?e ?s0] =>
      destruct (send_event_frame e s s0 eq_refl eq_refl) as [He Hs] end.
    split; [exact He | apply Hs].
  - unfold kprobe_cgroup_attach.
    destruct (is_container_process (get_current_cgroup_id c));
      cbn [negb fst]; [| auto].
    cbv zeta. rewrite KernelProofs.container_map_with_pid_map.
    destruct (container_map s !! get_current_cgroup_id c) as [ci|]; cbn [fst];
      [| auto].
    destruct (status ci =? CONTAINER_STATUS_CREATED); cbn [fst]; [| auto].
    match goal with |- context [send_event ?e ?s0] =>
      destruct (send_event_frame e s s0 eq_refl eq_refl) as [He Hs] end.
    split; [exact He | apply Hs].
  - unfold trace_process_exec.
    destruct (is_container_process (get_current_cgroup_id c));
      cbn [negb fst]; [| auto].
    destruct (container_map s !! get_current_cgroup_id c) as [ci|]; cbn [fst];
      auto.
Qed.

(** X4. Every event a probe builds is counted exactly once.  A firing
    builds an event when clone finds no entry for its cgroup, when the
    primary pid of an entry exits, and when cgroup-attach finds an entry
    that is still created; it builds at most one.  Over any history of
    firings, starting from maps whose sent and dropped counter slots
    hold a and b, the ring afterwards holds the records that were
    pending followed by exactly the built events whose reservation
    succeeded, in the order they were built; the sent counter is a plus
    their number and the dropped counter is b plus the number of built
    events whose reservation failed, both modulo 2^64. *)
Theorem every_event_is_counted_once
    (tr : list (probe * probe_ctx)) (s : maps) (a b : Z) :
  stats_map s !! STAT_EVENTS_SENT = Some a ->
  stats_map s !! STAT_EVENTS_DROPPED = Some b ->
  0 <= a < 2 ^ 64 -> 0 <= b < 2 ^ 64 ->
  let built := built_events tr s in
  rb_pending (events (run_probes tr s)) = rb_pending (events s) ++ queued built
  /\ stats_map (run_probes tr s) !! STAT_EVENTS_SENT
     = Some (wrap64 (a + Z.of_nat (length (queued built))))
  /\ stats_map (run_probes tr s) !! STAT_EVENTS_DROPPED
     = Some (wrap64 (b + Z.of_nat (length (dropped built))))
  /\ (length (queued built) + length (dropped built) = length built)%nat
  /\ (length built <= length tr)%nat.
Proof.
  cbv zeta. revert s a b.
  induction tr as [|[p c] tr IH]; intros s a b Ha Hb Ra Rb.
  - cbn [run_probes fold_left built_events queued dropped List.filter map
         length].
    rewrite app_nil_r, !Z.add_0_r. unfold wrap64.
    rewrite !Z.mod_small by lia. auto.
  - change (run_probes ((p, c) :: tr) s)
      with (run_probes tr (fst (run_probe p c s))).
    destruct (probe_delivery p c s STAT_EVENTS_SENT (or_introl eq_refl))
      as [He Hs].
    destruct (probe_delivery p c s STAT_EVENTS_DROPPED (or_intror eq_refl))
      as [_ Hd].
    cbn [built_events].
    destruct (built_event p c s) as [e|].
    + rewrite events_send_event in He. rewrite stats_send_event in Hs, Hd.
      destruct (ringbuf_reserve (events s) sizeof_event_data).
      * rewrite Ha in Hs. rewrite Hb in Hd.
        cbn [decide_rel fmap option_fmap option_map] in Hs, Hd.
        destruct (IH _ _ b Hs Hd (wrap64_range _) Rb)
          as (I1 & I2 & I3 & I4 & I5).
        unfold queued, dropped in *.
        cbn [app List.filter snd negb map length].
        rewrite I1, I2, I3, He, wrap64_succ.
        cbn [ringbuf_submit rb_pending]. rewrite <- app_assoc.
        split; [reflexivity |].
        split; [do 2 f_equal; lia |].
        split; [reflexivity |]. split; lia.
      * rewrite Ha in Hs. rewrite Hb in Hd.
        cbn [decide_rel fmap option_fmap option_map] in Hs, Hd.
        destruct (IH _ a _ Hs Hd Ra (wrap64_range _))
          as (I1 & I2 & I3 & I4 & I5).
        unfold queued, dropped in *.
        cbn [app List.filter snd negb map length].
        rewrite I1, I2, I3, He, wrap64_succ.
        split; [reflexivity |]. split; [reflexivity |].
        split; [do 2 f_equal; lia |]. split; lia.
    + rewrite Ha in Hs. rewrite Hb in Hd.
      destruct (IH _ a b Hs Hd Ra Rb) as (I1 & I2 & I3 & I4 & I5).
      cbn [app length]. rewrite I1, I2, I3, He.
      repeat (split; [reflexivity |]). split; [exact I4 | lia].
Qed.

(** The primary pid exits while the ring is full, then cgroup-attach
    fires in the same cgroup: the stop event is the one event built, it
    is dropped, and the dropped counter goes from 0 to 1. *)
Lemma every_event_is_counted_once_witness :
  stats_map
    (run_probes
       [(SysEnterExit, Scenarios.ctx_of 2882400000 4321);
        (CgroupAttachTask, Scenarios.ctx_of 2882400000 4321)]
       Scenarios.after_clone_ring_full) !! STAT_EVENTS_DROPPED
  = Some 1
  /\ dropped
       (built_events
          [(SysEnterExit, Scenarios.ctx_of 2882400000 4321);
           (CgroupAttachTask, Scenarios.ctx_of 2882400000 4321)]
          Scenarios.after_clone_ring_full)
     = [KernelProofs.stop_event (Scenarios.ctx_of 2882400000 4321)
          Scenarios.clone_entry].
Proof.
  destruct (every_event_is_counted_once
              [(SysEnterExit, Scenarios.ctx_of 2882400000 4321);
               (CgroupAttachTask, Scenarios.ctx_of 2882400000 4321)]
              Scenarios.after_clone_ring_full 1 0
              ltac:(vm_compute; reflexivity) ltac:(vm_compute; reflexivity)
              ltac:(lia) ltac:(lia))
    as (_ & _ & Hd & _).
  split; [rewrite Hd |]; vm_compute; reflexivity.
Defined.

(** ** What the tables hold *)

Lemma lru_update_lookup_Some {V} cap victim k (v : V) (m : gmap Z V) j x :
  lru_update cap victim k v m !! j = Some x ->
  (j = k /\ x = v) \/ (j <> k /\ m !! j = Some x).
Proof.
  intros H. destruct (decide (j = k)) as [-> | Hne].
  - rewrite lru_update_lookup in H. left. split; congruence.
  - right. split; [assumption |].
    destruct (lru_update_lookup_ne cap victim k v m j Hne) as [E | E];
      rewrite E in H; [assumption | discriminate].
Qed.

(** The two tables after one firing of each probe. *)
Lemma container_map_clone c s :
  container_map (fst (trace_container_start c s))
  = if is_container_process (get_current_cgroup_id c) then
      match container_map s !! get_current_cgroup_id c with
      | Some _ => container_map s
      | None => lru_update MAX_CONTAINERS (lru_victim_container c)
                  (get_current_cgroup_id c) (clone_entry_of c) (container_map s)
      end
    else container_map s.
Proof.
  unfold trace_container_start.
  destruct (is_container_process (get_current_cgroup_id c));
    cbn [negb fst]; [| reflexivity].
  cbv zeta. rewrite KernelProofs.container_map_with_pid_map.
  destruct (container_map s !! get_current_cgroup_id c); cbn [fst];
    [reflexivity |].
  now rewrite KernelProofs.container_map_update_stats,
    KernelProofs.container_map_send_event.
Qed.

Lemma pid_map_clone c s :
  pid_to_cgroup_map (fst (trace_container_start c s))
  = if is_container_process (get_current_cgroup_id c) then
      lru_update (MAX_CONTAINERS * 10) (lru_victim_pid c) (current_pid c)
        (get_current_cgroup_id c) (pid_to_cgroup_map s)
    else pid_to_cgroup_map s.
Proof.
  unfold trace_container_start.
  destruct (is_container_process (get_current_cgroup_id c));
    cbn [negb fst]; [| reflexivity].
  cbv zeta. rewrite KernelProofs.container_map_with_pid_map.
  destruct (container_map s !! get_current_cgroup_id c); cbn [fst];
    [reflexivity |].
  now rewrite KernelProofs.pid_map_update_stats,
    KernelProofs.pid_map_send_event.
Qed.

Lemma container_map_exit c s :
  container_map (fst (trace_container_stop c s))
  = if is_container_process (get_current_cgroup_id c) then
      match container_map s !! get_current_cgroup_id c with
      | Some e =>
          if pid e =? current_pid c
          then delete (get_current_cgroup_id c) (container_map s)
          else container_map s
      | None => container_map s
      end
    else container_map s.
Proof.
  unfold trace_container_stop.
  destruct (is_container_process (get_current_cgroup_id c));
    cbn [negb fst]; [| reflexivity].
  destruct (container_map s !! get_current_cgroup_id c) as [e|]; cbn [fst];
    [| reflexivity].
  destruct (pid e =? current_pid c); cbn [negb fst]; [| reflexivity].
  cbv zeta. cbn [container_map with_pid_map with_container_map].
  rewrite KernelProofs.container_map_update_stats,
    KernelProofs.container_map_send_event.
  cbn [container_map with_container_map].
  apply delete_insert_eq.
Qed.

Lemma pid_map_exit c s :
  pid_to_cgroup_map (fst (trace_container_stop c s))
  = if is_container_process (get_current_cgroup_id c) then
      match container_map s !! get_current_cgroup_id c with
      | Some e =>
          if pid e =? current_pid c
          then delete (current_pid c) (pid_to_cgroup_map s)
          else pid_to_cgroup_map s
      | None => pid_to_cgroup_map s
      end
    else pid_to_cgroup_map s.
Proof.
  unfold trace_container_stop.
  destruct (is_container_process (get_current_cgroup_id c));
    cbn [negb fst]; [| reflexivity].
  destruct (container_map s !! get_current_cgroup_id c) as [e|]; cbn [fst];
    [| reflexivity].
  destruct (pid e =? current_pid c); cbn [negb fst]; [| reflexivity].
  cbv zeta. cbn [pid_to_cgroup_map with_pid_map with_container_map].
  now rewrite KernelProofs.pid_map_update_stats,
    KernelProofs.pid_map_send_event.
Qed.

Lemma container_map_attach c s :
  container_map (fst (kprobe_cgroup_attach c s))
  = if is_container_process (get_current_cgroup_id c) then
      match container_map s !! get_current_cgroup_id c with
      | Some e =>
          if status e =? CONTAINER_STATUS_CREATED
          then <[get_current_cgroup_id c :=
                   set_status CONTAINER_STATUS_RUNNING e]> (container_map s)
          else container_map s
      | None => container_map s
      end
    else container_map s.
Proof.
  unfold kprobe_cgroup_attach.
  destruct (is_container_process (get_current_cgroup_id c));
    cbn [negb fst]; [| reflexivity].
  cbv zeta. rewrite KernelProofs.container_map_with_pid_map.
  destruct (container_map s !! get_current_cgroup_id c) as [e|]; cbn [fst];
    [| reflexivity].
  destruct (status e =? CONTAINER_STATUS_CREATED); cbn [fst]; [| reflexivity].
  now rewrite KernelProofs.container_map_send_event.
Qed.

Lemma pid_map_attach c s :
  pid_to_cgroup_map (fst (kprobe_cgroup_attach c s))
  = if is_container_process (get_current_cgroup_id c) then
      lru_update (MAX_CONTAINERS * 10) (lru_victim_pid c) (current_pid c)
        (get_current_cgroup_id c) (pid_to_cgroup_map s)
    else pid_to_cgroup_map s.
Proof.
  unfold kprobe_cgroup_attach.
  destruct (is_container_process (get_current_cgroup_id c));
    cbn [negb fst]; [| reflexivity].
  cbv zeta. rewrite KernelProofs.container_map_with_pid_map.
  destruct (container_map s !! get_current_cgroup_id c) as [e|]; cbn [fst];
    [| reflexivity].
  destruct (status e =? CONTAINER_STATUS_CREATED); cbn [fst]; [| reflexivity].
  now rewrite KernelProofs.pid_map_send_event.
Qed.

Definition exec_entry (c : probe_ctx) (e : container_info) : container_info :=
  if status e =? CONTAINER_STATUS_CREATED
  then set_status CONTAINER_STATUS_RUNNING (set_comm (current_comm c) e)
  else set_comm (current_comm c) e.

Lemma exec_state c s :
  fst (trace_process_exec c s)
  = if is_container_process (get_current_cgroup_id c) then
      match container_map s !! get_current_cgroup_id c with
      | Some e =>
          with_container_map
            (<[get_current_cgroup_id c := exec_entry c e]>) s
      | None => s
      end
    else s.
Proof.
  unfold trace_process_exec.
  destruct (is_container_process (get_current_cgroup_id c));
    cbn [negb fst]; [| reflexivity].
  destruct (container_map s !! get_current_cgroup_id c) as [e|]; cbn [fst];
    reflexivity.
Qed.

(** What every entry of the two tables satisfies. *)
Definition entry_wf (k : Z) (e : container_info) : Prop :=
  cgroup_id e = k
  /\ (status e = CONTAINER_STATUS_CREATED
      \/ status e = CONTAINER_STATUS_RUNNING)
  /\ ppid e = pid e /\ cpu_usage e = 0 /\ memory_usage e = 0.

Definition tables_wf (s : maps) : Prop :=
  (forall k e, container_map s !! k = Some e -> entry_wf k e)
  /\ (forall p g, pid_to_cgroup_map s !! p = Some g ->
        is_container_process g = true).

Lemma probe_keeps_tables_wf p c s :
  tables_wf s -> tables_wf (fst (run_probe p c s)).
Proof.
  intros [Hc Hp]. split.
  - intros k e. destruct p; cbn [run_probe].
    + rewrite container_map_clone.
      destruct (is_container_process (get_current_cgroup_id c)); [| apply Hc].
      destruct (container_map s !! get_current_cgroup_id c); [apply Hc |].
      intros H. apply lru_update_lookup_Some in H.
      destruct H as [[-> ->] | [_ H]]; [| now apply Hc].
      unfold entry_wf. cbn. auto.
    + rewrite container_map_exit.
      destruct (is_container_process (get_current_cgroup_id c)); [| apply Hc].
      destruct (container_map s !! get_current_cgroup_id c) as [e0|];
        [| apply Hc].
      destruct (pid e0 =? current_pid c); [| apply Hc].
      intros H. apply lookup_delete_Some in H. apply Hc, H.
    + rewrite container_map_attach.
      destruct (is_container_process (get_current_cgroup_id c)); [| apply Hc].
      destruct (container_map s !! get_current_cgroup_id c) as [e0|] eqn:E0;
        [| apply Hc].
      destruct (status e0 =? CONTAINER_STATUS_CREATED); [| apply Hc].
      intros H. apply lookup_insert_Some in H.
      destruct H as [[<- <-] | [_ H]]; [| now apply Hc].
      destruct (Hc _ _ E0) as (H1 & _ & H3 & H4 & H5).
      unfold entry_wf. cbn. auto.
    + rewrite exec_state.
      destruct (is_container_process (get_current_cgroup_id c)); [| apply Hc].
      destruct (container_map s !! get_current_cgroup_id c) as [e0|] eqn:E0;
        [| apply Hc].
      cbn [container_map with_container_map].
      intros H. apply lookup_insert_Some in H.
      destruct H as [[<- <-] | [_ H]]; [| now apply Hc].
      destruct (Hc _ _ E0) as (H1 & H2 & H3 & H4 & H5).
      unfold entry_wf, exec_entry.
      destruct (status e0 =? CONTAINER_STATUS_CREATED); cbn; auto.
  - intros q g. destruct p; cbn [run_probe].
    + rewrite pid_map_clone.
      destruct (is_container_process (get_current_cgroup_id c)) eqn:E;
        [| apply Hp].
      intros H. apply lru_update_lookup_Some in H.
      destruct H as [[-> ->] | [_ H]]; [assumption | now apply Hp in H].
    + rewrite pid_map_exit.
      destruct (is_container_process (get_current_cgroup_id c)); [| apply Hp].
      destruct (container_map s !! get_current_cgroup_id c) as [e0|];
        [| apply Hp].
      destruct (pid e0 =? current_pid c); [| apply Hp].
      intros H. apply lookup_delete_Some in H. eapply Hp, H.
    + rewrite pid_map_attach.
      destruct (is_container_process (get_current_cgroup_id c)) eqn:E;
        [| apply Hp].
      intros H. apply lru_update_lookup_Some in H.
      destruct H as [[-> ->] | [_ H]]; [assumption | now apply Hp in H].
    + rewrite exec_state.
      destruct (is_container_process (get_current_cgroup_id c)); [| apply Hp].
      destruct (container_map s !! get_current_cgroup_id c); apply Hp.
Qed.

Lemma history_keeps_tables_wf tr : forall s,
  tables_wf s -> tables_wf (run_probes tr s).
Proof.
  induction tr as [|[p c] tr IH]; intros s Hwf; [exact Hwf |].
  change (run_probes ((p, c) :: tr) s)
    with (run_probes tr (fst (run_probe p c s))).
  apply IH, probe_keeps_tables_wf, Hwf.
Qed.

(** X5. What the kernel tables hold after any history of probe firings
    that starts from tables with the same property (the empty tables of
    a fresh load, for one): every container entry is stored under its
    own cgroup id, has status created or running (a stopped entry never
    stays in the table, and paused, exited and unknown are never
    written), carries its pid as its parent pid, and has cpu and memory
    usage 0, because no probe writes them; every pid-table value is a
    container cgroup, never 0 or 1. *)
Theorem tables_hold_only_live_containers
    (tr : list (probe * probe_ctx)) (s : maps) :
  tables_wf s ->
  (forall k e, container_map (run_probes tr s) !! k = Some e ->
     cgroup_id e = k
     /\ (status e = CONTAINER_STATUS_CREATED
         \/ status e = CONTAINER_STATUS_RUNNING)
     /\ ppid e = pid e /\ cpu_usage e = 0 /\ memory_usage e = 0)
  /\ (forall p g, pid_to_cgroup_map (run_probes tr s) !! p = Some g ->
        g <> 0 /\ g <> 1).
Proof.
  intros Hwf.
  destruct (history_keeps_tables_wf tr s Hwf) as [Hc Hp]. split; [exact Hc |].
  intros p g Hg. apply Hp in Hg. unfold is_container_process in Hg. lia.
Qed.

Lemma tables_wf_init : tables_wf maps_init.
Proof.
  split; intros k e H; cbn in H; rewrite lookup_empty in H; discriminate H.
Defined.

Lemma tables_hold_only_live_containers_witness :
  exists e,
    container_map
      (run_probes
         [(SysEnterClone, Scenarios.ctx_of 2882400000 4321);
          (SchedProcessExec, Scenarios.ctx_of 2882400000 4321)]
         maps_init) !! 2882400000 = Some e
    /\ cgroup_id e = 2882400000 /\ cpu_usage e = 0.
Proof.
  destruct (tables_hold_only_live_containers
              [(SysEnterClone, Scenarios.ctx_of 2882400000 4321);
               (SchedProcessExec, Scenarios.ctx_of 2882400000 4321)]
              maps_init tables_wf_init) as [Hc _].
  destruct (container_map
              (run_probes
                 [(SysEnterClone, Scenarios.ctx_of 2882400000 4321);
                  (SchedProcessExec, Scenarios.ctx_of 2882400000 4321)]
                 maps_init) !! 2882400000) as [e|] eqn:E;
    [| vm_compute in E; discriminate E].
  exists e. split; [reflexivity |].
  destruct (Hc _ _ E) as (H1 & _ & _ & H2 & _). split; assumption.
Defined.

(** ** Promotion to running, and the life of one container *)

Lemma attach_state c s e :
  is_container_process (get_current_cgroup_id c) = true ->
  container_map s !! get_current_cgroup_id c = Some e ->
  fst (kprobe_cgroup_attach c s)
  = let s1 := with_pid_map
                (lru_update (MAX_CONTAINERS * 10) (lru_victim_pid c)
                   (current_pid c) (get_current_cgroup_id c)) s in
    if status e =? CONTAINER_STATUS_CREATED then
      fst (send_event
             {| ev_type := EVENT_CONTAINER_START; ev_timestamp := ktime c 0%nat;
                ev_cgroup_id := get_current_cgroup_id c;
                ev_pid := current_pid c;
                ev_container := set_status CONTAINER_STATUS_RUNNING e |}
             (with_container_map
                (<[get_current_cgroup_id c :=
                     set_status CONTAINER_STATUS_RUNNING e]>) s1))
    else s1.
Proof.
  intros Hc He. unfold kprobe_cgroup_attach. rewrite Hc. cbn [negb]. cbv zeta.
  rewrite KernelProofs.container_map_with_pid_map, He.
  destruct (status e =? CONTAINER_STATUS_CREATED); reflexivity.
Qed.

(** X6. The two ways a created container becomes running differ in
    what user space hears.  cgroup-attach on a created entry sets it to
    running and, when the ring has room, queues a second start event
    that carries the running status.  exec also sets it to running (and
    refreshes the command name) but queues nothing and counts nothing;
    and once exec has run, a later cgroup-attach in that cgroup finds
    the entry no longer created and stays silent as well, so the
    promotion is never reported. *)
Theorem exec_promotion_is_never_reported
    (c1 c2 : probe_ctx) (s : maps) (e : container_info) :
  is_container_process (get_current_cgroup_id c1) = true ->
  get_current_cgroup_id c2 = get_current_cgroup_id c1 ->
  container_map s !! get_current_cgroup_id c1 = Some e ->
  status e = CONTAINER_STATUS_CREATED ->
  let by_attach := fst (kprobe_cgroup_attach c1 s) in
  let by_exec := fst (trace_process_exec c1 s) in
  let then_attach := fst (kprobe_cgroup_attach c2 by_exec) in
  container_map by_attach !! get_current_cgroup_id c1
    = Some (set_status CONTAINER_STATUS_RUNNING e)
  /\ (ringbuf_reserve (events s) sizeof_event_data = true ->
      rb_pending (events by_attach)
      = rb_pending (events s)
        ++ [{| ev_type := EVENT_CONTAINER_START; ev_timestamp := ktime c1 0%nat;
               ev_cgroup_id := get_current_cgroup_id c1;
               ev_pid := current_pid c1;
               ev_container := set_status CONTAINER_STATUS_RUNNING e |}])
  /\ container_map by_exec !! get_current_cgroup_id c1
     = Some (set_status CONTAINER_STATUS_RUNNING
               (set_comm (current_comm c1) e))
  /\ events by_exec = events s /\ stats_map by_exec = stats_map s
  /\ container_map then_attach = container_map by_exec
  /\ events then_attach = events s /\ stats_map then_attach = stats_map s.
Proof.
  intros Hc Hcg He Hst. cbv zeta.
  assert (Hexec : fst (trace_process_exec c1 s)
                  = with_container_map
                      (<[get_current_cgroup_id c1 :=
                           set_status CONTAINER_STATUS_RUNNING
                             (set_comm (current_comm c1) e)]>) s).
  { rewrite exec_state, Hc, He. unfold exec_entry. now rewrite Hst. }
  split; [| split; [| split; [| split; [| split]]]].
  - rewrite container_map_attach, Hc, He, Hst. cbn [Z.eqb Pos.eqb
      CONTAINER_STATUS_CREATED]. apply lookup_insert_eq.
  - intros Hr. rewrite (attach_state c1 s e Hc He), Hst. cbv zeta.
    cbn [Z.eqb Pos.eqb CONTAINER_STATUS_CREATED].
    rewrite events_send_event. cbn [events with_container_map with_pid_map].
    now rewrite Hr.
  - rewrite Hexec. cbn [container_map with_container_map].
    apply lookup_insert_eq.
  - now rewrite Hexec.
  - now rewrite Hexec.
  - rewrite Hexec.
    assert (Hl : container_map
                   (with_container_map
                      (<[get_current_cgroup_id c1 :=
                           set_status CONTAINER_STATUS_RUNNING
                             (set_comm (current_comm c1) e)]>) s)
                 !! get_current_cgroup_id c2
                 = Some (set_status CONTAINER_STATUS_RUNNING
                           (set_comm (current_comm c1) e))).
    { rewrite Hcg. cbn [container_map with_container_map].
      apply lookup_insert_eq. }
    rewrite (attach_state c2 _ _ (eq_trans (f_equal _ Hcg) Hc) Hl).
    cbv zeta. cbn [status set_status Z.eqb Pos.eqb CONTAINER_STATUS_CREATED
                     CONTAINER_STATUS_RUNNING].
    split; [| split]; reflexivity.
Qed.

Lemma exec_promotion_is_never_reported_witness :
  events
    (fst (kprobe_cgroup_attach (Scenarios.ctx_of 2882400000 4400)
            (fst (trace_process_exec (Scenarios.ctx_of 2882400000 4321)
                    Scenarios.after_clone))))
  = events Scenarios.after_clone.
Proof.
  exact (proj1 (proj2 (proj2 (proj2 (proj2 (proj2 (proj2
    (exec_promotion_is_never_reported
       (Scenarios.ctx_of 2882400000 4321) (Scenarios.ctx_of 2882400000 4400)
       Scenarios.after_clone Scenarios.clone_entry
       eq_refl eq_refl eq_refl eq_refl)))))))).
Defined.

(** The state an exit of the primary pid leaves. *)
Lemma exit_events c s e :
  is_container_process (get_current_cgroup_id c) = true ->
  container_map s !! get_current_cgroup_id c = Some e ->
  pid e = current_pid c ->
  events (fst (trace_container_stop c s))
  = if ringbuf_reserve (events s) sizeof_event_data
    then ringbuf_submit (events s)
           {| ev_type := EVENT_CONTAINER_STOP; ev_timestamp := ktime c 0%nat;
              ev_cgroup_id := get_current_cgroup_id c;
              ev_pid := current_pid c;
              ev_container := set_status CONTAINER_STATUS_STOPPED e |}
    else events s.
Proof.
  intros Hc He Hp. unfold trace_container_stop. rewrite Hc, He, Hp, Z.eqb_refl.
  cbn [negb fst]. cbv zeta.
  cbn [events with_pid_map with_container_map].
  now rewrite KernelProofs.events_update_stats, events_send_event.
Qed.

(** X7. The life of one container.  When a process of a container
    cgroup that has no entry enters clone and the same pid enters exit
    next, the container's entry and the pid's entry are gone again;
    if neither table was full (and the pid was not mapped before), both
    tables are exactly what they were before the clone.  With room in
    the ring for two records, user space gets a start event carrying
    status created followed by a stop event carrying status stopped for
    the same entry. *)
Theorem clone_then_exit_round_trip (c1 c2 : probe_ctx) (s : maps) :
  is_container_process (get_current_cgroup_id c1) = true ->
  get_current_cgroup_id c2 = get_current_cgroup_id c1 ->
  current_pid c2 = current_pid c1 ->
  container_map s !! get_current_cgroup_id c1 = None ->
  let s2 := fst (trace_container_stop c2 (fst (trace_container_start c1 s))) in
  container_map s2 !! get_current_cgroup_id c1 = None
  /\ pid_to_cgroup_map s2 !! current_pid c1 = None
  /\ (Z.of_nat (size (container_map s)) < MAX_CONTAINERS ->
      container_map s2 = container_map s)
  /\ (Z.of_nat (size (pid_to_cgroup_map s)) < MAX_CONTAINERS * 10 ->
      pid_to_cgroup_map s !! current_pid c1 = None ->
      pid_to_cgroup_map s2 = pid_to_cgroup_map s)
  /\ (Z.of_nat (length (rb_pending (events s)) + 2)
        * ringbuf_record_len sizeof_event_data
      <= rb_max_entries (events s) - 1 ->
      rb_pending (events s2)
      = rb_pending (events s)
        ++ [start_event c1 (clone_entry_of c1);
            {| ev_type := EVENT_CONTAINER_STOP; ev_timestamp := ktime c2 0%nat;
               ev_cgroup_id := get_current_cgroup_id c1;
               ev_pid := current_pid c1;
               ev_container :=
                 set_status CONTAINER_STATUS_STOPPED (clone_entry_of c1) |}]).
Proof.
  intros Hc Hcg Hpid Hnone. cbv zeta.
  set (s1 := fst (trace_container_start c1 s)).
  destruct (clone_new_state c1 s Hc Hnone) as (Hcm & Hpm & Hev).
  fold s1 in Hcm, Hpm, Hev.
  assert (Hl : container_map s1 !! get_current_cgroup_id c2
               = Some (clone_entry_of c1)).
  { rewrite Hcg, Hcm. apply lru_update_lookup. }
  assert (Hc2 : is_container_process (get_current_cgroup_id c2) = true)
    by now rewrite Hcg.
  assert (Hp2 : pid (clone_entry_of c1) = current_pid c2) by now rewrite Hpid.
  assert (Hcm2 : container_map (fst (trace_container_stop c2 s1))
                 = delete (get_current_cgroup_id c1) (container_map s1)).
  { rewrite container_map_exit, Hc2, Hl, Hp2, Z.eqb_refl. now rewrite Hcg. }
  assert (Hpm2 : pid_to_cgroup_map (fst (trace_container_stop c2 s1))
                 = delete (current_pid c1) (pid_to_cgroup_map s1)).
  { rewrite pid_map_exit, Hc2, Hl, Hp2, Z.eqb_refl. now rewrite Hpid. }
  split; [| split; [| split; [| split]]].
  - rewrite Hcm2. apply lookup_delete_eq.
  - rewrite Hpm2. apply lookup_delete_eq.
  - intros Hroom. rewrite Hcm2, Hcm, lru_update_room by assumption.
    rewrite delete_insert_eq. now apply delete_id.
  - intros Hroom Hfree. rewrite Hpm2, Hpm, lru_update_room by assumption.
    rewrite delete_insert_eq. now apply delete_id.
  - intros Hroom.
    assert (R1 : ringbuf_reserve (events s) sizeof_event_data = true).
    { unfold ringbuf_reserve. apply Z.leb_le.
      rewrite Nat2Z.inj_add in Hroom.
      change (ringbuf_record_len sizeof_event_data) with 168 in *. lia. }
    rewrite R1 in Hev.
    assert (R2 : ringbuf_reserve (events s1) sizeof_event_data = true).
    { rewrite Hev. unfold ringbuf_reserve. apply Z.leb_le.
      cbn [ringbuf_submit rb_pending rb_max_entries].
      rewrite List.length_app. cbn [length].
      rewrite Nat2Z.inj_add in *.
      change (ringbuf_record_len sizeof_event_data) with 168 in *. lia. }
    rewrite (exit_events c2 s1 _ Hc2 Hl Hp2), R2, Hev.
    cbn [ringbuf_submit rb_pending]. rewrite <- List.app_assoc.
    now rewrite Hcg, Hpid.
Qed.

Lemma clone_then_exit_round_trip_witness :
  container_map
    (fst (trace_container_stop (Scenarios.ctx_of 2882400000 4321)
            (fst (trace_container_start (Scenarios.ctx_of 2882400000 4321)
                    maps_init))))
  = container_map maps_init.
Proof.
  refine (proj1 (proj2 (proj2
    (clone_then_exit_round_trip
       (Scenarios.ctx_of 2882400000 4321) (Scenarios.ctx_of 2882400000 4321)
       maps_init eq_refl eq_refl eq_refl eq_refl))) _).
  vm_compute. reflexivity.
Defined.

End KernelLifecycleProofs.

(** * More properties of the data processor *)

Module AggregationProofs.

Import GoFmt Ebpf Processor Aggregation.
Local Open Scope string_scope.
Local Open Scope list_scope.
Local Open Scope Z_scope.

(** The record a start event creates for an unknown cgroup, as the
    handler leaves it. *)
Definition started_record (event : EventData) (clock : nat -> Z)
    : AggregatedContainerMetrics :=
  set_status_update "running" (clock 1%nat)
    {| CgroupID := EventCgroupID event;
       ContainerID := fmt_x (EventCgroupID event); Name := "";
       PID := EventPID event; CPUSamples := []; CPUAvg := 0;
       CPUMax := 0; CPUMin := 0; MemorySamples := []; MemoryAvg := 0;
       MemoryMax := 0; MemoryMin := 0; Status := "starting";
       StartTime := wrap_i64 (Timestamp event);
       LastUpdate := clock 0%nat |}.

(** The container table after one handler call. *)
Lemma containerMetrics_HandleEvent h event clock a :
  containerMetrics (fst (HandleEvent h event clock a))
  = match h, containerMetrics a !! EventCgroupID event with
    | ContainerStartHandler, Some c =>
        <[EventCgroupID event := set_status_update "running" (clock 0%nat) c]>
          (containerMetrics a)
    | ContainerStartHandler, None =>
        <[EventCgroupID event := started_record event clock]>
          (containerMetrics a)
    | ContainerStopHandler, Some c =>
        <[EventCgroupID event := set_status_update "stopped" (clock 0%nat) c]>
          (containerMetrics a)
    | CPUSampleHandler, Some c =>
        <[EventCgroupID event := cpu_sample_update (clock 0%nat) c]>
          (containerMetrics a)
    | MemorySampleHandler, Some c =>
        <[EventCgroupID event := memory_sample_update (clock 0%nat) c]>
          (containerMetrics a)
    | _, _ => containerMetrics a
    end.
Proof.
  destruct h; cbn [HandleEvent].
  - unfold ContainerStart_HandleEvent. cbv zeta.
    destruct (containerMetrics a !! EventCgroupID event); reflexivity.
  - unfold ContainerStop_HandleEvent. cbv zeta.
    destruct (containerMetrics a !! EventCgroupID event); reflexivity.
  - unfold NetworkPacket_HandleEvent. cbv zeta.
    destruct (networkMetrics a !! EventCgroupID event);
      destruct (containerMetrics a !! EventCgroupID event); reflexivity.
  - unfold CPUSample_HandleEvent. cbv zeta.
    destruct (containerMetrics a !! EventCgroupID event); reflexivity.
  - unfold MemorySample_HandleEvent. cbv zeta.
    destruct (containerMetrics a !! EventCgroupID event); reflexivity.
Qed.

(** A tick never adds or changes a container record. *)
Lemma containerMetrics_tick s a k c :
  match s with Handle _ => False | _ => True end ->
  containerMetrics (run_step a s) !! k = Some c ->
  containerMetrics a !! k = Some c.
Proof.
  destruct s as [cl | t | now]; intros Hs; [destruct Hs | |];
    cbn [run_step].
  - unfold performAggregation. cbv zeta.
    cbn [containerMetrics aggregateSystemMetrics].
    destruct (windowSize a <=? Sub (at_check t) (lastReset a)); [| auto].
    cbn [containerMetrics resetAggregationWindow].
    intros H. now apply map_lookup_filter_Some in H.
  - unfold performCleanup. cbv zeta. cbn [containerMetrics].
    intros H. now apply map_lookup_filter_Some in H.
Qed.

Section RecordInvariant.

Variable P : Z -> AggregatedContainerMetrics -> Prop.

Hypothesis P_started : forall event clock,
  P (EventCgroupID event) (started_record event clock).
Hypothesis P_running : forall k c now,
  P k c -> P k (set_status_update "running" now c).
Hypothesis P_stopped : forall k c now,
  P k c -> P k (set_status_update "stopped" now c).
Hypothesis P_cpu : forall k c now, P k c -> P k (cpu_sample_update now c).
Hypothesis P_memory : forall k c now,
  P k c -> P k (memory_sample_update now c).

Definition all_records (a : MetricsAggregator) : Prop :=
  forall k c, containerMetrics a !! k = Some c -> P k c.

Lemma run_step_all_records s a : all_records a -> all_records (run_step a s).
Proof.
  intros Ha k c. destruct s as [[[h event] clock] | t | now].
  - cbn [run_step run_call]. rewrite containerMetrics_HandleEvent.
    destruct h;
      destruct (containerMetrics a !! EventCgroupID event) as [c0|] eqn:E;
      try apply Ha;
      (intros H; apply lookup_insert_Some in H;
       destruct H as [[<- <-] | [_ H]]; [| now apply Ha]); auto.
  - intros H. apply Ha. revert H. now apply containerMetrics_tick.
  - intros H. apply Ha. revert H. now apply containerMetrics_tick.
Qed.

Lemma run_steps_all_records steps : forall a,
  all_records a -> all_records (run_steps steps a).
Proof.
  induction steps as [|s steps IH]; intros a Ha; [exact Ha |].
  apply (IH (run_step a s)), run_step_all_records, Ha.
Qed.

End RecordInvariant.

(** What identifies a record, and the states it can be seen in. *)
Definition record_identity (k : Z) (c : AggregatedContainerMetrics) : Prop :=
  CgroupID c = k /\ ContainerID c = fmt_x k /\ Name c = ""
  /\ (Status c = "running" \/ Status c = "stopped").

Lemma calculateCPUStats_fields c :
  CgroupID (calculateCPUStats c) = CgroupID c
  /\ ContainerID (calculateCPUStats c) = ContainerID c
  /\ Name (calculateCPUStats c) = Name c
  /\ Status (calculateCPUStats c) = Status c
  /\ MemoryAvg (calculateCPUStats c) = MemoryAvg c
  /\ MemoryMin (calculateCPUStats c) = MemoryMin c
  /\ MemoryMax (calculateCPUStats c) = MemoryMax c.
Proof.
  unfold calculateCPUStats. destruct (CPUSamples c) as [|x l]; [tauto |].
  destruct (cpu_fold (x :: l) x) as [[sum mn] mx]. cbn. tauto.
Qed.

Lemma calculateMemoryStats_fields c :
  CgroupID (calculateMemoryStats c) = CgroupID c
  /\ ContainerID (calculateMemoryStats c) = ContainerID c
  /\ Name (calculateMemoryStats c) = Name c
  /\ Status (calculateMemoryStats c) = Status c
  /\ CPUAvg (calculateMemoryStats c) = CPUAvg c
  /\ CPUMin (calculateMemoryStats c) = CPUMin c
  /\ CPUMax (calculateMemoryStats c) = CPUMax c.
Proof.
  unfold calculateMemoryStats. destruct (MemorySamples c) as [|x l]; [tauto |].
  destruct (mem_fold (x :: l) x) as [[sum mn] mx]. cbn. tauto.
Qed.

Lemma record_identity_cpu k c now :
  record_identity k c -> record_identity k (cpu_sample_update now c).
Proof.
  intros (H1 & H2 & H3 & H4). unfold cpu_sample_update, set_LastUpdate.
  cbv zeta.
  destruct (calculateCPUStats_fields
              (set_CPUSamples (push_sample (CPUSamples c) 50%float) c))
    as (F1 & F2 & F3 & F4 & _).
  unfold record_identity.
  cbn [CgroupID ContainerID Name Status set_status_update].
  rewrite F1, F2, F3, F4. cbn [CgroupID ContainerID Name Status set_CPUSamples].
  auto.
Qed.

Lemma record_identity_memory k c now :
  record_identity k c -> record_identity k (memory_sample_update now c).
Proof.
  intros (H1 & H2 & H3 & H4). unfold memory_sample_update, set_LastUpdate.
  cbv zeta.
  destruct (calculateMemoryStats_fields
              (set_MemorySamples
                 (push_sample (MemorySamples c) (wrap64 (512 * 1024 * 1024))) c))
    as (F1 & F2 & F3 & F4 & _).
  unfold record_identity.
  cbn [CgroupID ContainerID Name Status set_status_update].
  rewrite F1, F2, F3, F4.
  cbn [CgroupID ContainerID Name Status set_MemorySamples].
  auto.
Qed.

(** X8. What a container record of the aggregator looks like after any
    history of handler calls, aggregation ticks and cleanups that starts
    from an aggregator with the same property (the empty one of
    NewDataProcessor, for one): it is stored under its own cgroup id,
    its container id is that cgroup id in lower-case hex, its name is
    empty because nothing ever sets it, and its status is running or
    stopped; the status starting that a start event writes first is
    never left behind. *)
Theorem records_are_running_or_stopped
    (steps : list step) (a : MetricsAggregator) :
  (forall k c, containerMetrics a !! k = Some c -> record_identity k c) ->
  forall k c,
    containerMetrics (run_steps steps a) !! k = Some c ->
    CgroupID c = k /\ ContainerID c = fmt_x k /\ Name c = ""
    /\ (Status c = "running" \/ Status c = "stopped").
Proof.
  intros Ha. apply (run_steps_all_records record_identity); try assumption.
  - intros event clock. unfold record_identity, started_record. cbn. auto.
  - intros k c now (H1 & H2 & H3 & H4). unfold record_identity. cbn. auto.
  - intros k c now (H1 & H2 & H3 & H4). unfold record_identity. cbn. auto.
  - apply record_identity_cpu.
  - apply record_identity_memory.
Qed.

Lemma new_aggregator_records
    (P : Z -> AggregatedContainerMetrics -> Prop) now :
  forall k c, containerMetrics (new_aggregator now) !! k = Some c -> P k c.
Proof.
  intros k c H. cbn [containerMetrics new_aggregator] in H.
  rewrite lookup_empty in H. discriminate H.
Defined.

Lemma records_are_running_or_stopped_witness :
  exists c,
    containerMetrics
      (run_steps [Handle Scenarios.start_call; Handle Scenarios.cpu_call;
                  Cleanup 5000] (new_aggregator 0)) !! 2882400000 = Some c
    /\ ContainerID c = fmt_x 2882400000 /\ Name c = "".
Proof.
  destruct (containerMetrics
              (run_steps [Handle Scenarios.start_call;
                          Handle Scenarios.cpu_call; Cleanup 5000]
                 (new_aggregator 0)) !! 2882400000) as [c|] eqn:E;
    [| vm_compute in E; discriminate E].
  exists c. split; [reflexivity |].
  destruct (records_are_running_or_stopped
              [Handle Scenarios.start_call; Handle Scenarios.cpu_call;
               Cleanup 5000] (new_aggregator 0)
              (new_aggregator_records record_identity 0) 2882400000 c E) as (_ & H2 & H3 & _).
  split; assumption.
Defined.

(** ** The samples and their statistics *)

Definition sampled_memory : Z := 536870912.

Definition cpu_stats_are (x : float) (c : AggregatedContainerMetrics) : Prop :=
  CPUAvg c = x /\ CPUMin c = x /\ CPUMax c = x.

Definition memory_stats_are (x : Z) (c : AggregatedContainerMetrics) : Prop :=
  MemoryAvg c = x /\ MemoryMin c = x /\ MemoryMax c = x.

Definition record_samples (c : AggregatedContainerMetrics) : Prop :=
  (length (CPUSamples c) <= 100)%nat
  /\ (length (MemorySamples c) <= 100)%nat
  /\ CPUSamples c = repeat 50%float (length (CPUSamples c))
  /\ MemorySamples c = repeat sampled_memory (length (MemorySamples c))
  /\ cpu_stats_are (if decide (CPUSamples c = []) then 0%float else 50%float) c
  /\ memory_stats_are
       (if decide (MemorySamples c = []) then 0 else sampled_memory) c.

Lemma push_sample_repeat {T} (x : T) n :
  (n <= 100)%nat ->
  exists m, (m <= 99)%nat /\ push_sample (repeat x n) x = repeat x (S m).
Proof.
  intros Hn. destruct (decide (n = 100%nat)) as [-> | Hne].
  - exists 99%nat. split; [lia |].
    rewrite ProcessorProofs.push_sample_full by apply repeat_length.
    change (repeat x 100%nat) with (x :: repeat x 99%nat). cbn [drop skipn].
    rewrite drop_0. symmetry. apply repeat_cons.
  - exists n. split; [lia |].
    rewrite ProcessorProofs.push_sample_below by (rewrite repeat_length; lia).
    now rewrite <- repeat_cons.
Qed.

Lemma cpu_stats_of_fifties c m :
  (m <= 99)%nat -> CPUSamples c = repeat 50%float (S m) ->
  cpu_stats_are 50%float (calculateCPUStats c).
Proof.
  intros Hm Hs. unfold calculateCPUStats. rewrite Hs. cbn [repeat].
  assert (H : let '(sum, mn, mx) :=
                cpu_fold (50%float :: repeat 50%float m) 50%float in
              PrimFloat.div sum
                (float64_of_Z
                   (Z.of_nat (length (50%float :: repeat 50%float m))))
              = 50%float
              /\ mn = 50%float /\ mx = 50%float).
  { do 100 (destruct m as [|m];
            [vm_compute; split; [reflexivity | split; reflexivity] |]).
    lia. }
  destruct (cpu_fold (50%float :: repeat 50%float m) 50%float) as [[sum mn] mx].
  destruct H as (H1 & H2 & H3). unfold cpu_stats_are. cbn. auto.
Qed.
Lemma memory_stats_of_samples c m :
  (m <= 99)%nat -> MemorySamples c = repeat sampled_memory (S m) ->
  memory_stats_are sampled_memory (calculateMemoryStats c).
Proof.
  intros Hm Hs. unfold calculateMemoryStats. rewrite Hs. cbn [repeat].
  assert (H : let '(sum, mn, mx) :=
                mem_fold (sampled_memory :: repeat sampled_memory m)
                  sampled_memory in
              sum / Z.of_nat (length (sampled_memory :: repeat sampled_memory m))
              = sampled_memory
              /\ mn = sampled_memory /\ mx = sampled_memory).
  { do 100 (destruct m as [|m];
            [vm_compute; split; [reflexivity | split; reflexivity] |]).
    lia. }
  destruct (mem_fold (sampled_memory :: repeat sampled_memory m) sampled_memory)
    as [[sum mn] mx].
  destruct H as (H1 & H2 & H3). unfold memory_stats_are. cbn. auto.
Qed.

Lemma record_samples_status st now c :
  record_samples c -> record_samples (set_status_update st now c).
Proof. intros H. exact H. Qed.

Lemma record_samples_cpu now c :
  record_samples c -> record_samples (cpu_sample_update now c).
Proof.
  intros (L1 & L2 & S1 & S2 & C & M).
  destruct (push_sample_repeat 50%float (length (CPUSamples c)) L1)
    as (m & Hm & Hpush).
  rewrite <- S1 in Hpush.
  set (c1 := set_CPUSamples (push_sample (CPUSamples c) 50%float) c).
  assert (Hs : CPUSamples c1 = repeat 50%float (S m)) by exact Hpush.
  pose proof (cpu_stats_of_fifties c1 m Hm Hs) as Hstats.
  destruct (ProcessorProofs.calculateCPUStats_samples c1) as [E1 E2].
  destruct (calculateCPUStats_fields c1) as (_ & _ & _ & _ & F1 & F2 & F3).
  unfold record_samples, cpu_sample_update, set_LastUpdate. cbv zeta.
  fold c1. unfold cpu_stats_are, memory_stats_are in *.
  cbn [CPUSamples MemorySamples CPUAvg CPUMin CPUMax MemoryAvg MemoryMin
       MemoryMax set_status_update].
  rewrite E1, E2, F1, F2, F3, Hs.
  cbn [MemorySamples MemoryAvg MemoryMin MemoryMax set_CPUSamples c1].
  rewrite repeat_length.
  split; [lia |]. split; [assumption |]. split; [reflexivity |].
  split; [assumption |].
  split; [| assumption].
  destruct (decide (repeat 50%float (S m) = [])) as [E | _];
    [discriminate E | assumption].
Qed.

Lemma record_samples_memory now c :
  record_samples c -> record_samples (memory_sample_update now c).
Proof.
  intros (L1 & L2 & S1 & S2 & C & M).
  destruct (push_sample_repeat sampled_memory (length (MemorySamples c)) L2)
    as (m & Hm & Hpush).
  rewrite <- S2 in Hpush.
  change (wrap64 (512 * 1024 * 1024)) with sampled_memory.
  unfold memory_sample_update. cbv zeta.
  change (wrap64 (512 * 1024 * 1024)) with sampled_memory.
  set (c1 := set_MemorySamples (push_sample (MemorySamples c) sampled_memory) c).
  assert (Hs : MemorySamples c1 = repeat sampled_memory (S m)) by exact Hpush.
  pose proof (memory_stats_of_samples c1 m Hm Hs) as Hstats.
  destruct (ProcessorProofs.calculateMemoryStats_samples c1) as [E1 E2].
  destruct (calculateMemoryStats_fields c1) as (_ & _ & _ & _ & F1 & F2 & F3).
  unfold record_samples, set_LastUpdate.
  unfold cpu_stats_are, memory_stats_are in *.
  cbn [CPUSamples MemorySamples CPUAvg CPUMin CPUMax MemoryAvg MemoryMin
       MemoryMax set_status_update].
  rewrite E1, E2, F1, F2, F3, Hs.
  cbn [CPUSamples CPUAvg CPUMin CPUMax set_MemorySamples c1].
  rewrite repeat_length.
  split; [assumption |]. split; [lia |]. split; [assumption |].
  split; [reflexivity |].
  split; [assumption |].
  destruct (decide (repeat sampled_memory (S m) = [])) as [E | _];
    [discriminate E | assumption].
Qed.

(** X9. The sample handlers do not read the event: starting from an
    aggregator whose records have this property (the empty one of
    NewDataProcessor, for one), whatever events arrive, in any order
    and mixed with aggregation ticks and cleanups, every CPU sample of
    every record is 50.0 and every memory sample is 512 MiB.  So the
    statistics of a record take only two values: 0
    for all three (average, minimum, maximum) as long as the record has
    no sample of that kind, and 50.0 (CPU) or 536870912 (memory) for
    all three from the first sample on. *)
Theorem sample_statistics_ignore_the_event
    (steps : list step) (a : MetricsAggregator) :
  (forall k c, containerMetrics a !! k = Some c -> record_samples c) ->
  forall k c,
    containerMetrics (run_steps steps a) !! k = Some c ->
    Forall (eq 50%float) (CPUSamples c)
    /\ Forall (eq 536870912) (MemorySamples c)
    /\ (CPUSamples c = [] ->
        CPUAvg c = 0%float /\ CPUMin c = 0%float /\ CPUMax c = 0%float)
    /\ (CPUSamples c <> [] ->
        CPUAvg c = 50%float /\ CPUMin c = 50%float /\ CPUMax c = 50%float)
    /\ (MemorySamples c = [] ->
        MemoryAvg c = 0 /\ MemoryMin c = 0 /\ MemoryMax c = 0)
    /\ (MemorySamples c <> [] ->
        MemoryAvg c = 536870912 /\ MemoryMin c = 536870912
        /\ MemoryMax c = 536870912).
Proof.
  intros Ha k c Hl.
  assert (H : record_samples c).
  { revert k c Hl.
    apply (run_steps_all_records (fun _ => record_samples)); try assumption.
    - intros event clock. unfold record_samples, started_record,
        cpu_stats_are, memory_stats_are. cbn.
      split; [lia |]. split; [lia |]. tauto.
    - intros k c now. apply record_samples_status.
    - intros k c now. apply record_samples_status.
    - intros k c now. apply record_samples_cpu.
    - intros k c now. apply record_samples_memory. }
  destruct H as (_ & _ & S1 & S2 & C & M).
  unfold cpu_stats_are, memory_stats_are, sampled_memory in *.
  split; [rewrite S1; apply List.Forall_forall; intros x Hx;
          apply repeat_spec in Hx; now subst |].
  split; [rewrite S2; apply List.Forall_forall; intros x Hx;
          apply repeat_spec in Hx; now subst |].
  destruct (decide (CPUSamples c = [])) as [E1 | E1];
    destruct (decide (MemorySamples c = [])) as [E2 | E2];
    repeat split; intros; try contradiction; try tauto.
Qed.

Lemma sample_statistics_ignore_the_event_witness :
  exists c,
    containerMetrics
      (run_steps [Handle Scenarios.start_call; Handle Scenarios.cpu_call;
                  Handle Scenarios.cpu_call] (new_aggregator 0))
      !! 2882400000 = Some c
    /\ Forall (eq 50%float) (CPUSamples c).
Proof.
  destruct (containerMetrics
              (run_steps [Handle Scenarios.start_call;
                          Handle Scenarios.cpu_call; Handle Scenarios.cpu_call]
                 (new_aggregator 0)) !! 2882400000) as [c|] eqn:E;
    [| vm_compute in E; discriminate E].
  exists c. split; [reflexivity |].
  exact (proj1 (sample_statistics_ignore_the_event
                  [Handle Scenarios.start_call; Handle Scenarios.cpu_call;
                   Handle Scenarios.cpu_call] (new_aggregator 0)
                  (new_aggregator_records (fun _ => record_samples) 0)
                  2882400000 c E)).
Defined.

(** ** Unknown cgroups *)

(** A step that is not a start event for cgroup [k]. *)
Definition no_start_for (k : Z) (s : step) : Prop :=
  match s with
  | Handle (ContainerStartHandler, event, _) => EventCgroupID event <> k
  | _ => True
  end.

Lemma run_step_keeps_unknown k s a :
  no_start_for k s ->
  containerMetrics a !! k = None ->
  containerMetrics (run_step a s) !! k = None.
Proof.
  intros Hs Hk.
  destruct (containerMetrics (run_step a s) !! k) as [c|] eqn:E; [| reflexivity].
  exfalso. destruct s as [[[h event] clock] | t | now].
  - cbn [run_step run_call] in E. rewrite containerMetrics_HandleEvent in E.
    destruct h;
      destruct (containerMetrics a !! EventCgroupID event) as [c0|] eqn:E0;
      try congruence;
      (apply lookup_insert_Some in E; destruct E as [[<- _] | [_ E]];
       [| congruence]); cbn [no_start_for] in Hs; congruence.
  - apply containerMetrics_tick in E; [congruence | exact I].
  - apply containerMetrics_tick in E; [congruence | exact I].
Qed.

(** X10. Only a start event registers a container.  If the aggregator
    has no record for a cgroup and a history of handler calls, ticks
    and cleanups contains no start event for it, there is still no
    record afterwards: a CPU or memory sample for that cgroup fails
    with the container-not-found error and changes nothing, and a stop
    event for it is accepted without error and changes nothing
    either. *)
Theorem only_start_events_register_containers
    (steps : list step) (a : MetricsAggregator) (k : Z) :
  containerMetrics a !! k = None ->
  Forall (no_start_for k) steps ->
  containerMetrics (run_steps steps a) !! k = None
  /\ forall event clock,
       EventCgroupID event = k ->
       HandleEvent CPUSampleHandler event clock (run_steps steps a)
         = (run_steps steps a, Some (ContainerNotFound k))
       /\ HandleEvent MemorySampleHandler event clock (run_steps steps a)
          = (run_steps steps a, Some (ContainerNotFound k))
       /\ HandleEvent ContainerStopHandler event clock (run_steps steps a)
          = (run_steps steps a, None).
Proof.
  intros Hk Hsteps.
  assert (H : containerMetrics (run_steps steps a) !! k = None).
  { revert a Hk. induction Hsteps as [|s steps Hs _ IH]; intros a Hk;
      [exact Hk |].
    apply (IH (run_step a s)). now apply run_step_keeps_unknown. }
  split; [exact H |].
  intros event clock <-. cbn [HandleEvent].
  unfold CPUSample_HandleEvent, MemorySample_HandleEvent,
    ContainerStop_HandleEvent. cbv zeta. rewrite H. auto.
Qed.

Lemma only_start_events_register_containers_witness :
  HandleEvent CPUSampleHandler (snd (fst Scenarios.cpu_call))
    (snd Scenarios.cpu_call)
    (run_steps [Handle Scenarios.cpu_call; Cleanup 5000] (new_aggregator 0))
  = (run_steps [Handle Scenarios.cpu_call; Cleanup 5000] (new_aggregator 0),
     Some (ContainerNotFound 2882400000)).
Proof.
  refine (proj1 (proj2 (only_start_events_register_containers
                          [Handle Scenarios.cpu_call; Cleanup 5000]
                          (new_aggregator 0) 2882400000 _ _)
                   (snd (fst Scenarios.cpu_call)) (snd Scenarios.cpu_call)
                   eq_refl)).
  - apply lookup_empty.
  - repeat constructor.
Defined.

(** ** Minimum, mean and maximum of the memory samples *)

Definition sum_of (l : list Z) : Z := fold_right Z.add 0 l.

Lemma mem_fold_spec l : forall sum mn mx,
  Forall (fun x => 0 <= x) l -> 0 <= sum -> sum + sum_of l < 2 ^ 64 ->
  mn <= mx ->
  let '(sum', mn', mx') :=
    fold_left
      (fun '(sum, mn, mx) sample =>
         (wrap64 (sum + sample),
          if sample <? mn then sample else mn,
          if mx <? sample then sample else mx))
      l (sum, mn, mx) in
  sum' = sum + sum_of l
  /\ mn' <= mn /\ mx <= mx' /\ mn' <= mx'
  /\ (forall x, In x l -> mn' <= x <= mx')
  /\ (mn' = mn \/ In mn' l) /\ (mx' = mx \/ In mx' l).
Proof.
  induction l as [|y l IH]; intros sum mn mx Hpos Hsum Hov Hle.
  - cbn. split; [lia |]. split; [lia |]. split; [lia |]. split; [lia |].
    split; [intros x [] | auto].
  - cbn [fold_left]. inversion Hpos as [|? ? Hy Hl]; subst.
    cbn [sum_of fold_right] in Hov. fold (sum_of l) in Hov.
    assert (Hl0 : 0 <= sum_of l).
    { clear -Hl. induction Hl; cbn; [lia |]. fold (sum_of l). lia. }
    assert (Hw : wrap64 (sum + y) = sum + y).
    { unfold wrap64. apply Z.mod_small. lia. }
    rewrite Hw.
    specialize (IH (sum + y) (if y <? mn then y else mn)
                  (if mx <? y then y else mx) Hl).
    destruct (fold_left _ l _) as [[sum' mn'] mx'].
    destruct IH as (I1 & I2 & I3 & I4 & I5 & I6 & I7);
      [lia | lia | destruct (y <? mn) eqn:E1; destruct (mx <? y) eqn:E2; lia |].
    cbn [sum_of fold_right]. fold (sum_of l).
    destruct (y <? mn) eqn:E1; destruct (mx <? y) eqn:E2;
      (split; [lia |]); (split; [lia |]); (split; [lia |]); (split; [lia |]);
      (split; [intros x [<- | Hx]; [lia | now apply I5] |]);
      (split; [destruct I6 as [-> | I6]; [| right; now right] |
               destruct I7 as [-> | I7]; [| right; now right]]);
      auto; try (right; now left).
Qed.

(** X11. calculateMemoryStats on any non-empty list of uint64 samples
    whose sum does not overflow a uint64: the minimum and maximum it stores are
    samples of the list and bound every sample, the average is the sum
    divided by the count rounded down, and it lies between the minimum
    and the maximum. *)
Theorem memory_statistics_bracket_the_mean (c : AggregatedContainerMetrics) :
  MemorySamples c <> [] ->
  Forall (fun x => 0 <= x) (MemorySamples c) ->
  sum_of (MemorySamples c) < 2 ^ 64 ->
  let c' := calculateMemoryStats c in
  (forall x, In x (MemorySamples c) -> MemoryMin c' <= x <= MemoryMax c')
  /\ In (MemoryMin c') (MemorySamples c)
  /\ In (MemoryMax c') (MemorySamples c)
  /\ MemoryAvg c' = sum_of (MemorySamples c) / Z.of_nat (length (MemorySamples c))
  /\ MemoryMin c' <= MemoryAvg c' <= MemoryMax c'.
Proof.
  intros Hne Hpos Hov. cbv zeta. unfold calculateMemoryStats.
  destruct (MemorySamples c) as [|y l] eqn:E; [congruence |].
  pose proof (mem_fold_spec (y :: l) 0 y y Hpos (Z.le_refl 0)) as H.
  unfold mem_fold.
  destruct (fold_left _ (y :: l) (0, y, y)) as [[sum mn] mx].
  destruct H as (I1 & I2 & I3 & I4 & I5 & I6 & I7); [lia | lia |].
  cbn [MemoryMin MemoryMax MemoryAvg MemorySamples].
  rewrite I1, Z.add_0_l.
  split; [exact I5 |].
  split; [destruct I6 as [-> | I6]; [now left | exact I6] |].
  split; [destruct I7 as [-> | I7]; [now left | exact I7] |].
  split; [reflexivity |].
  assert (Hn : 0 < Z.of_nat (length (y :: l))) by (cbn [length]; lia).
  assert (Hb : Z.of_nat (length (y :: l)) * mn <= sum_of (y :: l)
               <= Z.of_nat (length (y :: l)) * mx).
  { clear -I5. induction (y :: l) as [|z l' IH]; [cbn; lia |].
    cbn [length sum_of fold_right]. fold (sum_of l').
    assert (Hz := I5 z (or_introl eq_refl)).
    assert (IH' := IH (fun x Hx => I5 x (or_intror Hx))).
    rewrite Nat2Z.inj_succ. lia. }
  split.
  - apply Z.div_le_lower_bound; lia.
  - apply Z.div_le_upper_bound; lia.
Qed.

Lemma memory_statistics_bracket_the_mean_witness :
  MemoryAvg
    (calculateMemoryStats
       (set_MemorySamples [100; 300; 201]
          (started_record (snd (fst Scenarios.start_call))
             (snd Scenarios.start_call))))
  = sum_of [100; 300; 201] / 3.
Proof.
  refine (proj1 (proj2 (proj2 (proj2
    (memory_statistics_bracket_the_mean
       (set_MemorySamples [100; 300; 201]
          (started_record (snd (fst Scenarios.start_call))
             (snd Scenarios.start_call))) _ _ _))))).
  - discriminate.
  - repeat constructor; lia.
  - vm_compute. reflexivity.
Defined.

(** ** Aggregation ticks and cleanups *)

Lemma containerMetrics_performAggregation t a :
  containerMetrics (performAggregation t a)
  = if windowSize a <=? Sub (at_check t) (lastReset a)
    then containerMetrics (resetAggregationWindow t a)
    else containerMetrics a.
Proof.
  unfold performAggregation. cbv zeta.
  now destruct (windowSize a <=? Sub (at_check t) (lastReset a)).
Qed.

Lemma networkMetrics_performAggregation t a :
  networkMetrics (performAggregation t a)
  = if windowSize a <=? Sub (at_check t) (lastReset a)
    then networkMetrics (resetAggregationWindow t a)
    else networkMetrics a.
Proof.
  unfold performAggregation. cbv zeta.
  now destruct (windowSize a <=? Sub (at_check t) (lastReset a)).
Qed.

(** X12. Aggregation ticks and cleanups only ever remove records.  The
    container and network tables after either are sub-maps of the
    tables before, so a surviving record is unchanged and none is
    added; a cleanup keeps exactly the container records last updated
    at or after ten minutes before its clock reading; an aggregation
    tick whose window has not elapsed removes nothing and keeps the
    reset time; and the totals a tick publishes are counted after the
    removal: total containers is the number of records left and active
    containers lies between 0 and it. *)
Theorem ticks_only_drop_stale_records
    (t : tick) (now : Z) (a : MetricsAggregator) :
  containerMetrics (performAggregation t a) ⊆ containerMetrics a
  /\ networkMetrics (performAggregation t a) ⊆ networkMetrics a
  /\ containerMetrics (performCleanup now a) ⊆ containerMetrics a
  /\ networkMetrics (performCleanup now a) ⊆ networkMetrics a
  /\ (forall k c,
        containerMetrics (performCleanup now a) !! k = Some c
        <-> containerMetrics a !! k = Some c
            /\ now - 600 * 1000000000 <= LastUpdate c)
  /\ (Sub (at_check t) (lastReset a) < windowSize a ->
      containerMetrics (performAggregation t a) = containerMetrics a
      /\ networkMetrics (performAggregation t a) = networkMetrics a
      /\ lastReset (performAggregation t a) = lastReset a)
  /\ TotalContainers (systemMetrics (performAggregation t a))
     = Z.of_nat (size (containerMetrics (performAggregation t a)))
  /\ 0 <= ActiveContainers (systemMetrics (performAggregation t a))
       <= TotalContainers (systemMetrics (performAggregation t a)).
Proof.
  split; [| split; [| split; [| split; [| split; [| split; [| split]]]]]].
  - rewrite containerMetrics_performAggregation.
    destruct (_ <=? _); [apply map_filter_subseteq | reflexivity].
  - rewrite networkMetrics_performAggregation.
    destruct (_ <=? _); [apply map_filter_subseteq | reflexivity].
  - apply map_filter_subseteq.
  - apply map_filter_subseteq.
  - intros k c. unfold performCleanup. cbv zeta. cbn [containerMetrics].
    rewrite map_lookup_filter_Some. cbn [fst snd].
    change (10 * 60 * Config.Second) with (600 * 1000000000).
    split; intros [H1 H2]; (split; [exact H1 | lia]).
  - intros Hw. unfold performAggregation. cbv zeta.
    destruct (windowSize a <=? Sub (at_check t) (lastReset a)) eqn:E;
      [apply Z.leb_le in E; lia |].
    split; [reflexivity | split; reflexivity].
  - unfold performAggregation. cbv zeta. destruct (_ <=? _); reflexivity.
  - unfold performAggregation. cbv zeta.
    cbn [systemMetrics aggregateSystemMetrics ActiveContainers TotalContainers].
    split; [lia |]. apply inj_le, map_subseteq_size, map_filter_subseteq.
Qed.

Lemma ticks_only_drop_stale_records_witness :
  containerMetrics
    (performAggregation
       {| at_check := 10; at_container := fun _ => 10;
          at_network := fun _ => 10; at_reset := 10; at_system := 10 |}
       (run_calls [Scenarios.start_call] (new_aggregator 0)))
  = containerMetrics (run_calls [Scenarios.start_call] (new_aggregator 0)).
Proof.
  refine (proj1 (proj1 (proj2 (proj2 (proj2 (proj2 (proj2
    (ticks_only_drop_stale_records
       {| at_check := 10; at_container := fun _ => 10;
          at_network := fun _ => 10; at_reset := 10; at_system := 10 |}
       0 (run_calls [Scenarios.start_call] (new_aggregator 0)))))))) _)).
  vm_compute. reflexivity.
Defined.

Lemma Sub_le t u d : Sub t u <= d -> d < 2 ^ 63 - 1 -> - 2 ^ 63 <= d -> t - u <= d.
Proof. unfold Sub. lia. Qed.

(** X13. With the 60-second window of NewDataProcessor, a cleanup has
    nothing left to remove after an aggregation tick that reset the
    window: the reset only keeps records updated within the last two
    minutes, the cleanup removes records older than ten minutes, so a
    cleanup whose clock reading is at most eight minutes after the
    readings of the tick returns the aggregator unchanged. *)
Theorem cleanup_finds_nothing_after_a_window_reset
    (t : tick) (now : Z) (a : MetricsAggregator) :
  windowSize a = 60 * Config.Second ->
  windowSize a <= Sub (at_check t) (lastReset a) ->
  (forall k, now <= at_container t k + 8 * 60 * Config.Second) ->
  (forall k, now <= at_network t k + 8 * 60 * Config.Second) ->
  performCleanup now (performAggregation t a) = performAggregation t a.
Proof.
  intros Hw Hel Hc Hn.
  assert (E : (windowSize a <=? Sub (at_check t) (lastReset a)) = true)
    by now apply Z.leb_le.
  unfold performCleanup. cbv zeta.
  rewrite (map_filter_id _ (containerMetrics (performAggregation t a))).
  - rewrite (map_filter_id _ (networkMetrics (performAggregation t a)));
      [now destruct (performAggregation t a) |].
    intros k n. rewrite networkMetrics_performAggregation, E.
    cbn [networkMetrics resetAggregationWindow].
    intros H. apply map_lookup_filter_Some in H. destruct H as [_ H].
    cbn [fst snd] in *. rewrite Hw in H.
    change (wrap_i64 (60 * Config.Second * 2)) with 120000000000 in H.
    specialize (Hn k).
    change (8 * 60 * Config.Second) with 480000000000 in Hn.
    change (10 * 60 * Config.Second) with 600000000000.
    assert (Hs : at_network t k - NetLastUpdate n <= 120000000000)
      by (apply Sub_le; lia).
    lia.
  - intros k c. rewrite containerMetrics_performAggregation, E.
    cbn [containerMetrics resetAggregationWindow].
    intros H. apply map_lookup_filter_Some in H. destruct H as [_ H].
    cbn [fst snd] in *. rewrite Hw in H.
    change (wrap_i64 (60 * Config.Second * 2)) with 120000000000 in H.
    specialize (Hc k).
    change (8 * 60 * Config.Second) with 480000000000 in Hc.
    change (10 * 60 * Config.Second) with 600000000000.
    assert (Hs : at_container t k - LastUpdate c <= 120000000000)
      by (apply Sub_le; lia).
    lia.
Qed.

(** A tick 100 s after the aggregator was built. *)
Definition late_tick : tick :=
  {| at_check := 100000000000; at_container := fun _ => 100000000000;
     at_network := fun _ => 100000000000; at_reset := 100000000000;
     at_system := 100000000000 |}.

Lemma cleanup_finds_nothing_after_a_window_reset_witness :
  performCleanup 400000000000
    (performAggregation late_tick
       (run_calls [Scenarios.start_call] (new_aggregator 0)))
  = performAggregation late_tick
      (run_calls [Scenarios.start_call] (new_aggregator 0)).
Proof.
  apply cleanup_finds_nothing_after_a_window_reset.
  - reflexivity.
  - vm_compute. intros H. discriminate H.
  - intros k. vm_compute. intros H. discriminate H.
  - intros k. vm_compute. intros H. discriminate H.
Defined.

(** ** Restarting the processor *)

Lemma run_switch_cancelled p s :
  cancelled p = true -> cancelled (run_switch p s) = true.
Proof.
  intros H. destruct s; cbn [run_switch]; unfold Start, Stop;
    destruct (running p); cbn; auto.
Qed.

(** X14. The processor cannot be restarted.  Its context is created
    once, in NewDataProcessor, and Stop on a running processor cancels
    it; from then on it stays cancelled through any sequence of Start
    and Stop.  A Start after that Stop still succeeds: it reports no
    error, sets running and spawns the three worker goroutines, which
    find their context already cancelled. *)
Theorem restart_runs_on_a_cancelled_context
    (p : DataProcessor) (l : list switch) :
  running p = true ->
  let stopped := fst (fst (Stop p)) in
  running stopped = false
  /\ cancelled (run_switches l stopped) = true
  /\ Start stopped
     = ({| running := true; cancelled := true; aggregator := aggregator p;
           eventHandlers := eventHandlers p |},
        [Spawned "processEvents"; Spawned "aggregateMetrics";
         Spawned "cleanup"; Logged "数据处理引擎已启动"],
        None).
Proof.
  intros Hr. cbv zeta. unfold Stop at 1 2 3. rewrite Hr. cbn [negb fst].
  split; [reflexivity |]. split; [| reflexivity].
  set (q := {| running := false; cancelled := true;
               aggregator := aggregator p;
               eventHandlers := eventHandlers p |}).
  assert (Hq : cancelled q = true) by reflexivity.
  clearbody q. revert q Hq.
  induction l as [|s l IH]; intros q Hq; [exact Hq |].
  apply (IH (run_switch q s)). now apply run_switch_cancelled.
Qed.

Lemma restart_runs_on_a_cancelled_context_witness :
  cancelled
    (run_switches [SwitchOn; SwitchOff; SwitchOn]
       (fst (fst (Stop (fst (fst (Start (NewDataProcessor 0))))))))
  = true.
Proof.
  exact (proj1 (proj2 (restart_runs_on_a_cancelled_context
                         (fst (fst (Start (NewDataProcessor 0))))
                         [SwitchOn; SwitchOff; SwitchOn] eq_refl))).
Defined.

End AggregationProofs.

(** * More properties of the monitor *)

Module TelemetryProofs.

Import GoFmt GoStrings Ebpf Agent Telemetry.
Local Open Scope string_scope.
Local Open Scope list_scope.
Local Open Scope Z_scope.

(** ** From the kernel table to the reported metrics *)





(** ** Start, Stop and the resources they hold *)

Lemma attach_one_fields attach pn hn m :
  let r := attach_one attach pn hn m in
  coll (fst r) = coll m /\ running (fst r) = running m
  /\ processor (fst r) = processor m /\ metrics (fst r) = metrics m.
Proof.
  cbv zeta. unfold attach_one. destruct (coll m) as [c|] eqn:E;
    [| cbn [fst]; tauto].
  destruct (Programs c !! pn) as [prog|]; [| cbn [fst]; tauto].
  destruct (attach prog); cbn; tauto.
Qed.

Lemma and_then_fields (r : Monitor * outcome) k m0 :
  (coll (fst r) = coll m0 /\ running (fst r) = running m0
   /\ processor (fst r) = processor m0 /\ metrics (fst r) = metrics m0) ->
  (forall m, coll (fst (k m)) = coll m /\ running (fst (k m)) = running m
             /\ processor (fst (k m)) = processor m
             /\ metrics (fst (k m)) = metrics m) ->
  coll (fst (and_then r k)) = coll m0
  /\ running (fst (and_then r k)) = running m0
  /\ processor (fst (and_then r k)) = processor m0
  /\ metrics (fst (and_then r k)) = metrics m0.
Proof.
  intros Hr Hk. destruct r as [m o]. destruct o; cbn [and_then]; try exact Hr.
  cbn [fst] in Hr. destruct (Hk m) as (K1 & K2 & K3 & K4).
  destruct Hr as (R1 & R2 & R3 & R4). repeat split; congruence.
Qed.

Lemma attachPrograms_fields env m :
  coll (fst (attachPrograms env m)) = coll m
  /\ running (fst (attachPrograms env m)) = running m
  /\ processor (fst (attachPrograms env m)) = processor m
  /\ metrics (fst (attachPrograms env m)) = metrics m.
Proof.
  unfold attachPrograms, attachContainerTracing, attachNetworkMonitoring.
  repeat (apply and_then_fields; [| intros ?]);
    apply attach_one_fields.
Qed.

Lemma loadPrograms_fields env m :
  running (fst (loadPrograms env m)) = running m
  /\ processor (fst (loadPrograms env m)) = processor m
  /\ metrics (fst (loadPrograms env m)) = metrics m
  /\ links (fst (loadPrograms env m)) = links m
  /\ (snd (loadPrograms env m) <> Done ->
      coll (fst (loadPrograms env m)) = coll m).
Proof.
  unfold loadPrograms. cbv zeta. destruct (NewCollection env _); cbn; tauto.
Qed.

(** X16. Neither a failed Start nor a Stop leaves anything attached.
    If Start is called on a monitor that holds no link and no
    collection and returns an error, whichever step failed (loading,
    an attachment, the processor), the monitor it leaves is not
    running and holds no link and no collection.  Stop on a running
    monitor always returns nil, closes every link the monitor held, in
    order, and then the collection, leaves the monitor not running
    with no link and no collection, and keeps the metrics pointer, so
    GetMetrics still answers after Stop. *)
Theorem nothing_stays_attached (env : Env) (m : Monitor) :
  (running m = false -> links m = [] -> coll m = None ->
   forall m' effs e,
     Start env m = (m', effs, Failed e) ->
     running m' = false /\ links m' = [] /\ coll m' = None)
  /\ (running m = true ->
      exists m' before,
        Stop m
        = (m',
           before ++ map LinkClosed (links m)
           ++ match coll m with Some c => [CollectionClosed c] | None => [] end,
           Done)
        /\ running m' = false /\ links m' = [] /\ coll m' = None
        /\ metrics m' = metrics m
        /\ (forall e, In e before ->
            e = ContextCancelled \/ exists msg, e = Logged msg)).
Proof.
  split.
  - intros Hr Hl Hc m' effs e. unfold Start. rewrite Hr.
    destruct (loadPrograms_fields env m) as (L1 & L2 & L3 & L4 & L5).
    destruct (loadPrograms env m) as [m1 o1] eqn:El. cbn [fst snd] in *.
    destruct o1 as [| e1 |].
    + destruct (attachPrograms_fields env m1) as (A1 & A2 & A3 & A4).
      destruct (attachPrograms env m1) as [m2 o2] eqn:Ea. cbn [fst] in *.
      destruct o2 as [| e2 |].
      * destruct (processor m2) as [p|]; [| discriminate].
        destruct (Processor.Start p) as [[p' effs'] [err|]]; [| discriminate].
        cbn [cleanup set_processor]. intros [= <- _ _]. cbn.
        split; [congruence | tauto].
      * cbn [cleanup]. intros [= <- _ _]. cbn. split; [congruence | tauto].
      * discriminate.
    + intros [= <- _ _]. rewrite L1, L4, L5 by discriminate. tauto.
    + discriminate.
  - intros Hr. unfold Stop. rewrite Hr. cbn [negb].
    destruct (processor m) as [p|].
    + unfold Processor.Stop. destruct (Processor.running p); cbn [negb].
      * eexists _, _. cbn [cleanup set_processor links coll].
        split; [reflexivity |]. cbn.
        split; [reflexivity |]. split; [reflexivity |].
        split; [reflexivity |]. split; [reflexivity |].
        intros e [<- | [<- | []]]; [now left | right; eauto].
      * eexists _, []. cbn [cleanup set_processor links coll app].
        split; [reflexivity |]. cbn.
        split; [reflexivity |]. split; [reflexivity |].
        split; [reflexivity |]. split; [reflexivity |]. intros e [].
    + eexists _, []. cbn [cleanup links coll app].
      split; [reflexivity |]. cbn.
      split; [reflexivity |]. split; [reflexivity |].
      split; [reflexivity |]. split; [reflexivity |]. intros e [].
Qed.

Lemma nothing_stays_attached_witness :
  (links (fst (fst (Start MoreScenarios.no_tracepoint_env
                      Scenarios.stopped_monitor))) = []
   /\ coll (fst (fst (Start MoreScenarios.no_tracepoint_env
                        Scenarios.stopped_monitor))) = None)
  /\ links (fst (fst (Stop MoreScenarios.started_monitor))) = [].
Proof.
  split.
  - assert (E : exists m' effs e,
               Start MoreScenarios.no_tracepoint_env Scenarios.stopped_monitor
               = (m', effs, Failed e))
      by (eexists _, _, _; vm_compute; reflexivity).
    destruct E as (m' & effs & e & E). rewrite E. cbn [fst].
    exact (proj2 (proj1 (nothing_stays_attached MoreScenarios.no_tracepoint_env
                           Scenarios.stopped_monitor)
                    eq_refl eq_refl eq_refl m' effs e E)).
  - destruct (proj2 (nothing_stays_attached Scenarios.dev_env
                       MoreScenarios.started_monitor)
                ltac:(vm_compute; reflexivity))
      as (m' & before & -> & _ & H & _).
    exact H.
Defined.

(** X17. A monitor that was stopped can be started again, but its data
    processor cannot: Stop cancels the processor's only context, and
    the next successful Start of the monitor starts the same processor
    again without a new one.  So after Stop and a Start that reports
    success the monitor is running and its processor is marked running,
    with a context that is already cancelled. *)
Theorem restarted_monitor_has_a_cancelled_processor
    (env : Env) (m : Monitor) (p : Processor.DataProcessor) :
  running m = true ->
  processor m = Some p ->
  Processor.running p = true ->
  forall m2 effs,
    Start env (fst (fst (Stop m))) = (m2, effs, Done) ->
    running m2 = true
    /\ exists p2,
         processor m2 = Some p2
         /\ Processor.running p2 = true
         /\ Processor.cancelled p2 = true.
Proof.
  intros Hr Hp Hpr m2 effs.
  assert (Hstop : exists m1,
             fst (fst (Stop m)) = m1 /\ running m1 = false
             /\ processor m1
                = Some {| Processor.running := false;
                          Processor.cancelled := true;
                          Processor.aggregator := Processor.aggregator p;
                          Processor.eventHandlers :=
                            Processor.eventHandlers p |}).
  { eexists. split; [reflexivity |]. unfold Stop. rewrite Hr, Hp.
    cbn [negb]. unfold Processor.Stop. rewrite Hpr. cbn. auto. }
  destruct Hstop as (m1 & -> & Hr1 & Hp1).
  unfold Start. rewrite Hr1.
  destruct (loadPrograms_fields env m1) as (L1 & L2 & L3 & L4 & L5).
  destruct (loadPrograms env m1) as [ma oa]. cbn [fst snd] in *.
  destruct oa; try discriminate.
  destruct (attachPrograms_fields env ma) as (A1 & A2 & A3 & A4).
  destruct (attachPrograms env ma) as [mb ob]. cbn [fst] in *.
  destruct ob as [| e |]; try discriminate.
  rewrite A3, L2, Hp1. unfold Processor.Start. cbn [Processor.running].
  intros [= <- _]. cbn. split; [reflexivity |]. eexists.
  split; [reflexivity |]. cbn. auto.
Qed.

Lemma restarted_monitor_has_a_cancelled_processor_witness :
  exists p2,
    processor
      (fst (fst (Start Scenarios.dev_env
                   (fst (fst (Stop MoreScenarios.started_monitor))))))
    = Some p2
    /\ Processor.cancelled p2 = true.
Proof.
  assert (E : exists m2 effs,
             Start Scenarios.dev_env
               (fst (fst (Stop MoreScenarios.started_monitor)))
             = (m2, effs, Done))
    by (eexists _, _; vm_compute; reflexivity).
  destruct E as (m2 & effs & E). rewrite E. cbn [fst].
  assert (H : running m2 = true
              /\ exists p2, processor m2 = Some p2
                            /\ Processor.running p2 = true
                            /\ Processor.cancelled p2 = true).
  { apply (restarted_monitor_has_a_cancelled_processor Scenarios.dev_env
             MoreScenarios.started_monitor
             (fst (fst (Processor.Start (Processor.NewDataProcessor 0))))
             ltac:(vm_compute; reflexivity) ltac:(vm_compute; reflexivity)
             ltac:(vm_compute; reflexivity) m2 effs E). }
  destruct H as (_ & p2 & H1 & _ & H2).
  exists p2. split; assumption.
Defined.

(** ** updateMetrics *)

(** The records updateMetrics installs, given the ones it found. *)
Definition refreshed (mock1 mock2 : Z) (c : Collection) (k : KernelView)
    (old : list ContainerMetric) : list ContainerMetric :=
  match readContainerMetrics c k with
  | inl containers => containers
  | inr _ =>
      match old with
      | [] => generateMockContainers mock1 mock2
      | _ => old
      end
  end.

Lemma new_slice_spec h l :
  let '(h', s) := new_slice h l in
  structs h' = structs h
  /\ slice_elems h' s = Some l
  /\ (forall b, b ∈ dom (arrays h) -> arrays h' !! b = arrays h !! b).
Proof.
  unfold new_slice. destruct l as [|x l]; [cbn; auto |].
  cbn [structs]. split; [reflexivity |]. split.
  - unfold slice_elems. cbn [sl_array sl_offset sl_len arrays].
    rewrite lookup_insert_eq. cbn [drop skipn]. rewrite Nat.leb_refl.
    now rewrite firstn_all.
  - intros b Hb. cbn [arrays]. apply lookup_insert_ne.
    intros <-. now apply (is_fresh (dom (arrays h))).
Qed.

(** What one update does to the heap. *)
Lemma updateMetrics_heap now mock1 mock2 k m h mp c cur old :
  metrics m = Some mp -> coll m = Some c ->
  structs h !! mp = Some cur ->
  slice_elems h (Containers cur) = Some old ->
  exists h' s,
    updateMetrics now mock1 mock2 k m h = Some h'
    /\ structs h'
       = <[mp := {| Containers := s; SystemMemory := SystemMemory cur;
                    EBPFMapsCount := Z.of_nat (size (Maps c));
                    LastUpdate := now |}]> (structs h)
    /\ slice_elems h' s = Some (refreshed mock1 mock2 c k old)
    /\ (forall b, b ∈ dom (arrays h) -> arrays h' !! b = arrays h !! b).
Proof.
  intros Hm Hc Hcur Hold. unfold updateMetrics, refreshed.
  rewrite Hm, Hcur, Hc. cbv zeta.
  pose proof (AgentProofs.slice_elems_length _ _ _ Hold) as Hlen.
  destruct (readContainerMetrics c k) as [containers | err].
  - pose proof (new_slice_spec h containers) as Hn.
    destruct (new_slice h containers) as [h1 s].
    destruct Hn as (N1 & N2 & N3).
    exists (set_struct mp
              {| Containers := s; SystemMemory := SystemMemory cur;
                 EBPFMapsCount := Z.of_nat (size (Maps c));
                 LastUpdate := now |} h1), s.
    split; [reflexivity |]. cbn [set_struct structs arrays]. rewrite N1.
    split; [reflexivity |]. split; [| exact N3].
    rewrite <- N2. now apply AgentProofs.slice_elems_agree.
  - cbn [Containers sl_len]. destruct old as [|x old].
    + cbn [length] in Hlen. rewrite <- Hlen. cbn [Nat.eqb].
      pose proof (new_slice_spec h (generateMockContainers mock1 mock2)) as Hn.
      destruct (new_slice h (generateMockContainers mock1 mock2)) as [h1 s].
      destruct Hn as (N1 & N2 & N3).
      exists (set_struct mp
                {| Containers := s; SystemMemory := SystemMemory cur;
                   EBPFMapsCount := Z.of_nat (size (Maps c));
                   LastUpdate := now |} h1), s.
      split; [reflexivity |]. cbn [set_struct structs arrays]. rewrite N1.
      split; [reflexivity |]. split; [| exact N3].
      rewrite <- N2. now apply AgentProofs.slice_elems_agree.
    + cbn [length] in Hlen. rewrite <- Hlen. cbn [Nat.eqb].
      exists (set_struct mp
                {| Containers := Containers cur;
                   SystemMemory := SystemMemory cur;
                   EBPFMapsCount := Z.of_nat (size (Maps c));
                   LastUpdate := now |} h), (Containers cur).
      split; [reflexivity |]. cbn [set_struct structs arrays].
      split; [reflexivity |]. split; [| reflexivity].
      rewrite <- Hold. now apply AgentProofs.slice_elems_agree.
Qed.

(** X18. What one updateMetrics tick leaves in the monitor's metrics.
    The time of the last update and the map count are refreshed in
    every case, and the system memory counter is never written.  The
    container records become the ones read from the kernel when the
    read succeeds (none, if the table is empty); when the read fails
    they become the two mock containers if there were no records, and
    otherwise stay the stale ones, under the refreshed update time. *)
Theorem updateMetrics_refreshes_or_keeps
    (now mock1 mock2 : Z) (k : KernelView) (m : Monitor) (h : heap)
    (mp : loc) (c : Collection) (systemMemory mapsCount lastUpdate : Z)
    (old : list ContainerMetric) :
  metrics m = Some mp ->
  coll m = Some c ->
  view h mp = Some (systemMemory, mapsCount, lastUpdate, old) ->
  exists h',
    updateMetrics now mock1 mock2 k m h = Some h'
    /\ view h' mp
       = Some (systemMemory, Z.of_nat (size (Maps c)), now,
               match readContainerMetrics c k with
               | inl containers => containers
               | inr _ =>
                   match old with
                   | [] => generateMockContainers mock1 mock2
                   | _ => old
                   end
               end).
Proof.
  intros Hm Hc Hv. unfold view in Hv.
  destruct (structs h !! mp) as [cur|] eqn:Hcur; [| discriminate Hv].
  destruct (slice_elems h (Containers cur)) as [elems|] eqn:Hel;
    [| discriminate Hv].
  injection Hv as <- <- <- <-.
  destruct (updateMetrics_heap now mock1 mock2 k m h mp c cur elems
              Hm Hc Hcur Hel) as (h' & s & Hu & Hst & Hs & _).
  exists h'. split; [exact Hu |].
  unfold view. rewrite Hst, lookup_insert_eq. cbn [Containers]. rewrite Hs.
  reflexivity.
Qed.

(** A failing read on a monitor that already shows one container: the
    stale record stays, the update time moves. *)
Lemma updateMetrics_refreshes_or_keeps_witness :
  exists h',
    updateMetrics 1700000100 0 0 MoreScenarios.failing_view
      MoreScenarios.collecting_monitor Scenarios.one_container_heap = Some h'
    /\ view h' 1%positive
       = Some (0, 9, 1700000100, [Scenarios.web_server]).
Proof.
  destruct (updateMetrics_refreshes_or_keeps 1700000100 0 0
              MoreScenarios.failing_view MoreScenarios.collecting_monitor
              Scenarios.one_container_heap 1%positive
              MoreScenarios.fallback_collection 0 9 1700000000
              [Scenarios.web_server] eq_refl eq_refl
              ltac:(vm_compute; reflexivity)) as (h' & H1 & H2).
  exists h'. split; [exact H1 |]. rewrite H2. vm_compute. reflexivity.
Defined.

Lemma updateMetrics_inv now mock1 mock2 k m h h' :
  updateMetrics now mock1 mock2 k m h = Some h' ->
  exists mp cur c,
    metrics m = Some mp /\ structs h !! mp = Some cur /\ coll m = Some c.
Proof.
  unfold updateMetrics. destruct (metrics m) as [mp|]; [| discriminate].
  destruct (structs h !! mp) as [cur|] eqn:E; [| discriminate].
  destruct (coll m) as [c|]; [| discriminate].
  intros _. exists mp, cur, c. auto.
Qed.

(** X19. A snapshot is not touched by later updates.  When GetMetrics
    has returned a pointer and updateMetrics then runs, whatever the
    kernel shows and whether or not the read succeeds, the value behind
    the returned pointer shows the same scalars and the same container
    records as when it was returned. *)
Theorem snapshots_survive_updates
    (now mock1 mock2 : Z) (k : KernelView) (m : Monitor)
    (h h1 h2 : heap) (p : loc) :
  GetMetrics m h = Some (h1, p) ->
  updateMetrics now mock1 mock2 k m h1 = Some h2 ->
  view h2 p = view h1 p
  /\ exists mp, metrics m = Some mp /\ view h1 p = view h mp.
Proof.
  intros Hg Hu.
  destruct (AgentProofs.GetMetrics_heap _ _ _ _ Hg)
    as (mp & cur & elems & Hm & Hcur & Hel & Hp & Harr & Hst).
  destruct (AgentProofs.GetMetrics_view _ _ _ _ Hg) as (mp' & Hm' & _ & Hview).
  assert (mp' = mp) as -> by congruence.
  split; [| exists mp; split; assumption].
  assert (Hne : mp <> p).
  { intros ->. apply (is_fresh (dom (structs h))). rewrite <- Hp.
    apply elem_of_dom. eauto. }
  destruct (updateMetrics_inv _ _ _ _ _ _ _ Hu) as (mp2 & cur2 & c & Hm2 & _ & Hc).
  assert (mp2 = mp) as -> by congruence.
  assert (Hcur1 : structs h1 !! mp = Some cur)
    by (rewrite Hst, lookup_insert_ne by congruence; exact Hcur).
  assert (Hel1 : slice_elems h1 (Containers cur) = Some elems).
  { rewrite <- Hel. apply AgentProofs.slice_elems_agree. intros a Ha.
    rewrite Harr. apply lookup_insert_ne. intros <-.
    apply (is_fresh (dom (arrays h))).
    eapply AgentProofs.slice_elems_allocated; eassumption. }
  destruct (updateMetrics_heap now mock1 mock2 k m h1 mp c cur elems
              Hm Hc Hcur1 Hel1) as (h' & s & Hu' & Hst' & _ & Hframe).
  assert (h' = h2) as -> by congruence.
  unfold view. rewrite Hst', lookup_insert_ne by assumption.
  destruct (structs h1 !! p) as [v|] eqn:Ev; [| reflexivity].
  rewrite (AgentProofs.slice_elems_agree h1 h2); [reflexivity |].
  intros a Ha. apply Hframe.
  rewrite Hst, lookup_insert_eq in Ev. injection Ev as <-.
  cbn [Containers sl_array] in Ha. injection Ha as <-.
  rewrite Harr. apply elem_of_dom. rewrite lookup_insert_eq. eauto.
Qed.

Lemma snapshots_survive_updates_witness :
  exists h1 p h2,
    GetMetrics MoreScenarios.collecting_monitor Scenarios.one_container_heap
      = Some (h1, p)
    /\ updateMetrics 1700000100 0 0 MoreScenarios.view_after_clone
         MoreScenarios.collecting_monitor h1 = Some h2
    /\ view h2 p = view h1 p.
Proof.
  assert (E : exists h1 p h2,
             GetMetrics MoreScenarios.collecting_monitor
               Scenarios.one_container_heap = Some (h1, p)
             /\ updateMetrics 1700000100 0 0 MoreScenarios.view_after_clone
                  MoreScenarios.collecting_monitor h1 = Some h2)
    by (eexists _, _, _; split; vm_compute; reflexivity).
  destruct E as (h1 & p & h2 & E1 & E2).
  exists h1, p, h2. split; [exact E1 |]. split; [exact E2 |].
  exact (proj1 (snapshots_survive_updates _ _ _ _ _ _ _ _ _ E1 E2)).
Defined.

(** ** The network roll-up *)

(** The flows of one cgroup, in iteration order, and a sum over them. *)
Definition flows_of (cgroupID : Z) (flows : list (FlowKey * FlowStats))
    : list (FlowKey * FlowStats) :=
  List.filter (fun e => CgroupID (fst e) =? cgroupID) flows.

Definition total (f : FlowStats -> Z) (flows : list (FlowKey * FlowStats)) : Z :=
  fold_right (fun e acc => f (snd e) + acc) 0 flows.

Lemma fold_flow_other cg acc e :
  (CgroupID (fst e) =? cg) = false -> fold_flow cg acc e = acc.
Proof. destruct e as [key stats]. unfold fold_flow. cbn [fst]. now intros ->. Qed.

Lemma fold_flows_of cg flows : forall acc,
  fold_left (fold_flow cg) flows acc
  = fold_left (fold_flow cg) (flows_of cg flows) acc.
Proof.
  induction flows as [|e flows IH]; intros acc; [reflexivity |].
  cbn [fold_left flows_of List.filter].
  destruct (CgroupID (fst e) =? cg) eqn:E.
  - cbn [fold_left]. apply IH.
  - rewrite fold_flow_other by assumption. apply IH.
Qed.

Lemma flows_of_idem cg flows :
  flows_of cg (flows_of cg flows) = flows_of cg flows.
Proof.
  induction flows as [|e flows IH]; [reflexivity |].
  cbn [flows_of List.filter]. destruct (CgroupID (fst e) =? cg) eqn:E;
    [| exact IH].
  cbn [List.filter]. rewrite E. f_equal. exact IH.
Qed.

Lemma wrap_add_l m a b : (a mod m + b) mod m = (a + b) mod m.
Proof. apply Zplus_mod_idemp_l. Qed.

Lemma fold_counters cg flows : forall acc,
  Forall (fun e => (CgroupID (fst e) =? cg) = true) flows ->
  wrap64 (TotalPackets (fold_left (fold_flow cg) flows acc))
    = wrap64 (TotalPackets acc + total Packets flows)
  /\ wrap64 (TotalBytes (fold_left (fold_flow cg) flows acc))
     = wrap64 (TotalBytes acc + total Bytes flows)
  /\ wrap32 (NetTCPRetransmits (fold_left (fold_flow cg) flows acc))
     = wrap32 (NetTCPRetransmits acc + total FlowTCPRetransmits flows).
Proof.
  induction flows as [|[key stats] flows IH]; intros acc Hall.
  - cbn. now rewrite !Z.add_0_r.
  - inversion Hall as [|? ? He Hrest]; subst. cbn [fst] in He.
    cbn [fold_left]. destruct (IH (fold_flow cg acc (key, stats)) Hrest)
      as (I1 & I2 & I3).
    rewrite I1, I2, I3. unfold fold_flow. rewrite He.
    cbn [TotalPackets TotalBytes NetTCPRetransmits total fold_right snd].
    fold (total Packets flows) (total Bytes flows)
      (total FlowTCPRetransmits flows).
    unfold wrap64, wrap32. rewrite !wrap_add_l.
    split; [f_equal; lia | split; f_equal; lia].
Qed.

Lemma fold_in_range cg flows : forall acc,
  wrap64 (TotalPackets acc) = TotalPackets acc ->
  wrap64 (TotalBytes acc) = TotalBytes acc ->
  wrap32 (NetTCPRetransmits acc) = NetTCPRetransmits acc ->
  let r := fold_left (fold_flow cg) flows acc in
  wrap64 (TotalPackets r) = TotalPackets r
  /\ wrap64 (TotalBytes r) = TotalBytes r
  /\ wrap32 (NetTCPRetransmits r) = NetTCPRetransmits r.
Proof.
  induction flows as [|[key stats] flows IH]; intros acc H1 H2 H3;
    [cbn; auto |].
  cbn [fold_left]. apply IH; unfold fold_flow;
    destruct (CgroupID key =? cg); cbn; auto;
    unfold wrap64, wrap32; apply Z.mod_mod; lia.
Qed.

Lemma total_Permutation f l l' : l ≡ₚ l' -> total f l = total f l'.
Proof.
  induction 1 as [| x l l' _ IH | x y l | l l' l'' _ IH1 _ IH2]; cbn.
  - reflexivity.
  - fold (total f l) (total f l'). lia.
  - lia.
  - congruence.
Qed.

Lemma flows_of_Permutation cg l l' :
  l ≡ₚ l' -> flows_of cg l ≡ₚ flows_of cg l'.
Proof.
  induction 1 as [| x l l' _ IH | x y l | l l' l'' _ IH1 _ IH2];
    cbn [flows_of List.filter].
  - reflexivity.
  - destruct (_ =? _); [now constructor | assumption].
  - destruct (CgroupID (fst x) =? cg), (CgroupID (fst y) =? cg);
      try reflexivity. apply perm_swap.
  - etransitivity; eassumption.
Qed.

Definition counters (n : NetworkMetrics) : Z * Z * Z :=
  (TotalPackets n, TotalBytes n, NetTCPRetransmits n).

Lemma counters_spec cg flows :
  counters (calculateNetworkMetrics cg flows)
  = (wrap64 (total Packets (flows_of cg flows)),
     wrap64 (total Bytes (flows_of cg flows)),
     wrap32 (total FlowTCPRetransmits (flows_of cg flows))).
Proof.
  unfold calculateNetworkMetrics, counters. rewrite fold_flows_of.
  set (zero := {| AvgLatency := 0; NetTCPRetransmits := 0;
                  TotalPackets := 0; TotalBytes := 0 |}).
  assert (Hall : Forall (fun e => (CgroupID (fst e) =? cg) = true)
                   (flows_of cg flows)).
  { apply List.Forall_forall. intros e He.
    now apply List.filter_In in He. }
  destruct (fold_counters cg (flows_of cg flows) zero Hall) as (C1 & C2 & C3).
  destruct (fold_in_range cg (flows_of cg flows) zero
              eq_refl eq_refl eq_refl) as (R1 & R2 & R3).
  rewrite <- R1, <- R2, <- R3, C1, C2, C3. reflexivity.
Qed.

(** X20. The counters of calculateNetworkMetrics.  The result depends
    only on the flow-table entries whose key carries the cgroup id
    asked for; with no such entry every field is zero.  The packet and
    byte totals are the sums over those entries modulo 2^64 and the
    retransmit count is the sum modulo 2^32, so, unlike the latency,
    the three counters do not depend on the order in which the map
    iterator yields the entries. *)
Theorem network_counters_are_sums
    (cgroupID : Z) (flows : list (FlowKey * FlowStats)) :
  calculateNetworkMetrics cgroupID flows
    = calculateNetworkMetrics cgroupID (flows_of cgroupID flows)
  /\ (flows_of cgroupID flows = [] ->
      calculateNetworkMetrics cgroupID flows
      = {| AvgLatency := 0; NetTCPRetransmits := 0; TotalPackets := 0;
           TotalBytes := 0 |})
  /\ TotalPackets (calculateNetworkMetrics cgroupID flows)
     = wrap64 (total Packets (flows_of cgroupID flows))
  /\ TotalBytes (calculateNetworkMetrics cgroupID flows)
     = wrap64 (total Bytes (flows_of cgroupID flows))
  /\ NetTCPRetransmits (calculateNetworkMetrics cgroupID flows)
     = wrap32 (total FlowTCPRetransmits (flows_of cgroupID flows))
  /\ forall flows',
       flows ≡ₚ flows' ->
       counters (calculateNetworkMetrics cgroupID flows')
       = counters (calculateNetworkMetrics cgroupID flows).
Proof.
  pose proof (counters_spec cgroupID flows) as Hc.
  unfold counters in Hc. injection Hc as H1 H2 H3.
  split; [| split; [| split; [| split; [| split]]]]; try assumption.
  - unfold calculateNetworkMetrics at 1 2.
    rewrite fold_flows_of. symmetry. rewrite fold_flows_of.
    now rewrite flows_of_idem.
  - intros Hnone. unfold calculateNetworkMetrics. rewrite fold_flows_of, Hnone.
    reflexivity.
  - intros flows' Hperm. rewrite !counters_spec.
    pose proof (flows_of_Permutation cgroupID _ _ Hperm) as Hp.
    now rewrite !(total_Permutation _ _ _ Hp).
Qed.

(** No flow of the scenario belongs to cgroup 5. *)
Lemma network_counters_are_sums_witness :
  calculateNetworkMetrics 5 Scenarios.three_flows
  = {| AvgLatency := 0; NetTCPRetransmits := 0; TotalPackets := 0;
       TotalBytes := 0 |}.
Proof.
  exact (proj1 (proj2 (network_counters_are_sums 5 Scenarios.three_flows))
           eq_refl).
Defined.

End TelemetryProofs.

(** * More properties of the configuration loader *)

Module ConfigLoadProofs.

Import Config.
Local Open Scope string_scope.
Local Open Scope list_scope.
Local Open Scope Z_scope.

Lemma leb_false_eqb_false x y :
  PrimFloat.leb x y = false -> PrimFloat.eqb x y = false.
Proof.
  rewrite FloatAxioms.leb_spec, FloatAxioms.eqb_spec.
  unfold SFleb, SFeqb. destruct (SFcompare _ _) as [[]|]; congruence.
Qed.

(** What Validate has checked when it returns nil. *)
Lemma Validate_None c :
  Validate c = None ->
  Targets (Monitoring c) <> []
  /\ validate_targets 0 (Targets (Monitoring c)) = None
  /\ PrimFloat.leb (CPU (Thresholds (Monitoring c))) 0 = false
  /\ PrimFloat.ltb 100 (CPU (Thresholds (Monitoring c))) = false
  /\ PrimFloat.leb (Memory (Thresholds (Monitoring c))) 0 = false
  /\ PrimFloat.ltb 100 (Memory (Thresholds (Monitoring c))) = false
  /\ PrimFloat.leb (NetworkLatency (Thresholds (Monitoring c))) 0 = false.
Proof.
  unfold Validate. destruct (Targets (Monitoring c)) as [|t ts] eqn:Et;
    [discriminate |].
  cbn [length Nat.eqb]. rewrite <- Et.
  destruct (validate_targets 0 (Targets (Monitoring c))); [discriminate |].
  cbv zeta.
  destruct (PrimFloat.leb (CPU _) 0); [discriminate |].
  destruct (PrimFloat.ltb 100 (CPU _)); [discriminate |].
  destruct (PrimFloat.leb (Memory _) 0); [discriminate |].
  destruct (PrimFloat.ltb 100 (Memory _)); [discriminate |].
  destruct (PrimFloat.leb (NetworkLatency _) 0); [discriminate |].
  intros _. rewrite Et. repeat split; auto; discriminate.
Qed.

Lemma validate_target_None i t :
  validate_target i t = None ->
  Name t <> "" /\ Runtime t <> "" /\ validRuntimes (Runtime t) = true
  /\ Second <= SamplingRate t.
Proof.
  unfold validate_target.
  destruct (String.eqb (Name t) "") eqn:E1; [discriminate |].
  destruct (String.eqb (Runtime t) "") eqn:E2; [discriminate |].
  destruct (validRuntimes (Runtime t)); [| discriminate].
  destruct (SamplingRate t <? Second) eqn:E4; [discriminate |].
  intros _. apply String.eqb_neq in E1, E2. apply Z.ltb_ge in E4. auto.
Qed.

Lemma validate_target_index i j t :
  validate_target i t = None -> validate_target j t = None.
Proof.
  unfold validate_target.
  destruct (String.eqb (Name t) ""); [discriminate |].
  destruct (String.eqb (Runtime t) ""); [discriminate |].
  destruct (negb (validRuntimes (Runtime t))); [discriminate |].
  destruct (SamplingRate t <? Second); [discriminate | reflexivity].
Qed.

Lemma validate_targets_None targets : forall i,
  validate_targets i targets = None <->
  Forall (fun t => validate_target 0 t = None) targets.
Proof.
  induction targets as [|t ts IH]; intros i; cbn [validate_targets].
  - split; [constructor | reflexivity].
  - destruct (validate_target i t) eqn:E.
    + split; [discriminate |]. intros H. inversion H as [|? ? H0 _]; subst.
      apply (validate_target_index 0 i) in H0. congruence.
    + rewrite IH. split.
      * intros H. constructor; [| assumption].
        now apply (validate_target_index i 0).
      * intros H. now inversion H.
Qed.

Lemma default_target_valid t :
  validate_target 0 t = None ->
  validate_target 0 (default_target t) = None
  /\ default_target (default_target t) = default_target t
  /\ Metrics (default_target t) <> []
  /\ SamplingRate (default_target t) = SamplingRate t
  /\ Name (default_target t) = Name t
  /\ Runtime (default_target t) = Runtime t.
Proof.
  intros H. pose proof (validate_target_None 0 t H) as (_ & _ & _ & Hs).
  assert (Hr : (SamplingRate t =? 0) = false)
    by (apply Z.eqb_neq; unfold Second, Millisecond in Hs; lia).
  assert (Hm : Metrics (default_target t) <> []
               /\ (length (Metrics (default_target t)) =? 0)%nat = false).
  { unfold default_target. cbv zeta. cbn [Metrics].
    destruct (Metrics t) as [|x l]; cbn; split; congruence. }
  destruct Hm as [Hm1 Hm2].
  remember (Metrics (default_target t)) as ms eqn:Ems.
  assert (Hd : default_target t
               = {| Name := Name t; Runtime := Runtime t; Metrics := ms;
                    SamplingRate := SamplingRate t |}).
  { rewrite Ems. unfold default_target. cbv zeta. now rewrite Hr. }
  rewrite Hd. cbn [Name Runtime SamplingRate Metrics].
  split; [| split; [| split; [| split; [| split]]]]; try reflexivity.
  - exact H.
  - unfold default_target. cbv zeta.
    cbn [SamplingRate Metrics Name Runtime]. now rewrite Hr, Hm2.
  - exact Hm1.
Qed.

Lemma default_thresholds_valid t :
  PrimFloat.leb (CPU t) 0 = false ->
  PrimFloat.leb (Memory t) 0 = false ->
  PrimFloat.leb (NetworkLatency t) 0 = false ->
  default_thresholds t = t.
Proof.
  intros H1 H2 H3. unfold default_thresholds.
  rewrite (leb_false_eqb_false _ _ H1), (leb_false_eqb_false _ _ H2),
    (leb_false_eqb_false _ _ H3).
  now destruct t.
Qed.

(** X21. What Load returns is valid and complete.  Whenever Load
    succeeds, the configuration it returns passes Validate again and
    SetDefaults leaves it unchanged; its alert thresholds are the ones
    the file gave, and every target keeps the name, runtime and
    sampling rate of the file (at least one second) and has a non-empty
    metric list; the refresh rate and the container limit are not 0,
    and the theme, memory limit and log level are not empty. *)
Theorem Load_returns_a_valid_complete_config
    (parsed : Config) (loaded : Config) :
  Load (Parsed parsed) = inl loaded ->
  Validate loaded = None
  /\ SetDefaults loaded = loaded
  /\ Thresholds (Monitoring loaded) = Thresholds (Monitoring parsed)
  /\ map Name (Targets (Monitoring loaded))
     = map Name (Targets (Monitoring parsed))
  /\ map Runtime (Targets (Monitoring loaded))
     = map Runtime (Targets (Monitoring parsed))
  /\ map SamplingRate (Targets (Monitoring loaded))
     = map SamplingRate (Targets (Monitoring parsed))
  /\ Forall (fun t => Metrics t <> [] /\ Second <= SamplingRate t)
       (Targets (Monitoring loaded))
  /\ RefreshRate (Display loaded) <> 0
  /\ MaxContainers (System loaded) <> 0
  /\ Theme (Display loaded) <> ""
  /\ MemoryLimit (System loaded) <> ""
  /\ LogLevel (System loaded) <> "".
Proof.
  unfold Load. destruct (Validate parsed) eqn:Ev; [discriminate |].
  intros [= <-].
  destruct (Validate_None parsed Ev) as (Hne & Ht & C1 & C2 & M1 & M2 & L1).
  pose proof (default_thresholds_valid _ C1 M1 L1) as Hth.
  apply (validate_targets_None _ 0%nat) in Ht.
  assert (Htargets :
            Forall (fun t => validate_target 0 t = None)
              (map default_target (Targets (Monitoring parsed)))
            /\ map default_target
                 (map default_target (Targets (Monitoring parsed)))
               = map default_target (Targets (Monitoring parsed))
            /\ map Name (map default_target (Targets (Monitoring parsed)))
               = map Name (Targets (Monitoring parsed))
            /\ map Runtime (map default_target (Targets (Monitoring parsed)))
               = map Runtime (Targets (Monitoring parsed))
            /\ map SamplingRate
                 (map default_target (Targets (Monitoring parsed)))
               = map SamplingRate (Targets (Monitoring parsed))
            /\ Forall (fun t => Metrics t <> [] /\ Second <= SamplingRate t)
                 (map default_target (Targets (Monitoring parsed)))).
  { clear -Ht. induction Ht as [|t ts H _ IH].
    - cbn. repeat split; constructor.
    - destruct IH as (I1 & I2 & I3 & I4 & I5 & I6).
      destruct (default_target_valid t H) as (D1 & D2 & D3 & D4 & D5 & D6).
      pose proof (validate_target_None 0 _ D1) as (_ & _ & _ & Hs).
      cbn [map]. rewrite I2, I3, I4, I5, D2, D4, D5, D6.
      repeat split; constructor; auto. }
  destruct Htargets as (T1 & T2 & T3 & T4 & T5 & T6).
  assert (Hstr : forall (x d : string), d <> "" ->
                   (if String.eqb x "" then d else x) <> ""
                   /\ String.eqb (if String.eqb x "" then d else x) "" = false).
  { intros x d Hd. destruct (String.eqb x "") eqn:E.
    - split; [assumption | now apply String.eqb_neq].
    - split; [now apply String.eqb_neq | assumption]. }
  assert (Hz : forall (x d : Z), d <> 0 ->
                 (if x =? 0 then d else x) <> 0
                 /\ ((if x =? 0 then d else x) =? 0) = false).
  { intros x d Hd. destruct (x =? 0) eqn:E.
    - split; [assumption | now apply Z.eqb_neq].
    - split; [now apply Z.eqb_neq | assumption]. }
  destruct (Hz (RefreshRate (Display parsed)) (100 * Millisecond))
    as [Z1 Z1']; [discriminate |].
  destruct (Hz (MaxContainers (System parsed)) 1000) as [Z2 Z2'];
    [discriminate |].
  destruct (Hstr (Theme (Display parsed)) "default") as [S1 S1'];
    [discriminate |].
  destruct (Hstr (MemoryLimit (System parsed)) "48MB") as [S2 S2'];
    [discriminate |].
  destruct (Hstr (LogLevel (System parsed)) "info") as [S3 S3'];
    [discriminate |].
  split; [| split].
  - unfold Validate.
    cbn [Monitoring SetDefaults Targets Thresholds]. rewrite Hth.
    rewrite length_map.
    pose proof (proj2 (validate_targets_None _ 0%nat) T1) as T1'.
    rewrite T1'.
    destruct (Targets (Monitoring parsed)) as [|t ts] eqn:Et; [congruence |].
    cbn [length Nat.eqb]. cbv zeta.
    now rewrite C1, C2, M1, M2, L1.
  - unfold SetDefaults.
    cbn [Monitoring Display System Targets Thresholds
         RefreshRate Theme MaxContainers MemoryLimit LogLevel].
    rewrite T2, !Hth, Z1', Z2', S1', S2', S3'. reflexivity.
  - cbn [Monitoring Display System SetDefaults Targets Thresholds
         RefreshRate Theme MaxContainers MemoryLimit LogLevel].
    rewrite Hth. repeat split; assumption.
Qed.

Lemma Load_returns_a_valid_complete_config_witness :
  exists loaded,
    Load (Parsed MoreScenarios.minimal_config) = inl loaded
    /\ Validate loaded = None /\ SetDefaults loaded = loaded.
Proof.
  assert (E : exists loaded,
             Load (Parsed MoreScenarios.minimal_config) = inl loaded)
    by (eexists; vm_compute; reflexivity).
  destruct E as (loaded & E). exists loaded. split; [exact E |].
  destruct (Load_returns_a_valid_complete_config _ _ E) as (H1 & H2 & _).
  split; assumption.
Defined.

(** The configuration with its three alert thresholds replaced. *)
Definition with_thresholds (t : AlertThresholds) (c : Config) : Config :=
  {| Monitoring := {| Targets := Targets (Monitoring c); Thresholds := t |};
     Display := Display c; System := System c |}.

Definition nan_thresholds : AlertThresholds :=
  {| CPU := PrimFloat.nan; Memory := PrimFloat.nan;
     NetworkLatency := PrimFloat.nan |}.

(** X22. The range checks of Validate are written as rejections
    (threshold <= 0, threshold > 100), and every comparison with a NaN
    is false, so a NaN threshold is in range for Validate: whenever a
    configuration is valid, the same configuration with all three alert
    thresholds NaN is valid as well, SetDefaults does not replace them
    (NaN is not equal to 0), and Load returns it with the NaN
    thresholds. *)
Theorem Load_accepts_nan_thresholds (c : Config) :
  Validate c = None ->
  Validate (with_thresholds nan_thresholds c) = None
  /\ exists loaded,
       Load (Parsed (with_thresholds nan_thresholds c)) = inl loaded
       /\ Thresholds (Monitoring loaded) = nan_thresholds.
Proof.
  intros Hv. destruct (Validate_None c Hv) as (Hne & Ht & _).
  assert (Hvn : Validate (with_thresholds nan_thresholds c) = None).
  { unfold Validate. cbn [with_thresholds Monitoring Targets Thresholds].
    rewrite Ht. destruct (Targets (Monitoring c)); [congruence |].
    reflexivity. }
  split; [exact Hvn |]. unfold Load. rewrite Hvn. eexists.
  split; [reflexivity |]. reflexivity.
Qed.

Lemma Load_accepts_nan_thresholds_witness :
  exists loaded,
    Load (Parsed (with_thresholds nan_thresholds MoreScenarios.minimal_config))
      = inl loaded
    /\ Thresholds (Monitoring loaded) = nan_thresholds.
Proof.
  exact (proj2 (Load_accepts_nan_thresholds MoreScenarios.minimal_config
                  ltac:(vm_compute; reflexivity))).
Defined.

Lemma validate_targets_first targets : forall k e,
  validate_targets k targets = Some e ->
  exists i t,
    targets !! i = Some t
    /\ validate_target (k + i) t = Some e
    /\ forall j t', (j < i)%nat -> targets !! j = Some t' ->
                    validate_target (k + j) t' = None.
Proof.
  induction targets as [|t ts IH]; intros k e H; [discriminate H |].
  cbn [validate_targets] in H.
  destruct (validate_target k t) as [e0|] eqn:E.
  - injection H as ->. exists 0%nat, t. rewrite Nat.add_0_r.
    split; [reflexivity |]. split; [assumption |]. intros j t' Hj. lia.
  - destruct (IH _ _ H) as (i & t0 & Hi & He & Hbefore).
    exists (S i), t0. split; [exact Hi |].
    split; [now rewrite Nat.add_succ_r |].
    intros [|j] t' Hj Hl.
    + cbn in Hl. injection Hl as <-. now rewrite Nat.add_0_r.
    + rewrite Nat.add_succ_r. apply Hbefore; [lia | exact Hl].
Qed.

(** X23. Validate reports the first target that fails, by its position
    counted from 0, and reports nothing else: if some target fails a
    check, the error Validate returns is the error of the first such
    target in file order, tagged with its index; every target before it
    passes all four checks, and neither the later targets nor the alert
    thresholds are looked at. *)
Theorem Validate_reports_the_first_bad_target (c : Config) (e : validate_error) :
  validate_targets 0 (Targets (Monitoring c)) = Some e ->
  Validate c = Some e
  /\ (forall t, Validate (with_thresholds t c) = Some e)
  /\ exists i target,
       Targets (Monitoring c) !! i = Some target
       /\ validate_target i target = Some e
       /\ (e = TargetNameEmpty i \/ e = TargetRuntimeEmpty i
           \/ e = TargetRuntimeUnsupported i (Runtime target)
           \/ e = TargetSamplingRateTooSmall i)
       /\ forall j earlier, (j < i)%nat ->
            Targets (Monitoring c) !! j = Some earlier ->
            Name earlier <> "" /\ Runtime earlier <> ""
            /\ validRuntimes (Runtime earlier) = true
            /\ Second <= SamplingRate earlier.
Proof.
  intros H.
  assert (Hv : forall t, Validate (with_thresholds t c) = Some e).
  { intros t. unfold Validate.
    cbn [with_thresholds Monitoring Targets Thresholds]. rewrite H.
    destruct (Targets (Monitoring c)); [discriminate H | reflexivity]. }
  split; [| split; [exact Hv |]].
  - unfold Validate. rewrite H.
    destruct (Targets (Monitoring c)); [discriminate H | reflexivity].
  - destruct (validate_targets_first _ _ _ H) as (i & t & Hi & He & Hb).
    cbn [Nat.add] in He. exists i, t. split; [exact Hi |].
    split; [exact He |]. split.
    + unfold validate_target in He.
      destruct (String.eqb (Name t) ""); [injection He; auto |].
      destruct (String.eqb (Runtime t) ""); [injection He; auto |].
      destruct (negb (validRuntimes (Runtime t))); [injection He; auto |].
      destruct (SamplingRate t <? Second); [injection He; auto 6 | discriminate].
    + intros j earlier Hj Hl. apply (validate_target_None j).
      exact (Hb j earlier Hj Hl).
Qed.

Lemma Validate_reports_the_first_bad_target_witness :
  Validate MoreScenarios.podman_config
  = Some (TargetRuntimeUnsupported 1 "podman").
Proof.
  exact (proj1 (Validate_reports_the_first_bad_target
                  MoreScenarios.podman_config
                  (TargetRuntimeUnsupported 1 "podman")
                  ltac:(vm_compute; reflexivity))).
Defined.

End ConfigLoadProofs.

(** * More properties of the memory manager and its pools *)

Module MemoryProofs.

Import Pool Memory.
Local Open Scope string_scope.
Local Open Scope list_scope.
Local Open Scope Z_scope.

Section Fifo.

Context {A : Type}.

(** What Put stores for an object. *)
Definition cleared (p : ObjectPool A) (a : A) : A :=
  match reset p with Some r => r a | None => a end.

(** [n] calls of Get, with what they returned. *)
Fixpoint get_many (n : nat) (p : ObjectPool A) : ObjectPool A * list (iface A) :=
  match n with
  | O => (p, [])
  | S n' =>
      let '(p1, obj) := Get p in
      let '(p2, objs) := get_many n' p1 in
      (p2, obj :: objs)
  end.

Definition put_all (xs : list A) (p : ObjectPool A) : ObjectPool A :=
  run_ops (map (fun x => OpPut (Some x)) xs) p.

Lemma put_all_buf xs : forall p : ObjectPool A,
  (length (chan_buf (objects p)) + length xs <= chan_cap (objects p))%nat ->
  chan_buf (objects (put_all xs p))
    = chan_buf (objects p) ++ map (fun x => Some (cleared p x)) xs
  /\ chan_cap (objects (put_all xs p)) = chan_cap (objects p)
  /\ reset (put_all xs p) = reset p
  /\ factory (put_all xs p) = factory p
  /\ created (put_all xs p) = created p
  /\ misses (put_all xs p) = misses p
  /\ hits (put_all xs p) = hits p.
Proof.
  induction xs as [|x xs IH]; intros p Hlen.
  - cbn. rewrite app_nil_r. tauto.
  - cbn [length] in Hlen. unfold put_all. cbn [map run_ops fold_left run_op].
    fold (run_ops (map (fun x => OpPut (Some x)) xs) (fst (Put (Some x) p))).
    fold (put_all xs (fst (Put (Some x) p))).
    assert (Hp : fst (Put (Some x) p)
                 = with_objects (chan_buf (objects p) ++ [Some (cleared p x)]) p).
    { unfold Put. cbv zeta.
      replace (length (chan_buf (objects p)) <? chan_cap (objects p))%nat
        with true by (symmetry; apply Nat.ltb_lt; lia).
      reflexivity. }
    rewrite Hp.
    destruct (IH (with_objects (chan_buf (objects p) ++ [Some (cleared p x)]) p))
      as (I1 & I2 & I3 & I4 & I5 & I6 & I7).
    { cbn [with_objects objects chan_buf chan_cap].
      rewrite List.length_app. cbn [length]. lia. }
    rewrite I1, I2, I3, I4, I5, I6, I7.
    cbn [with_objects objects chan_buf chan_cap reset factory created misses
         hits map].
    rewrite <- List.app_assoc. cbn [app]. unfold cleared at 2.
    cbn [reset with_objects]. fold (cleared p). tauto.
Qed.

Lemma get_many_buf objs : forall (p : ObjectPool A) rest,
  chan_buf (objects p) = objs ++ rest ->
  snd (get_many (length objs) p) = objs
  /\ chan_buf (objects (fst (get_many (length objs) p))) = rest
  /\ created (fst (get_many (length objs) p)) = created p
  /\ misses (fst (get_many (length objs) p)) = misses p.
Proof.
  induction objs as [|o objs IH]; intros p rest Hbuf.
  - cbn. auto.
  - cbn [length get_many].
    assert (HG : exists q, Get p = (q, o)
                           /\ chan_buf (objects q) = objs ++ rest
                           /\ created q = created p /\ misses q = misses p).
    { unfold Get. rewrite Hbuf. cbn [app]. eexists. split; [reflexivity |].
      cbn. auto. }
    destruct HG as (q & -> & Q1 & Q2 & Q3).
    destruct (IH q rest Q1) as (I1 & I2 & I3 & I4).
    destruct (get_many (length objs) q) as [p2 os].
    cbn [fst snd] in *. rewrite I1, I2, I3, I4. auto.
Qed.

(** X24. A pool is a queue.  Put into a pool that has room for them,
    objects come back from Get in the order they were put, each as the
    reset function left it, after whatever the pool already held; the
    factory is not called for any of them (the created and miss
    counters stay as they were), and once as many objects were taken
    as the pool held the pool is empty. *)
Theorem pool_returns_objects_in_put_order (p : ObjectPool A) (xs : list A) :
  (length (chan_buf (objects p)) + length xs <= chan_cap (objects p))%nat ->
  let held := chan_buf (objects p) in
  let taken := get_many (length held + length xs) (put_all xs p) in
  snd taken = held ++ map (fun x => Some (cleared p x)) xs
  /\ chan_buf (objects (fst taken)) = []
  /\ created (fst taken) = created p /\ misses (fst taken) = misses p.
Proof.
  intros Hlen. cbv zeta.
  destruct (put_all_buf xs p Hlen) as (B1 & _ & _ & _ & B5 & B6 & _).
  pose proof (get_many_buf
                (chan_buf (objects p) ++ map (fun x => Some (cleared p x)) xs)
                (put_all xs p) []) as Hg.
  rewrite List.length_app, length_map in Hg.
  destruct Hg as (G1 & G2 & G3 & G4); [now rewrite app_nil_r |].
  split; [exact G1 |]. split; [exact G2 |]. split; congruence.
Qed.

End Fifo.

Lemma pool_returns_objects_in_put_order_witness :
  snd (get_many 2 (put_all [5; 6] MoreScenarios.number_pool))
  = [Some 5; Some 6].
Proof.
  exact (proj1 (pool_returns_objects_in_put_order MoreScenarios.number_pool
                  [5; 6] ltac:(vm_compute; lia))).
Defined.

(** ** Counters of a pool *)

Section Counters.

Context {A : Type}.

Definition gets (ops : list (pool_op A)) : Z :=
  Z.of_nat (length (List.filter
                      (fun op => match op with OpGet => true | _ => false end)
                      ops)).

Lemma wrap_i64_add a b : wrap_i64 (wrap_i64 a + b) = wrap_i64 (a + b).
Proof.
  unfold wrap_i64.
  replace ((a + 2 ^ 63) mod 2 ^ 64 - 2 ^ 63 + b + 2 ^ 63)
    with ((a + 2 ^ 63) mod 2 ^ 64 + b) by lia.
  rewrite Zplus_mod_idemp_l.
  replace (a + 2 ^ 63 + b) with (a + b + 2 ^ 63) by lia. reflexivity.
Qed.

Lemma run_op_counters (p : ObjectPool A) op :
  created p = misses p ->
  created (run_op p op) = misses (run_op p op)
  /\ wrap_i64 (hits (run_op p op) + misses (run_op p op))
     = wrap_i64 (hits p + misses p
                 + match op with OpGet => 1 | _ => 0 end).
Proof.
  intros Hc. destruct op as [|[a|]]; cbn [run_op].
  - unfold Get. destruct (chan_buf (objects p)); cbn [fst created misses hits].
    + rewrite Hc. split; [reflexivity |].
      rewrite Z.add_comm, wrap_i64_add. f_equal. lia.
    + split; [assumption |]. rewrite wrap_i64_add. f_equal. lia.
  - unfold Put. cbv zeta. destruct (_ <? _)%nat; cbn; rewrite Z.add_0_r; auto.
  - cbn. rewrite Z.add_0_r. auto.
Qed.

(** X25. The counters of a pool.  Over any sequence of Get and Put on
    a pool whose created and miss counters agree (a new pool has both
    0), they still agree afterwards: an object is created exactly when
    a Get misses.  Hits plus misses grow by the number of Gets, in
    int64 arithmetic, and Puts never count. *)
Theorem every_get_is_a_hit_or_a_miss (p : ObjectPool A) (ops : list (pool_op A)) :
  created p = misses p ->
  created (run_ops ops p) = misses (run_ops ops p)
  /\ wrap_i64 (hits (run_ops ops p) + misses (run_ops ops p))
     = wrap_i64 (hits p + misses p + gets ops).
Proof.
  revert p. induction ops as [|op ops IH]; intros p Hc.
  - cbn. rewrite Z.add_0_r. auto.
  - cbn [run_ops fold_left]. fold (run_ops ops (run_op p op)).
    destruct (run_op_counters p op Hc) as [H1 H2].
    destruct (IH _ H1) as [I1 I2]. split; [exact I1 |].
    rewrite I2.
    rewrite <- (wrap_i64_add (hits (run_op p op) + misses (run_op p op))),
      H2, wrap_i64_add.
    f_equal. unfold gets. cbn [List.filter].
    destruct op; cbn [length]; lia.
Qed.

End Counters.

Lemma every_get_is_a_hit_or_a_miss_witness :
  created (run_ops [OpGet; OpPut (Some 5); OpGet; OpGet]
             MoreScenarios.number_pool)
  = misses (run_ops [OpGet; OpPut (Some 5); OpGet; OpGet]
              MoreScenarios.number_pool).
Proof.
  exact (proj1 (every_get_is_a_hit_or_a_miss MoreScenarios.number_pool
                  [OpGet; OpPut (Some 5); OpGet; OpGet] eq_refl)).
Defined.

(** ** The default pools and the optimizer *)

(** X26. The default pools do not check what they are given.  On a new
    memory manager, a container-metric object put into the
    container_metrics pool comes back from it zeroed; the same object
    put into the flow_keys pool is stored as it is, because the reset
    function of that pool only clears flow keys, and the next
    GetFromPool on flow_keys hands out the container metric with its
    contents.  A name that has no pool gives nil on GetFromPool, and
    PutToPool with it changes nothing. *)
Theorem default_pools_do_not_check_types
    (maxMem : Z) (c : Agent.ContainerMetric) :
  let mm := NewMemoryManager maxMem in
  snd (GetFromPool "container_metrics"
         (fst (PutToPool "container_metrics" (Some (PContainerMetric c)) mm)))
    = Some (PContainerMetric Agent.ContainerMetric_zero)
  /\ snd (GetFromPool "flow_keys"
            (fst (PutToPool "flow_keys" (Some (PContainerMetric c)) mm)))
     = Some (PContainerMetric c)
  /\ GetFromPool "metrics" mm = (mm, None)
  /\ PutToPool "metrics" (Some (PContainerMetric c)) mm
     = (mm, Some (PContainerMetric c)).
Proof.
  cbv zeta. repeat split; vm_compute; reflexivity.
Qed.

Lemma drain_drop n : forall buf, drain n buf = drop n buf.
Proof.
  induction n as [|n IH]; intros buf; [now rewrite drop_0 |].
  destruct buf as [|o rest]; cbn [drain]; [| apply IH].
  rewrite IH. now rewrite !drop_nil.
Qed.

(** X27. What OptimizeMemory does at each level.  The critical
    threshold is tested first: above it, whatever the warning threshold
    is, it counts one forced collection and sweeps every pool: of the n
    objects a pool holds, the n/2 oldest are dropped and the others
    stay in order, so a pool of one object is never emptied; the
    counters of the pools are not touched.  At or below the critical
    threshold it counts one forced collection and leaves every pool
    alone when the memory is above the warning threshold, and changes
    nothing otherwise.  The thresholds NewMemoryOptimizer computes for
    a limit maxMemory are in order (warning at most critical) as long
    as maxMemory * 85 does not overflow a uint64; with such thresholds
    memory up to the warning threshold changes nothing. *)
Theorem OptimizeMemory_drops_the_older_half (now : Z) (mo : MemoryOptimizer) :
  let current := currentMemory (manager mo) in
  let mo' := OptimizeMemory now mo in
  (Critical (thresholds mo) < current ->
   GCCount (memoryStats (manager mo'))
     = wrap64 (GCCount (memoryStats (manager mo)) + 1)
   /\ LastGC (memoryStats (manager mo')) = now
   /\ forall nm,
        pools (manager mo') !! nm
        = (fun p =>
             with_objects
               (drop (length (chan_buf (objects p)) / 2)
                  (chan_buf (objects p))) p)
          <$> pools (manager mo) !! nm)
  /\ (current <= Critical (thresholds mo) -> Warning (thresholds mo) < current ->
      pools (manager mo') = pools (manager mo)
      /\ GCCount (memoryStats (manager mo'))
         = wrap64 (GCCount (memoryStats (manager mo)) + 1)
      /\ LastGC (memoryStats (manager mo')) = now)
  /\ (current <= Critical (thresholds mo) -> current <= Warning (thresholds mo) ->
      mo' = mo)
  /\ (forall maxMem,
        0 <= maxMem -> maxMem * 85 < 2 ^ 64 ->
        Warning (thresholds (NewMemoryOptimizer maxMem))
          <= Critical (thresholds (NewMemoryOptimizer maxMem))
        /\ (thresholds mo = thresholds (NewMemoryOptimizer maxMem) ->
            current <= Warning (thresholds mo) -> mo' = mo)).
Proof.
  cbv zeta.
  assert (Hno : currentMemory (manager mo) <= Critical (thresholds mo) ->
                currentMemory (manager mo) <= Warning (thresholds mo) ->
                OptimizeMemory now mo = mo).
  { intros H1 H2. unfold OptimizeMemory, GetCurrentMemory. cbv zeta.
    destruct (Critical (thresholds mo) <? currentMemory (manager mo)) eqn:E1;
      [apply Z.ltb_lt in E1; lia |].
    destruct (Warning (thresholds mo) <? currentMemory (manager mo)) eqn:E2;
      [apply Z.ltb_lt in E2; lia | reflexivity]. }
  split; [| split; [| split; [exact Hno |]]].
  - intros H1. unfold OptimizeMemory, GetCurrentMemory. cbv zeta.
    destruct (Critical (thresholds mo) <? currentMemory (manager mo)) eqn:E1;
      [| apply Z.ltb_ge in E1; lia].
    split; [reflexivity |]. split; [reflexivity |]. intros nm.
    cbn [clearObjectPools manager pools with_pools ForceGC with_stats].
    rewrite lookup_fmap. destruct (pools (manager mo) !! nm) as [p|];
      [| reflexivity].
    cbn [fmap option_fmap option_map]. unfold clear_half. cbv zeta.
    now rewrite drain_drop.
  - intros H1 H2. unfold OptimizeMemory, GetCurrentMemory. cbv zeta.
    destruct (Critical (thresholds mo) <? currentMemory (manager mo)) eqn:E1;
      [apply Z.ltb_lt in E1; lia |].
    destruct (Warning (thresholds mo) <? currentMemory (manager mo)) eqn:E2;
      [| apply Z.ltb_ge in E2; lia].
    cbn. auto.
  - intros maxMem H0 H85.
    assert (Hord : Warning (thresholds (NewMemoryOptimizer maxMem))
                   <= Critical (thresholds (NewMemoryOptimizer maxMem))).
    { cbn [NewMemoryOptimizer thresholds Warning Critical]. unfold wrap64.
      rewrite !Z.mod_small by lia. apply Z.div_le_mono; lia. }
    split; [exact Hord |].
    intros Ht H2. apply Hno; [| exact H2]. rewrite Ht in *. lia.
Qed.

(** 900 of 1000 bytes is above the critical threshold of 850: of the
    two flow keys pooled, one is dropped. *)
Lemma OptimizeMemory_drops_the_older_half_witness :
  (fun p => length (chan_buf (objects p)))
    <$> pools (manager (OptimizeMemory 5 MoreScenarios.pressed_optimizer))
        !! "flow_keys"
  = Some 1%nat.
Proof.
  rewrite (proj2 (proj2 (proj1 (OptimizeMemory_drops_the_older_half 5
                                  MoreScenarios.pressed_optimizer)
                           ltac:(vm_compute; reflexivity)))).
  vm_compute. reflexivity.
Defined.

End MemoryProofs.

(** * More properties of the runtime resolver *)

Module ResolverProofs.

Import GoStrings Runtime.
Local Open Scope string_scope.
Local Open Scope list_scope.

(** An id is only extracted from a line that contains the signature the
    line is split at. *)
Lemma extractContainerID_nonempty line runtime :
  extractContainerID line runtime <> "" ->
  exists sep, RuntimeProofs.split_signature runtime = Some sep
              /\ Contains line sep = true.
Proof.
  unfold extractContainerID, RuntimeProofs.split_signature.
  assert (H : forall sep, second_part (Split line sep) <> "" ->
                          Contains line sep = true).
  { intros sep Hne. destruct (Contains line sep) eqn:E; [reflexivity |].
    rewrite (RuntimeProofs.Split_without_separator _ _ E) in Hne. now contradiction Hne. }
  destruct (String.eqb runtime "docker"); [eauto |].
  destruct (String.eqb runtime "containerd"); [eauto |].
  destruct (String.eqb runtime "cri-o"); [eauto |].
  intros Hne. now contradiction Hne.
Qed.

Lemma scan_cgroup_lines_Some lines runtime pid clock r :
  scan_cgroup_lines lines runtime pid clock = Some r ->
  In (CgroupPath r) lines
  /\ isContainerCgroup (CgroupPath r) runtime = true
  /\ ID r = extractContainerID (CgroupPath r) runtime
  /\ ID r <> "" /\ Status r = "running" /\ Runtime.Runtime r = runtime
  /\ PID r = pid /\ Name r = "" /\ Image r = "" /\ CgroupID r = 0%Z
  /\ Labels r = None.
Proof.
  induction lines as [|line rest IH]; [discriminate |].
  cbn [scan_cgroup_lines].
  destruct (isContainerCgroup line runtime) eqn:E1.
  - cbv zeta.
    destruct (String.eqb (extractContainerID line runtime) "") eqn:E2;
      cbn [negb].
    + intros H. destruct (IH H) as (I1 & I2). split; [now right | exact I2].
    + intros [= <-]. cbn [CgroupPath ID Status Runtime.Runtime PID Name Image
                           CgroupID Labels].
      apply String.eqb_neq in E2. repeat split; auto. now left.
  - intros H. destruct (IH H) as (I1 & I2). split; [now right | exact I2].
Qed.

Lemma scan_unknown_tag lines runtime pid clock :
  String.eqb runtime "docker" = false ->
  String.eqb runtime "containerd" = false ->
  String.eqb runtime "cri-o" = false ->
  scan_cgroup_lines lines runtime pid clock = None.
Proof.
  intros H1 H2 H3. induction lines as [|line rest IH]; [reflexivity |].
  cbn [scan_cgroup_lines]. unfold isContainerCgroup.
  now rewrite H1, H2, H3.
Qed.

Lemma omap_all_None {X Y} (f : X -> option Y) l :
  (forall x, f x = None) -> omap f l = [].
Proof.
  intros H. induction l as [|x l IH]; [reflexivity |].
  cbn [omap list_omap]. now rewrite H.
Qed.

Lemma omap_In {X Y} (f : X -> option Y) l y :
  In y (omap f l) -> exists x, In x l /\ f x = Some y.
Proof.
  induction l as [|x l IH]; [intros [] |].
  cbn [omap list_omap]. destruct (f x) as [y'|] eqn:E.
  - intros [<- | H]; [exists x; split; [now left | exact E] |].
    destruct (IH H) as (x' & Hx & Hf). exists x'. split; [now right | exact Hf].
  - intros H. destruct (IH H) as (x' & Hx & Hf).
    exists x'. split; [now right | exact Hf].
Qed.

Lemma omap_length {X Y} (f : X -> option Y) l :
  (length (omap f l) <= length l)%nat.
Proof.
  induction l as [|x l IH]; [reflexivity |].
  cbn [omap list_omap]. destruct (f x); cbn [length]; lia.
Qed.

Lemma parse_In proc runtime clock r :
  In r (parseContainersFromCgroup proc runtime clock) ->
  exists lines,
    In (PID r, Some lines) proc
    /\ scan_cgroup_lines lines runtime (PID r) clock = Some r.
Proof.
  unfold parseContainersFromCgroup. intros H. apply omap_In in H.
  destruct H as ([pid file] & Hin & Hf). cbn [fst snd] in Hf.
  destruct file as [lines|]; [| discriminate Hf]. cbn [parseCgroupFile] in Hf.
  pose proof (scan_cgroup_lines_Some _ _ _ _ _ Hf) as (_ & _ & _ & _ & _ & _ & Hp & _).
  exists lines. rewrite Hp. split; [exact Hin | exact Hf].
Qed.

(** X28. What GetContainers returns.  For a name other than docker,
    containerd and cri-o it returns the unsupported-runtime error.  For
    cri-o it returns the empty list whatever /proc holds, because it
    asks the cgroup parser for the tag crio, which the line classifier
    does not know.  For docker and containerd it returns at most one
    record per process; every record carries the pid of a process of
    the listing, a line of that process's cgroup file as cgroup path,
    the runtime asked for, status running, no name, no image, cgroup id
    0 and no labels, and its id is not empty and was extracted from
    that line, which contains /docker/ (or /containerd/): a line that
    only carries the second signature never gives a record. *)
Theorem GetContainers_records
    (proc : list (Z * option (list string))) (runtime : string)
    (clock : nat -> Z) :
  (runtime <> "docker" -> runtime <> "containerd" -> runtime <> "cri-o" ->
   GetContainers proc runtime clock = inr (UnsupportedRuntime runtime))
  /\ (runtime = "cri-o" -> GetContainers proc runtime clock = inl [])
  /\ (runtime = "docker" \/ runtime = "containerd" ->
      exists records,
        GetContainers proc runtime clock = inl records
        /\ (length records <= length proc)%nat
        /\ forall r, In r records ->
             (exists lines, In (PID r, Some lines) proc
                            /\ In (CgroupPath r) lines)
             /\ Contains (CgroupPath r) ("/" +:+ runtime +:+ "/") = true
             /\ ID r = extractContainerID (CgroupPath r) runtime
             /\ ID r <> "" /\ Status r = "running"
             /\ Runtime.Runtime r = runtime
             /\ Name r = "" /\ Image r = "" /\ CgroupID r = 0%Z
             /\ Labels r = None).
Proof.
  split; [| split].
  - intros H1 H2 H3. unfold GetContainers.
    apply String.eqb_neq in H1, H2, H3. now rewrite H1, H2, H3.
  - intros ->. unfold GetContainers. cbn [String.eqb Ascii.eqb Bool.eqb].
    f_equal. unfold parseContainersFromCgroup. apply omap_all_None.
    intros [pid [lines|]]; [| reflexivity]. cbn [parseCgroupFile fst snd].
    now apply scan_unknown_tag.
  - intros Hrt.
    assert (Hget : GetContainers proc runtime clock
                   = inl (parseContainersFromCgroup proc runtime clock))
      by (destruct Hrt as [-> | ->]; reflexivity).
    eexists. split; [exact Hget |]. split; [apply omap_length |].
    intros r Hr. apply parse_In in Hr. destruct Hr as (lines & Hin & Hscan).
    pose proof (scan_cgroup_lines_Some _ _ _ _ _ Hscan)
      as (S1 & S2 & S3 & S4 & S5 & S6 & S7 & S8 & S9 & S10 & S11).
    split; [exists lines; split; assumption |].
    split; [| repeat split; assumption].
    assert (Hid : extractContainerID (CgroupPath r) runtime <> "")
      by now rewrite <- S3.
    apply extractContainerID_nonempty in Hid. destruct Hid as (sep & Hsep & Hc).
    destruct Hrt as [-> | ->]; injection Hsep as <-; exact Hc.
Qed.

Lemma GetContainers_records_witness :
  GetContainers [(7%Z, Some ["0::/crio-4f5e"; "1:name=systemd:/crio/4f5e"])]
    "cri-o" Scenarios.wall_clock = inl [].
Proof.
  exact (proj1 (proj2 (GetContainers_records
                         [(7%Z, Some ["0::/crio-4f5e";
                                      "1:name=systemd:/crio/4f5e"])]
                         "cri-o" Scenarios.wall_clock)) eq_refl).
Defined.

End ResolverProofs.

(** * Properties of the runtime detector *)

Module DetectionProofs.

Import GoStrings Detection.
Local Open Scope string_scope.
Local Open Scope list_scope.
Local Open Scope Z_scope.






End DetectionProofs.

(** * Properties of the process manager *)

Module ProcessKillProofs.

Import GoStrings Agent ProcessKill.
Local Open Scope string_scope.
Local Open Scope list_scope.
Local Open Scope Z_scope.

(** The signals among the actions of a log, in order. *)
Definition signals (log : list action) : list (Z * Z) :=
  omap (fun a => match a with Signal pid sig => Some (pid, sig) | _ => None end)
    log.

Lemma signals_app l1 l2 : signals (l1 ++ l2) = signals l1 ++ signals l2.
Proof.
  unfold signals. induction l1 as [|a l1 IH]; [reflexivity |].
  cbn [app omap list_omap]. destruct a; cbn; now rewrite ?IH.
Qed.

(** What a job adds to the log. *)
Definition extends {T} (j : job T) (P : list action -> T -> Prop) : Prop :=
  forall log, exists new, fst (j log) = log ++ new /\ P new (snd (j log)).

Lemma extends_ret {T} (x : T) (P : list action -> T -> Prop) :
  P [] x -> extends (ret x) P.
Proof. intros H log. exists []. cbn. now rewrite app_nil_r. Qed.

Lemma extends_bind {T U} (j : job T) (k : T -> job U)
    (P : list action -> T -> Prop) (Q : list action -> U -> Prop) :
  extends j P ->
  (forall new x, P new x ->
     extends (k x) (fun new' y => Q (new ++ new') y)) ->
  extends (bind j k) Q.
Proof.
  intros Hj Hk log. unfold bind.
  destruct (Hj log) as (new & Hlog & HP).
  destruct (j log) as [log1 x]. cbn [fst snd] in *. subst log1.
  destruct (Hk new x HP (log ++ new)) as (new' & Hlog' & HQ).
  exists (new ++ new'). rewrite Hlog', List.app_assoc. auto.
Qed.

Lemma extends_weaken {T} (j : job T) (P Q : list action -> T -> Prop) :
  extends j P -> (forall new x, P new x -> Q new x) -> extends j Q.
Proof.
  intros H HPQ log. destruct (H log) as (new & Hl & HP). eauto.
Qed.

Lemma extends_run w argv :
  extends (run w argv) (fun new _ => new = [Run argv]).
Proof. intros log. exists [Run argv]. auto. Qed.

Lemma extends_output w argv :
  extends (output w argv) (fun new _ => new = [Output argv]).
Proof. intros log. exists [Output argv]. auto. Qed.

Lemma extends_signal w pid sig :
  extends (sendSignal w pid sig) (fun new _ => new = [Signal pid sig]).
Proof. intros log. exists [Signal pid sig]. auto. Qed.

Lemma extends_sleep d :
  extends (sleep d) (fun new _ => new = [Sleep d]).
Proof. intros log. exists [Sleep d]. auto. Qed.

(** The runtime command lines send no signal. *)
Definition no_signal {T} (new : list action) (_ : T) : Prop := signals new = [].

Lemma run_err_no_signal w argv : extends (run_err w argv) no_signal.
Proof.
  unfold run_err. eapply extends_bind; [apply extends_run |].
  intros new ok ->. apply extends_ret. reflexivity.
Qed.

Lemma detect_no_signal w id :
  extends (detectContainerRuntime w id)
    (fun new runtime =>
       signals new = []
       /\ exists rest, new = Run ["docker"; "inspect"; id] :: rest).
Proof.
  unfold detectContainerRuntime.
  eapply extends_bind; [apply extends_run |]. intros new docker ->.
  destruct docker; [apply extends_ret; cbn; eauto |].
  eapply extends_bind; [apply extends_run |]. intros new containerd ->.
  destruct containerd; [apply extends_ret; cbn; eauto |].
  eapply extends_bind; [apply extends_run |]. intros new crio ->.
  destruct crio; apply extends_ret; cbn; eauto.
Qed.

Lemma killDocker_no_signal w id : extends (killDockerContainer w id) no_signal.
Proof.
  unfold killDockerContainer.
  eapply extends_bind; [apply extends_run |]. intros new ok ->.
  destruct ok; [now apply extends_ret |].
  eapply extends_weaken; [apply run_err_no_signal |].
  intros new x H. unfold no_signal in *. cbn. exact H.
Qed.

Lemma killCRIO_no_signal w id : extends (killCRIOContainer w id) no_signal.
Proof.
  unfold killCRIOContainer.
  eapply extends_bind; [apply extends_run |]. intros new ok ->.
  destruct ok; [now apply extends_ret |].
  eapply extends_weaken; [apply run_err_no_signal |].
  intros new x H. unfold no_signal in *. cbn. exact H.
Qed.

Lemma killContainerd_no_signal w id :
  extends (killContainerdContainer w id) no_signal.
Proof.
  unfold killContainerdContainer. cbv zeta.
  assert (Hforce : forall Q : list action -> option kill_error -> Prop,
            (forall new' y, signals new' = [] -> Q new' y) ->
            extends (run_err w ["ctr"; "task"; "kill"; "--signal"; "SIGKILL"; id])
              Q).
  { intros Q HQ. eapply extends_weaken; [apply run_err_no_signal |].
    intros new x H. now apply HQ. }
  assert (Hq : forall pre new' (y : option kill_error),
            signals pre = [] -> signals new' = [] -> no_signal (pre ++ new') y).
  { intros pre new' y H1 H2. unfold no_signal. now rewrite signals_app, H1, H2. }
  eapply extends_bind; [apply extends_run |]. intros new ok ->.
  destruct ok; [| apply Hforce; intros; now apply Hq].
  eapply extends_bind; [apply extends_sleep |]. intros new u ->.
  eapply extends_bind; [apply extends_output |]. intros new out ->.
  assert (Hend : forall new' (y : option kill_error),
            signals new' = [] ->
            no_signal
              ([Run ["ctr"; "task"; "kill"; "--signal"; "SIGTERM"; id]]
               ++ [Sleep (10 * Config.Second)]
               ++ [Output ["ctr"; "task"; "ls"]] ++ new') y).
  { intros new' y H. unfold no_signal. rewrite !signals_app, H. reflexivity. }
  destruct out as [text|]; [| now apply Hforce].
  destruct (negb (Contains text id)); [| now apply Hforce].
  apply extends_ret. now apply Hend.
Qed.

(** The signals killProcessByPID can send, in order. *)
Definition kill_sequence (pid : Z) (sent : list (Z * Z)) : Prop :=
  sent = [] \/ sent = [(pid, SIGTERM)] \/ sent = [(pid, SIGTERM); (pid, 0)]
  \/ sent = [(pid, SIGTERM); (pid, 0); (pid, SIGKILL)].

Lemma killProcessByPID_signals w pid :
  extends (killProcessByPID w pid)
    (fun new res =>
       kill_sequence pid (signals new)
       /\ (pid = 0 -> new = [] /\ res = Some (InvalidPID 0))
       /\ (res = None -> pid <> 0)).
Proof.
  unfold killProcessByPID. destruct (pid =? 0) eqn:E.
  - apply Z.eqb_eq in E. subst pid. apply extends_ret.
    unfold kill_sequence. cbn. split; [auto |]. split; [auto | discriminate].
  - apply Z.eqb_neq in E.
    eapply extends_bind; [apply extends_signal |]. intros new ok ->.
    destruct ok; cbn [negb].
    + eapply extends_bind; [apply extends_sleep |]. intros new u ->.
      eapply extends_bind; [apply extends_signal |]. intros new alive ->.
      destruct alive.
      * eapply extends_bind; [apply extends_signal |]. intros new ok ->.
        apply extends_ret. unfold kill_sequence. cbn.
        split; [auto |]. split; [intros; contradiction | auto].
      * apply extends_ret. unfold kill_sequence. cbn.
        split; [auto |]. split; [intros; contradiction | auto].
    + apply extends_ret. unfold kill_sequence. cbn.
      split; [auto |]. split; [intros; contradiction | discriminate].
Qed.

(** X30. What KillContainerProcess can do.  It only adds to the log of
    actions.  With an index outside the container list it does nothing
    and returns the invalid-index error.  Otherwise its first action is
    docker inspect on the id of the chosen container, and the only
    process it ever signals is that container's pid: the signals sent
    are none, or SIGTERM, then the probe with signal 0, then SIGKILL,
    in this order and each only after the one before.  Pid 0 is never
    signalled. *)
Theorem KillContainerProcess_signals_only_the_chosen_pid
    (w : World) (containers : list ContainerMetric) (containerIndex : Z)
    (log : list action) :
  exists new,
    fst (KillContainerProcess w containers containerIndex log) = log ++ new
    /\ (containerIndex < 0 \/ Z.of_nat (length containers) <= containerIndex ->
        new = []
        /\ snd (KillContainerProcess w containers containerIndex log)
           = Some (InvalidIndex containerIndex))
    /\ forall container,
         0 <= containerIndex ->
         containers !! Z.to_nat containerIndex = Some container ->
         (exists rest, new = Run ["docker"; "inspect"; ID container] :: rest)
         /\ kill_sequence (PID container) (signals new)
         /\ (PID container = 0 -> signals new = []).
Proof.
  unfold KillContainerProcess.
  destruct ((Z.of_nat (length containers) <=? containerIndex)
            || (containerIndex <? 0)) eqn:E.
  - exists []. cbn. rewrite app_nil_r. split; [reflexivity |].
    split; [auto |]. intros container Hi Hl. exfalso.
    apply lookup_lt_Some in Hl. apply orb_true_iff in E. lia.
  - apply orb_false_iff in E. destruct E as [E1 E2].
    apply Z.leb_gt in E1. apply Z.ltb_ge in E2.
    destruct (containers !! Z.to_nat containerIndex) as [c|] eqn:El;
      [| apply lookup_ge_None in El; lia].
    assert (H : extends
                  (bind (detectContainerRuntime w (ID c)) (fun runtime =>
                     if String.eqb runtime "docker"
                     then killDockerContainer w (ID c)
                     else if String.eqb runtime "containerd"
                     then killContainerdContainer w (ID c)
                     else if String.eqb runtime "cri-o"
                     then killCRIOContainer w (ID c)
                     else killProcessByPID w (PID c)))
                  (fun new res =>
                     (exists rest, new = Run ["docker"; "inspect"; ID c] :: rest)
                     /\ kill_sequence (PID c) (signals new)
                     /\ (PID c = 0 -> signals new = []))).
    { eapply extends_bind; [apply detect_no_signal |].
      intros pre runtime (Hpre & rest & ->).
      assert (Hquiet : forall j : job (option kill_error),
                extends j no_signal ->
                extends j
                  (fun new' res =>
                     (exists rest0,
                        (Run ["docker"; "inspect"; ID c] :: rest) ++ new'
                        = Run ["docker"; "inspect"; ID c] :: rest0)
                     /\ kill_sequence (PID c)
                          (signals
                             ((Run ["docker"; "inspect"; ID c] :: rest) ++ new'))
                     /\ (PID c = 0 ->
                         signals
                           ((Run ["docker"; "inspect"; ID c] :: rest) ++ new')
                         = []))).
      { intros j Hj. eapply extends_weaken; [exact Hj |].
        intros new res Hn. unfold no_signal in Hn.
        rewrite signals_app, Hpre, Hn. cbn [app].
        split; [eauto |]. split; [now left | auto]. }
      destruct (String.eqb runtime "docker");
        [apply Hquiet, killDocker_no_signal |].
      destruct (String.eqb runtime "containerd");
        [apply Hquiet, killContainerd_no_signal |].
      destruct (String.eqb runtime "cri-o");
        [apply Hquiet, killCRIO_no_signal |].
      eapply extends_weaken; [apply killProcessByPID_signals |].
      intros new res (Hk & Hz & _). rewrite signals_app, Hpre. cbn [app].
      split; [eauto |]. split; [exact Hk |].
      intros Hp. destruct (Hz Hp) as [-> _]. reflexivity. }
    destruct (H log) as (new & Hlog & Hnew). exists new.
    split; [exact Hlog |]. split; [lia |].
    intros container _ [= <-]. exact Hnew.
Qed.

(** The container of the scenario on a host without runtime tools: it
    is sent SIGTERM and found gone. *)
Lemma KillContainerProcess_signals_only_the_chosen_pid_witness :
  exists new,
    fst (KillContainerProcess MoreScenarios.bare_world [Scenarios.web_server]
           0 []) = new
    /\ kill_sequence 12345 (signals new).
Proof.
  destruct (KillContainerProcess_signals_only_the_chosen_pid
              MoreScenarios.bare_world [Scenarios.web_server] 0 [])
    as (new & Hlog & _ & H).
  exists new. split; [exact Hlog |].
  exact (proj1 (proj2 (H Scenarios.web_server ltac:(lia) eq_refl))).
Defined.

End ProcessKillProofs.
